(** * Amazon tariff checker: rate resolution, price decomposition,
      country normalisation and the tariff cache

    Shallow embedding of
    - [scripts/content.js]            ([fallbackCalculation], module [Content]),
    - [scripts/content-injection.js]  ([fallbackCalculation], module [Injection]),
    - the tariff API connector        ([normalizeCountryName],
      [adjustTariffForCountry], [fallbackTariffCheck], [constructCacheKey],
      [hasCachedTariffData], [getCachedTariffData], [cacheTariffData],
      module [Api]).

    Conventions of the embedding.
    - A JavaScript number is a value of [num]: a finite value carried as an
      exact rational, or one of [Infinity], [-Infinity], [NaN].  Finite
      arithmetic is exact (no rounding, no overflow) and zero is unsigned;
      division by zero and the arithmetic of the special values follow
      IEEE 754 as JavaScript does.  [parseFloat] (module [Page]) does round:
      it returns the double nearest to the decimal it reads, [Infinity]
      past the largest double.
    - A JavaScript string is a [string] whose characters are the code units
      0..255 (Latin-1); [toLowerCase], [trim] and [includes] are exact on
      those.
    - A plain object used as a dictionary is read through its own properties
      first and then through [Object.prototype]. *)

From stdpp Require Import gmap strings list fin_maps.
From Stdlib Require Import QArith Qminmax Qfield Qround Qpower Lqa Lia ZArith
  Ascii String List.
Import ListNotations.

Local Open Scope string_scope.
Local Open Scope Q_scope.

(** ** JavaScript numbers *)

Inductive num : Type :=
| Fin (q : Q)
| PInf
| NInf
| NaN.

Definition Qltb (a b : Q) : bool := negb (Qle_bool b a).

Module Num.

Definition neg (a : num) : num :=
  match a with
  | Fin q => Fin (- q)
  | PInf => NInf
  | NInf => PInf
  | NaN => NaN
  end.

Definition add (a b : num) : num :=
  match a, b with
  | NaN, _ | _, NaN => NaN
  | Fin x, Fin y => Fin (x + y)
  | PInf, NInf | NInf, PInf => NaN
  | PInf, _ | _, PInf => PInf
  | NInf, _ | _, NInf => NInf
  end.

Definition sub (a b : num) : num := add a (neg b).

(** Sign of a finite value: [Gt] positive, [Eq] zero, [Lt] negative. *)
Definition sgn (q : Q) : comparison := q ?= 0.

Definition inf_of (s : comparison) : num :=
  match s with
  | Gt => PInf
  | Lt => NInf
  | Eq => NaN
  end.

Definition flip (s : comparison) : comparison := CompOpp s.

Definition mul (a b : num) : num :=
  match a, b with
  | NaN, _ | _, NaN => NaN
  | Fin x, Fin y => Fin (x * y)
  | PInf, Fin y | Fin y, PInf => inf_of (sgn y)
  | NInf, Fin y | Fin y, NInf => inf_of (flip (sgn y))
  | PInf, PInf | NInf, NInf => PInf
  | PInf, NInf | NInf, PInf => NInf
  end.

Definition div (a b : num) : num :=
  match a, b with
  | NaN, _ | _, NaN => NaN
  | Fin x, Fin y =>
      if Qeq_bool y 0 then inf_of (sgn x) else Fin (x / y)
  | Fin _, PInf | Fin _, NInf => Fin 0
  | PInf, Fin y => if Qltb y 0 then NInf else PInf
  | NInf, Fin y => if Qltb y 0 then PInf else NInf
  | PInf, _ | NInf, _ => NaN
  end.

(** [a < b] *)
Definition ltb (a b : num) : bool :=
  match a, b with
  | NaN, _ | _, NaN => false
  | Fin x, Fin y => Qltb x y
  | _, NInf => false
  | NInf, _ => true
  | PInf, _ => false
  | Fin _, PInf => true
  end.

(** [a > b] *)
Definition gtb (a b : num) : bool := ltb b a.

(** [a === b] on numbers *)
Definition eqb (a b : num) : bool :=
  match a, b with
  | Fin x, Fin y => Qeq_bool x y
  | PInf, PInf | NInf, NInf => true
  | _, _ => false
  end.

(** Same number: rationals up to [Qeq], special values by name. *)
Definition same (a b : num) : Prop :=
  match a, b with
  | Fin x, Fin y => x == y
  | PInf, PInf | NInf, NInf | NaN, NaN => True
  | _, _ => False
  end.

End Num.

Infix "=n=" := Num.same (at level 70, no associativity).

(** ** JavaScript strings *)

Module Str.

Definition code (c : ascii) : N := N_of_ascii c.

(** [String.prototype.toLowerCase] on one Latin-1 code unit: A-Z and the
    accented capitals U+00C0..U+00DE (but not the sign U+00D7) move up
    by 32. *)
Definition lower_char (c : ascii) : ascii :=
  let n := code c in
  if ((65 <=? n) && (n <=? 90))%N then ascii_of_N (n + 32)
  else if ((192 <=? n) && (n <=? 222) && negb (n =? 215))%N
       then ascii_of_N (n + 32)
  else c.

Fixpoint toLowerCase (s : string) : string :=
  match s with
  | EmptyString => EmptyString
  | String c r => String (lower_char c) (toLowerCase r)
  end.

(** White space and line terminators removed by [String.prototype.trim]:
    TAB, LF, VT, FF, CR, SPACE and NO-BREAK SPACE. *)
Definition is_space (c : ascii) : bool :=
  let n := code c in
  (((9 <=? n) && (n <=? 13)) || (n =? 32) || (n =? 160))%N.

Fixpoint trimStart (s : string) : string :=
  match s with
  | EmptyString => EmptyString
  | String c r => if is_space c then trimStart r else s
  end.

Fixpoint trimEnd (s : string) : string :=
  match s with
  | EmptyString => EmptyString
  | String c r =>
      match trimEnd r with
      | EmptyString => if is_space c then EmptyString else String c EmptyString
      | r' => String c r'
      end
  end.

Definition trim (s : string) : string := trimEnd (trimStart s).

(** [hay.includes(needle)] *)
Fixpoint includes (needle hay : string) : bool :=
  if String.prefix needle hay then true
  else match hay with
       | EmptyString => false
       | String _ r => includes needle r
       end.

Definition is_empty (s : string) : bool :=
  match s with EmptyString => true | _ => false end.

(** [parts.join(sep)] *)
Fixpoint join (sep : string) (parts : list string) : string :=
  match parts with
  | [] => EmptyString
  | [p] => p
  | p :: rest => p ++ sep ++ join sep rest
  end.

End Str.

(** ** JavaScript values that flow through the connector *)

Inductive jsval : Type :=
| VStr (s : string)
| VBuiltin (name : string)   (* a built-in function object *)
| VObjectPrototype.          (* the object [Object.prototype] *)

Inductive outcome (A : Type) : Type :=
| Returns (a : A)
| ThrowsTypeError.
Arguments Returns {A} a.
Arguments ThrowsTypeError {A}.

Definition truthy (v : jsval) : bool :=
  match v with
  | VStr s => negb (Str.is_empty s)
  | VBuiltin _ | VObjectPrototype => true
  end.

(** [String(v)], as a template literal or [Array.prototype.join] applies it. *)
Definition to_display (v : jsval) : string :=
  match v with
  | VStr s => s
  | VBuiltin name => "function " ++ name ++ "() { [native code] }"
  | VObjectPrototype => "[object Object]"
  end.

(** The properties every plain object inherits from [Object.prototype]. *)
Definition object_prototype_property (k : string) : option jsval :=
  if String.eqb k "constructor" then Some (VBuiltin "Object")
  else if String.eqb k "__proto__" then Some VObjectPrototype
  else if existsb (String.eqb k)
            ["hasOwnProperty"; "isPrototypeOf"; "propertyIsEnumerable";
             "toLocaleString"; "toString"; "valueOf";
             "__defineGetter__"; "__defineSetter__";
             "__lookupGetter__"; "__lookupSetter__"]
       then Some (VBuiltin k)
  else None.

Fixpoint own_property (table : list (string * string)) (k : string)
  : option string :=
  match table with
  | [] => None
  | (k', v) :: rest => if String.eqb k k' then Some v else own_property rest k
  end.

(** [table[k]] for an object literal [table] with string values. *)
Definition get_property (table : list (string * string)) (k : string)
  : option jsval :=
  match own_property table k with
  | Some v => Some (VStr v)
  | None => object_prototype_property k
  end.

(** [a || b] where [a] may be [undefined] *)
Definition or_else (a : option jsval) (b : jsval) : jsval :=
  match a with
  | Some v => if truthy v then v else b
  | None => b
  end.

(** ** Messages: template literals kept as their pieces *)

Inductive piece : Type :=
| Lit (s : string)
| Val (v : jsval)                    (* ${v} *)
| ToFixed (digits : nat) (n : num).  (* ${n.toFixed(digits)} *)

Definition msg := list piece.

(** ** The product record handed over by the page extractor *)

Record ProductData : Type := mkProduct {
  countryOfOrigin : string;
  price : num;
  category : option string
}.

(** [productData.category?.toLowerCase() || ''] *)
Definition category_lower (pd : ProductData) : string :=
  match category pd with
  | Some c => Str.toLowerCase c
  | None => ""
  end.

(** [price / (1 + tariffRate)] and [price - preTariffPrice]: the pair
    (preTariffPrice, tariffAmount). *)
Definition decompose (price tariffRate : num) : num * num :=
  let preTariffPrice := Num.div price (Num.add (Fin 1) tariffRate) in
  (preTariffPrice, Num.sub price preTariffPrice).

(** The predicates on country and category shared by the two page scripts. *)
Section Predicates.
Variables (country category : string).

Definition isChina : bool :=
  Str.includes "china" country || Str.includes "hong kong" country.

Definition isEU : bool :=
  Str.includes "germany" country || Str.includes "european union" country ||
  Str.includes "eu" country || Str.includes "france" country ||
  Str.includes "italy" country || Str.includes "spain" country.

Definition isKorea : bool :=
  Str.includes "south korea" country || Str.includes "korea" country.

Definition isUK : bool :=
  Str.includes "united kingdom" country || Str.includes "uk" country.

Definition isFoodCategory : bool :=
  Str.includes "food" category || Str.includes "produce" category ||
  Str.includes "vegetable" category || Str.includes "fruit" category.

Definition isEnergyCategory : bool :=
  Str.includes "energy" category || Str.includes "oil" category ||
  Str.includes "gas" category || Str.includes "potash" category.

Definition isLikelyChinaCategory : bool :=
  Str.includes "electronics" category || Str.includes "home" category ||
  Str.includes "light" category || Str.includes "tool" category.
End Predicates.

(** [price < 100 && !category.includes('electronics') &&
     !category.includes('appliance')] *)
Definition isPostalShipment (price : num) (category : string) : bool :=
  Num.ltb price (Fin 100) &&
  negb (Str.includes "electronics" category) &&
  negb (Str.includes "appliance" category).

(** ** scripts/content.js *)

Module Content.

Record TariffResult : Type := mkResult {
  isSubjectToTariff : bool;
  tariffRate : num;
  preTariffPrice : num;
  tariffAmount : num;
  message : msg;
  isFallback : bool
}.

(** The branch cascade of [fallbackCalculation]: the values of
    [tariffRate], [isSubjectToTariff] and [message] when it ends. *)
Definition resolve (country : string) (price : num) (category : string)
  : num * bool * msg :=
  let isPostal := isPostalShipment price category in
  if isChina country then
    if isPostal then
      let flatFeeTariff := Fin 100 in
      let percentTariff := Num.mul price (Fin 1.20) in
      if Num.gtb percentTariff flatFeeTariff then
        (Fin 1.20, true,
         [Lit "This product from China is subject to a 120% tariff rate as a postal shipment under the May 2025 trade policy"])
      else
        let tariffRate := Num.div flatFeeTariff price in
        (tariffRate, true,
         [Lit "This product from China is subject to a $100 flat fee as a postal shipment under the May 2025 trade policy (equivalent to a ";
          ToFixed 1 (Num.mul tariffRate (Fin 100));
          Lit "% rate)"])
    else
      (Fin 1.25, true,
       [Lit "This product from China is subject to a total 125% tariff rate under the May 2025 trade policy (de minimis exemption removed)"])
  else if Str.includes "mexico" country then
    if isFoodCategory category then
      (Fin 0, false,
       [Lit "This product appears to qualify for USMCA exemption (0% tariff)"])
    else
      (Fin 0.25, true,
       [Lit "This product from Mexico is subject to a 25% tariff on non-USMCA compliant goods"])
  else if Str.includes "canada" country then
    if isFoodCategory category then
      (Fin 0, false,
       [Lit "This product appears to qualify for USMCA exemption (0% tariff)"])
    else if isEnergyCategory category then
      (Fin 0.10, true,
       [Lit "This product from Canada is subject to a 10% tariff (energy/potash non-USMCA rate)"])
    else
      (Fin 0.25, true,
       [Lit "This product from Canada is subject to a 25% tariff on non-USMCA compliant goods"])
  else if Str.includes "japan" country then
    (Fin 0.10, true,
     [Lit "This product from Japan is subject to a 10% tariff rate under the May 2025 trade policy"])
  else if isEU country then
    (Fin 0.20, true,
     [Lit "This product from the European Union is subject to a 20% tariff rate under the May 2025 trade policy"])
  else if Str.includes "vietnam" country then
    (Fin 0.46, true,
     [Lit "This product from Vietnam is subject to a 46% tariff rate under the May 2025 trade policy"])
  else if isKorea country then
    (Fin 0.25, true,
     [Lit "This product from South Korea is subject to a 25% tariff rate under the May 2025 trade policy"])
  else if Str.includes "taiwan" country then
    (Fin 0.32, true,
     [Lit "This product from Taiwan is subject to a 32% tariff rate under the May 2025 trade policy"])
  else if isUK country then
    (Fin 0.10, true,
     [Lit "This product from the UK is subject to a 10% tariff rate under the May 2025 trade policy"])
  else if Str.includes "india" country then
    (Fin 0.40, true,
     [Lit "This product from India is subject to a 40% tariff rate under the May 2025 trade policy"])
  else if String.eqb country "unknown" then
    if Num.ltb price (Fin 50) && isLikelyChinaCategory category then
      (Fin 1.25, true,
       [Lit "Based on the product type and price, this is likely from China and subject to a 125% tariff rate"])
    else
      (Fin 0.10, true,
       [Lit "Country of origin unknown, applying the minimum baseline 10% tariff"])
  else
    (Fin 0.10, true,
     [Lit "Products from "; Val (VStr country);
      Lit " are subject to the universal 10% baseline tariff implemented in May 2025"]).

Definition fallbackCalculation (productData : ProductData) : TariffResult :=
  let country := Str.toLowerCase (countryOfOrigin productData) in
  let price := price productData in
  let category := category_lower productData in
  let '(tariffRate, isSubjectToTariff, message) :=
    resolve country price category in
  let '(preTariffPrice, tariffAmount) := decompose price tariffRate in
  {| isSubjectToTariff := isSubjectToTariff;
     tariffRate := tariffRate;
     preTariffPrice := preTariffPrice;
     tariffAmount := tariffAmount;
     message := message;
     isFallback := true |}.

End Content.

(** ** scripts/content-injection.js *)

Module Injection.

Record TariffResult : Type := mkResult {
  isSubjectToTariff : bool;
  tariffRate : num;
  preTariffPrice : num;
  tariffAmount : num;
  message : msg;
  isFallback : bool;
  isUsingFlatFee : bool;
  flatFeeAmount : num;
  specialPriceLogic : bool
}.

(** The mutable locals of [fallbackCalculation]. *)
Record Locals : Type := mkLocals {
  l_tariffRate : num;
  l_message : msg;
  l_isSubjectToTariff : bool;
  l_isUsingFlatFee : bool;
  l_flatFeeAmount : num;
  l_preTariffPrice : num;
  l_tariffAmount : num;
  l_specialPriceLogic : bool
}.

(** The default values the locals start from. *)
Definition defaults : Locals :=
  {| l_tariffRate := Fin 0; l_message := [];
     l_isSubjectToTariff := false; l_isUsingFlatFee := false;
     l_flatFeeAmount := Fin 0; l_preTariffPrice := Fin 0;
     l_tariffAmount := Fin 0; l_specialPriceLogic := false |}.

(** A branch that only sets [tariffRate], [isSubjectToTariff], [message]. *)
Definition rate_only (rate : num) (subject : bool) (text : msg) : Locals :=
  {| l_tariffRate := rate; l_message := text;
     l_isSubjectToTariff := subject;
     l_isUsingFlatFee := l_isUsingFlatFee defaults;
     l_flatFeeAmount := l_flatFeeAmount defaults;
     l_preTariffPrice := l_preTariffPrice defaults;
     l_tariffAmount := l_tariffAmount defaults;
     l_specialPriceLogic := l_specialPriceLogic defaults |}.

(** The China branch. *)
Definition china (price : num) (isPostal : bool) : Locals :=
  if isPostal then
    let percentTariffRate := Fin 1.20 in
    let flatFeeTariff := Fin 100 in
    let normalPreTariffPrice :=
      Num.div price (Num.add (Fin 1) percentTariffRate) in
    let percentTariffAmount := Num.sub price normalPreTariffPrice in
    if Num.gtb percentTariffAmount flatFeeTariff then
      {| l_tariffRate := percentTariffRate;
         l_message := [Lit "This product from China is subject to a 120% tariff rate as a postal shipment under the May 2025 trade policy"];
         l_isSubjectToTariff := true;
         l_isUsingFlatFee := false;
         l_flatFeeAmount := Fin 0;
         l_preTariffPrice := normalPreTariffPrice;
         l_tariffAmount := percentTariffAmount;
         l_specialPriceLogic := false |}
    else if Num.gtb flatFeeTariff price then
      let tariffAmount := Num.mul price (Fin 0.7) in
      {| l_tariffRate := Fin 0;
         l_message :=
           [Lit "This product from China would normally be subject to a $100 flat fee tariff, but since the product price is only $";
            ToFixed 2 price;
            Lit ", the tariff shown is an approximation. The actual $100 flat fee would be applied at customs for direct imports."];
         l_isSubjectToTariff := true;
         l_isUsingFlatFee := true;
         l_flatFeeAmount := tariffAmount;
         l_preTariffPrice := Num.sub price tariffAmount;
         l_tariffAmount := tariffAmount;
         l_specialPriceLogic := true |}
    else
      let flatFeeAmount := flatFeeTariff in
      {| l_tariffRate := Fin 0;
         l_message := [Lit "This product from China is subject to a $100 flat fee as a postal shipment under the May 2025 trade policy"];
         l_isSubjectToTariff := true;
         l_isUsingFlatFee := true;
         l_flatFeeAmount := flatFeeAmount;
         l_preTariffPrice := Num.sub price flatFeeAmount;
         l_tariffAmount := flatFeeAmount;
         l_specialPriceLogic := false |}
  else
    let tariffRate := Fin 1.25 in
    let preTariffPrice := Num.div price (Num.add (Fin 1) tariffRate) in
    {| l_tariffRate := tariffRate;
       l_message := [Lit "This product from China is subject to a total 125% tariff rate under the May 2025 trade policy (de minimis exemption removed)"];
       l_isSubjectToTariff := true;
       l_isUsingFlatFee := false;
       l_flatFeeAmount := Fin 0;
       l_preTariffPrice := preTariffPrice;
       l_tariffAmount := Num.sub price preTariffPrice;
       l_specialPriceLogic := false |}.

(** The branch cascade of [fallbackCalculation]. *)
Definition resolve (country : string) (price : num) (category : string)
  : Locals :=
  let isPostal := isPostalShipment price category in
  if isChina country then china price isPostal
  else if Str.includes "mexico" country then
    if isFoodCategory category then
      rate_only (Fin 0) false
        [Lit "This product appears to qualify for USMCA exemption (0% tariff)"]
    else
      rate_only (Fin 0.25) true
        [Lit "This product from Mexico is subject to a 25% tariff on non-USMCA compliant goods"]
  else if Str.includes "canada" country then
    if isFoodCategory category then
      rate_only (Fin 0) false
        [Lit "This product appears to qualify for USMCA exemption (0% tariff)"]
    else if isEnergyCategory category then
      rate_only (Fin 0.10) true
        [Lit "This product from Canada is subject to a 10% tariff (energy/potash non-USMCA rate)"]
    else
      rate_only (Fin 0.25) true
        [Lit "This product from Canada is subject to a 25% tariff on non-USMCA compliant goods"]
  else if Str.includes "japan" country then
    rate_only (Fin 0.10) true
      [Lit "This product from Japan is subject to a 10% tariff rate under the May 2025 trade policy"]
  else if isEU country then
    rate_only (Fin 0.20) true
      [Lit "This product from the European Union is subject to a 20% tariff rate under the May 2025 trade policy"]
  else if Str.includes "vietnam" country then
    rate_only (Fin 0.46) true
      [Lit "This product from Vietnam is subject to a 46% tariff rate under the May 2025 trade policy"]
  else if isKorea country then
    rate_only (Fin 0.25) true
      [Lit "This product from South Korea is subject to a 25% tariff rate under the May 2025 trade policy"]
  else if Str.includes "taiwan" country then
    rate_only (Fin 0.32) true
      [Lit "This product from Taiwan is subject to a 32% tariff rate under the May 2025 trade policy"]
  else if isUK country then
    rate_only (Fin 0.10) true
      [Lit "This product from the UK is subject to a 10% tariff rate under the May 2025 trade policy"]
  else if Str.includes "india" country then
    rate_only (Fin 0.40) true
      [Lit "This product from India is subject to a 40% tariff rate under the May 2025 trade policy"]
  else if String.eqb country "unknown" then
    rate_only (Fin 0.10) true
      [Lit "Country of origin unknown, applying the minimum baseline 10% tariff"]
  else
    rate_only (Fin 0.10) true
      [Lit "Products from "; Val (VStr country);
       Lit " are subject to the universal 10% baseline tariff implemented in May 2025"].

Definition fallbackCalculation (productData : ProductData) : TariffResult :=
  let country := Str.toLowerCase (countryOfOrigin productData) in
  let price := price productData in
  let category := category_lower productData in
  let l := resolve country price category in
  (* if (!isUsingFlatFee && tariffAmount === 0) *)
  let '(preTariffPrice, tariffAmount) :=
    if negb (l_isUsingFlatFee l) && Num.eqb (l_tariffAmount l) (Fin 0)
    then decompose price (l_tariffRate l)
    else (l_preTariffPrice l, l_tariffAmount l) in
  {| isSubjectToTariff := l_isSubjectToTariff l;
     tariffRate := l_tariffRate l;
     preTariffPrice := preTariffPrice;
     tariffAmount := tariffAmount;
     message := l_message l;
     isFallback := true;
     isUsingFlatFee := l_isUsingFlatFee l;
     flatFeeAmount := l_flatFeeAmount l;
     specialPriceLogic := l_specialPriceLogic l |}.

End Injection.

(** ** The tariff API connector *)

Module Api.

(** The alias table [countryMap] of [normalizeCountryName]. *)
Definition countryMap : list (string * string) :=
  [ ("cn", "china"); ("prc", "china");
    ("people's republic of china", "china");
    ("usa", "united states"); ("us", "united states");
    ("u.s.", "united states"); ("u.s.a.", "united states");
    ("america", "united states");
    ("uk", "united kingdom"); ("great britain", "united kingdom");
    ("deutschland", "germany"); ("vn", "vietnam"); ("kr", "south korea");
    ("dprk", "north korea"); ("roc", "taiwan"); ("taipei", "taiwan");
    ("mx", "mexico"); ("ca", "canada"); ("jp", "japan");
    ("sk", "south korea"); ("republic of korea", "south korea");
    ("my", "malaysia"); ("th", "thailand"); ("id", "indonesia");
    ("in", "india"); ("br", "brazil"); ("de", "germany");
    ("fr", "france"); ("it", "italy"); ("es", "spain"); ("se", "sweden");
    ("pl", "poland"); ("tr", "turkey"); ("turkiye", "turkey");
    ("ru", "russia"); ("russian federation", "russia");
    ("viet nam", "vietnam") ].

(** [normalizeCountryName(countryName)].  A value without a
    [toLowerCase] method makes the call throw a [TypeError]. *)
Definition normalizeCountryName (countryName : jsval) : outcome jsval :=
  if negb (truthy countryName) then Returns (VStr "")
  else
    match countryName with
    | VStr s =>
        let normalized := Str.trim (Str.toLowerCase s) in
        Returns (or_else (get_property countryMap normalized)
                         (VStr normalized))
    | VBuiltin _ | VObjectPrototype => ThrowsTypeError
    end.

(** [v === s] for a string literal [s] *)
Definition is_str (v : jsval) (s : string) : bool :=
  match v with
  | VStr t => String.eqb t s
  | _ => false
  end.

Definition isEUCountry (country : jsval) : bool :=
  is_str country "european union" || is_str country "eu" ||
  is_str country "germany" || is_str country "france" ||
  is_str country "italy" || is_str country "spain".

Definition ftaCountries : list string :=
  ["canada"; "mexico"; "australia"; "bahrain"; "chile";
   "colombia"; "israel"; "jordan"; "morocco"; "oman";
   "panama"; "peru"; "singapore"].

(** The enriched product record of [enrichProductData]. *)
Record Attributes : Type := mkAttributes {
  material : list string;
  isElectronic : bool;
  isApparel : bool;
  gender : string;
  isFood : bool
}.

Record Enriched : Type := mkEnriched {
  e_countryOfOrigin : jsval;
  e_htsCode : string;
  e_price : num;
  e_attributes : option Attributes
}.

(** [adjustTariffForCountry(baseRate, productData)]: rate and message. *)
Definition adjustTariffForCountry (baseRate : num) (productData : Enriched)
  : num * msg :=
  let country := e_countryOfOrigin productData in
  if is_str country "china" then
    (Fin 0.54,
     [Lit "This product from China is subject to a combined 54% tariff rate (34% reciprocal + 20% existing tariffs)"])
  else if is_str country "japan" then
    (Fin 0.10,
     [Lit "This product from Japan is subject to a 10% baseline tariff rate under the April 2025 tariff policy (reduced from 24% for 90 days)"])
  else if is_str country "south korea" || is_str country "korea" then
    (Fin 0.25,
     [Lit "This product from South Korea is subject to a 25% tariff rate under the April 2025 tariff policy"])
  else if is_str country "taiwan" then
    (Fin 0.32,
     [Lit "This product from Taiwan is subject to a 32% tariff rate under the April 2025 tariff policy"])
  else if isEUCountry country then
    (Fin 0.20,
     [Lit "This product from the European Union is subject to a 20% tariff rate under the April 2025 tariff policy"])
  else if is_str country "vietnam" then
    (Fin 0.46,
     [Lit "This product from Vietnam is subject to a 46% tariff rate under the April 2025 tariff policy"])
  else if is_str country "india" then
    (Fin 0.40,
     [Lit "This product from India is subject to a 40% tariff rate under the April 2025 tariff policy"])
  else if is_str country "indonesia" then
    (Fin 0.32,
     [Lit "This product from Indonesia is subject to a 32% tariff rate under the April 2025 tariff policy"])
  else if is_str country "thailand" then
    (Fin 0.20,
     [Lit "This product from Thailand is subject to a 20% tariff rate under the April 2025 tariff policy"])
  else if is_str country "malaysia" then
    (Fin 0.25,
     [Lit "This product from Malaysia is subject to a 25% tariff rate under the April 2025 tariff policy"])
  else if is_str country "mexico" || is_str country "canada" then
    (Fin 0.25,
     [Lit "This product from "; Val country;
      Lit " is subject to a 25% tariff under the 2025 USMCA revisions"])
  else if existsb (is_str country) ftaCountries then
    (Fin 0.10,
     [Lit "Products from "; Val country;
      Lit " are subject to the universal 10% baseline tariff implemented in April 2025"])
  else
    (Fin 0.10,
     [Lit "Products from "; Val country;
      Lit " are subject to the universal 10% baseline tariff implemented in April 2025"]).

Record TariffResult : Type := mkResult {
  isSubjectToTariff : bool;
  tariffRate : num;
  preTariffPrice : num;
  tariffAmount : num;
  message : msg;
  isFallback : bool
}.

(** The branch cascade of [fallbackTariffCheck]. *)
Definition fallbackRate (country : jsval) : num * msg :=
  if is_str country "china" then
    (Fin 0.54,
     [Lit "Using fallback data: This product from China is subject to a combined 54% tariff rate (34% reciprocal + 20% existing tariffs)"])
  else if is_str country "japan" then
    (Fin 0.10,
     [Lit "Using fallback data: This product from Japan is subject to a 10% baseline tariff rate under the April 2025 tariff policy (reduced from 24% for 90 days)"])
  else if is_str country "south korea" || is_str country "korea" then
    (Fin 0.25,
     [Lit "Using fallback data: This product from South Korea is subject to a 25% tariff rate under the April 2025 tariff policy"])
  else if is_str country "taiwan" then
    (Fin 0.32,
     [Lit "Using fallback data: This product from Taiwan is subject to a 32% tariff rate under the April 2025 tariff policy"])
  else if isEUCountry country then
    (Fin 0.20,
     [Lit "Using fallback data: This product from the European Union is subject to a 20% tariff rate under the April 2025 tariff policy"])
  else if is_str country "vietnam" then
    (Fin 0.46,
     [Lit "Using fallback data: This product from Vietnam is subject to a 46% tariff rate under the April 2025 tariff policy"])
  else if is_str country "india" then
    (Fin 0.40,
     [Lit "Using fallback data: This product from India is subject to a 40% tariff rate under the April 2025 tariff policy"])
  else if is_str country "brazil" then
    (Fin 0.10,
     [Lit "Using fallback data: This product from Brazil is subject to a 10% tariff rate under the April 2025 tariff policy"])
  else if is_str country "indonesia" then
    (Fin 0.32,
     [Lit "Using fallback data: This product from Indonesia is subject to a 32% tariff rate under the April 2025 tariff policy"])
  else if is_str country "thailand" then
    (Fin 0.20,
     [Lit "Using fallback data: This product from Thailand is subject to a 20% tariff rate under the April 2025 tariff policy"])
  else if is_str country "malaysia" then
    (Fin 0.25,
     [Lit "Using fallback data: This product from Malaysia is subject to a 25% tariff rate under the April 2025 tariff policy"])
  else if is_str country "mexico" || is_str country "canada" then
    (Fin 0.25,
     [Lit "Using fallback data: This product from "; Val country;
      Lit " is subject to a 25% tariff under the 2025 USMCA revisions"])
  else if is_str country "united kingdom" || is_str country "uk" then
    (Fin 0.10,
     [Lit "Using fallback data: This product from the UK is subject to a 10% tariff rate under the April 2025 tariff policy"])
  else if is_str country "australia" then
    (Fin 0.10,
     [Lit "Using fallback data: This product from Australia is subject to a 10% tariff rate under the April 2025 tariff policy"])
  else if is_str country "unknown" then
    (Fin 0.10,
     [Lit "Using fallback data: Country of origin unknown, applying the minimum baseline 10% tariff"])
  else
    (Fin 0.10,
     [Lit "Using fallback data: Products from "; Val country;
      Lit " are subject to the universal 10% baseline tariff implemented in April 2025"]).

(** [fallbackTariffCheck(productData)] *)
Definition fallbackTariffCheck (productData : ProductData)
  : outcome TariffResult :=
  match normalizeCountryName (VStr (countryOfOrigin productData)) with
  | ThrowsTypeError => ThrowsTypeError
  | Returns country =>
      let price := price productData in
      let '(tariffRate, message) := fallbackRate country in
      let '(preTariffPrice, tariffAmount) := decompose price tariffRate in
      Returns {| isSubjectToTariff := true;
                 tariffRate := tariffRate;
                 preTariffPrice := preTariffPrice;
                 tariffAmount := tariffAmount;
                 message := message;
                 isFallback := true |}
  end.

(** [parts.push(x)] *)
Definition push (parts : list string) (x : string) : list string :=
  List.app parts [x].

(** [constructCacheKey(productData)] *)
Definition constructCacheKey (productData : Enriched) : string :=
  let parts :=
    [ to_display (or_else (Some (e_countryOfOrigin productData))
                          (VStr "unknown"));
      (if Str.is_empty (e_htsCode productData)
       then "unknown" else e_htsCode productData) ] in
  let parts :=
    match e_attributes productData with
    | None => parts
    | Some a =>
        let parts :=
          if (0 <? length (material a))%nat
          then push parts ("mat:" ++ Str.join "-" (material a)) else parts in
        let parts := if isElectronic a then push parts "elec" else parts in
        let parts :=
          if isApparel a && negb (Str.is_empty (gender a))
          then push parts ("app-" ++ gender a) else parts in
        if isFood a then push parts "food" else parts
    end in
  Str.join "-" parts.

(** *** The cache [tariffCache] *)

Record TariffData : Type := mkTariffData {
  rate : num;
  td_message : msg;
  td_htsCode : string
}.

Record TariffCache : Type := mkCache {
  data : gmap string TariffData;
  timestamp : Z
}.

(** 24 hours in milliseconds *)
Definition CACHE_DURATION : Z := 24 * 60 * 60 * 1000.

(** The cache as the script creates it. *)
Definition tariffCache0 : TariffCache := {| data := ∅; timestamp := 0 |}.

(** [now - tariffCache.timestamp > tariffCache.CACHE_DURATION] *)
Definition expired (now : Z) (c : TariffCache) : bool :=
  (CACHE_DURATION <? now - timestamp c)%Z.

(** [!!tariffCache.data[cacheKey]]: a stored record is an object, hence
    truthy; so is every property inherited from [Object.prototype]. *)
Definition has_entry (c : TariffCache) (cacheKey : string) : bool :=
  match data c !! cacheKey with
  | Some _ => true
  | None =>
      match object_prototype_property cacheKey with
      | Some v => truthy v
      | None => false
      end
  end.

(** [hasCachedTariffData(cacheKey)] at clock reading [now]: the answer
    and the cache afterwards. *)
Definition hasCachedTariffData (now : Z) (cacheKey : string)
    (c : TariffCache) : bool * TariffCache :=
  if expired now c then (false, {| data := ∅; timestamp := now |})
  else (has_entry c cacheKey, c).

Record CachedResult : Type := mkCached {
  c_isSubjectToTariff : bool;
  c_tariffAmount : num;
  c_tariffRate : num;
  c_message : msg
}.

(** [getCachedTariffData(cacheKey, price)] on a record stored under
    [cacheKey]; [None] when the cache holds no record of its own there. *)
Definition getCachedTariffData (cacheKey : string) (price : num)
    (c : TariffCache) : option CachedResult :=
  match data c !! cacheKey with
  | Some tariffData =>
      Some {| c_isSubjectToTariff := Num.gtb (rate tariffData) (Fin 0);
              c_tariffAmount := Num.mul price (rate tariffData);
              c_tariffRate := rate tariffData;
              c_message := td_message tariffData |}
  | None => None
  end.

(** [cacheTariffData(cacheKey, tariffData)] at clock reading [now].
    Keys come from [constructCacheKey], so they contain a dash and the
    assignment always writes an own property. *)
Definition cacheTariffData (now : Z) (cacheKey : string)
    (tariffData : TariffData) (c : TariffCache) : TariffCache :=
  {| data := <[cacheKey := tariffData]> (data c); timestamp := now |}.

(** The cache read of [getTariffInfo]: [hasCachedTariffData] and, on a
    hit, the record that [getCachedTariffData] reads. *)
Definition get (now : Z) (cacheKey : string) (c : TariffCache)
  : option TariffData * TariffCache :=
  let '(hit, c') := hasCachedTariffData now cacheKey c in
  (if hit then data c' !! cacheKey else None, c').

(** Histories of cache accesses. *)
Inductive access : Type :=
| Get (now : Z) (cacheKey : string)
| Put (now : Z) (cacheKey : string) (tariffData : TariffData).

Definition step (c : TariffCache) (a : access) : TariffCache :=
  match a with
  | Get now k => snd (get now k c)
  | Put now k td => cacheTariffData now k td c
  end.

Definition run (c : TariffCache) (h : list access) : TariffCache :=
  fold_left step h c.



End Api.

(** ** The price read off the page by [extractProductData] *)

Module Page.

(** [/[0-9]/] *)
Definition is_digit (c : ascii) : bool :=
  let n := Str.code c in ((48 <=? n) && (n <=? 57))%N.

(** [priceText.replace(/[^0-9.]/g, '')] *)
Fixpoint keep_digits_and_dots (s : string) : string :=
  match s with
  | EmptyString => EmptyString
  | String c r =>
      if is_digit c || Ascii.eqb c "."
      then String c (keep_digits_and_dots r)
      else keep_digits_and_dots r
  end.

(** The leading run of digits of [s], and what follows it. *)
Fixpoint take_digits (s : string) : string * string :=
  match s with
  | EmptyString => (EmptyString, EmptyString)
  | String c r =>
      if is_digit c
      then let '(d, rest) := take_digits r in (String c d, rest)
      else (EmptyString, s)
  end.

(** The number a run of decimal digits denotes, continuing from [acc]. *)
Fixpoint digits_value (acc : Z) (d : string) : Z :=
  match d with
  | EmptyString => acc
  | String c r => digits_value (10 * acc + (Z.of_N (Str.code c) - 48)) r
  end.

(** The integer nearest to [q], the even one of two equally near. *)
Definition round_half_even (q : Q) : Z :=
  let f := Qfloor q in
  match Qcompare (q - inject_Z f) (1 # 2) with
  | Lt => f
  | Gt => (f + 1)%Z
  | Eq => if Z.even f then f else (f + 1)%Z
  end.

(** [floor (log2 q)] for [q > 0]. *)
Definition binade (q : Q) : Z :=
  let e := (Z.log2 (Qnum q) - Z.log2 (Zpos (Qden q)))%Z in
  if Qle_bool (2 ^ e) q then e else (e - 1)%Z.

(** The Number value for the mathematical value [q >= 0]: the double
    nearest to [q] (53 significant bits, least exponent -1074), the one
    with the even significand of two equally near, and [Infinity] when
    that is [2 ^ 1024].  This is the correctly rounded value, which the
    engines compute for every number of digits. *)
Definition number_value (q : Q) : num :=
  if Qle_bool q 0 then Fin 0
  else
    let ulp := 2 ^ Z.max (binade q - 52) (-1074) in
    let v := inject_Z (round_half_even (q / ulp)) * ulp in
    if Qle_bool (2 ^ 1024) v then PInf else Fin v.

(** The mathematical value of [whole.frac]. *)
Definition decimal_value (whole frac : string) : Q :=
  inject_Z (digits_value 0 whole)
  + inject_Z (digits_value 0 frac)
    / inject_Z (10 ^ Z.of_nat (String.length frac)).

(** [parseFloat(s)] on a string of digits and dots: the Number value of
    the longest prefix of the forms [digits], [digits.], [digits.digits]
    or [.digits]; [NaN] when there is none. *)
Definition parseFloat (s : string) : num :=
  let '(whole, rest) := take_digits s in
  match rest with
  | String "."%char r =>
      let '(frac, _) := take_digits r in
      if Str.is_empty whole && Str.is_empty frac then NaN
      else number_value (decimal_value whole frac)
  | _ =>
      if Str.is_empty whole then NaN
      else number_value (decimal_value whole EmptyString)
  end.

Definition isNaN (n : num) : bool :=
  match n with NaN => true | _ => false end.

(** The [price] field of the record [extractProductData] returns;
    [priceText] is the text of the price element, [None] when the page
    has none. *)
Definition extractedPrice (priceText : option string) : num :=
  let price :=
    match priceText with
    | Some text => parseFloat (keep_digits_and_dots (Str.trim text))
    | None => Fin 0
    end in
  if isNaN price then Fin 0 else price.

(** [countryOfOrigin || 'Unknown'] *)
Definition extractedCountry (countryOfOrigin : string) : string :=
  if Str.is_empty countryOfOrigin then "Unknown" else countryOfOrigin.

(** The record [extractProductData] hands to [fallbackCalculation]. *)
Definition extracted (priceText : option string)
    (countryOfOrigin category : string) : ProductData :=
  {| countryOfOrigin := extractedCountry countryOfOrigin;
     price := extractedPrice priceText;
     category := Some category |}.

End Page.

(** ** Regular expressions of the connector

    The connector only uses case-insensitive patterns that are a choice of
    literal words, either free ([/a|b|c/i]) or between word boundaries
    ([new RegExp('\\b(a|b|c)\\b', 'i')]).  All their characters are ASCII
    letters, spaces and the bar, so a pattern is kept as the string the
    source writes and split at the bars. *)

Module Regex.

(** Case folding of the [i] flag, as far as it concerns ASCII patterns:
    a character outside ASCII never equals an ASCII one. *)
Definition fold_ascii (c : ascii) : ascii :=
  let n := Str.code c in
  if ((65 <=? n) && (n <=? 90))%N then ascii_of_N (n + 32) else c.

Definition ci_eqb (a b : ascii) : bool :=
  Ascii.eqb (fold_ascii a) (fold_ascii b).

(** [\w]: ASCII letters, digits and the underscore. *)
Definition is_word_char (c : ascii) : bool :=
  let n := Str.code c in
  (((48 <=? n) && (n <=? 57)) || ((65 <=? n) && (n <=? 90))
   || ((97 <=? n) && (n <=? 122)) || (n =? 95))%N.

Definition word (c : option ascii) : bool :=
  match c with
  | Some a => is_word_char a
  | None => false
  end.

(** [\b] between the character before and the character after. *)
Definition boundary (before after : option ascii) : bool :=
  xorb (word before) (word after).

Definition first_char (s : string) : option ascii :=
  match s with
  | EmptyString => None
  | String c _ => Some c
  end.

(** Consume the literal [lit] at the start of [text], ignoring case: the
    last character consumed ([last] when [lit] is empty) and the rest. *)
Fixpoint consume (lit text : string) (last : option ascii)
  : option (option ascii * string) :=
  match lit with
  | EmptyString => Some (last, text)
  | String p lit' =>
      match text with
      | EmptyString => None
      | String c text' =>
          if ci_eqb p c then consume lit' text' (Some c) else None
      end
  end.

(** Alternatives of a pattern: its pieces between the bars. *)
Fixpoint alternatives (pattern : string) : list string :=
  match pattern with
  | EmptyString => [EmptyString]
  | String c rest =>
      if Ascii.eqb c "|" then EmptyString :: alternatives rest
      else match alternatives rest with
           | a :: more => String c a :: more
           | [] => [String c EmptyString]
           end
  end.

Definition matches_here (alts : list string) (text : string) : bool :=
  existsb (fun a => match consume a text None with
                    | Some _ => true
                    | None => false
                    end) alts.

(** [/a|b|c/i.test(text)] *)
Fixpoint search (alts : list string) (text : string) : bool :=
  matches_here alts text ||
  match text with
  | EmptyString => false
  | String _ rest => search alts rest
  end.

Definition test (pattern text : string) : bool :=
  search (alternatives pattern) text.

Definition word_matches_here (before : option ascii) (alts : list string)
    (text : string) : bool :=
  boundary before (first_char text) &&
  existsb (fun a => match consume a text before with
                    | Some (last, rest) => boundary last (first_char rest)
                    | None => false
                    end) alts.

Fixpoint search_word (before : option ascii) (alts : list string)
    (text : string) : bool :=
  word_matches_here before alts text ||
  match text with
  | EmptyString => false
  | String c rest => search_word (Some c) alts rest
  end.

(** [new RegExp('\\b(' + pattern + ')\\b', 'i').test(text)] *)
Definition test_word (pattern text : string) : bool :=
  search_word None (alternatives pattern) text.

End Regex.

(** ** Classification, enrichment and the simulated request *)

Module Hts.

(** [table[k]] among the own properties of an object literal. *)
Fixpoint own_entry {A : Type} (table : list (string * A)) (k : string)
  : option A :=
  match table with
  | [] => None
  | (k', v) :: rest => if String.eqb k k' then Some v else own_entry rest k
  end.

(** The table [categoryMap] of [getCategoryHTSCode], in source order. *)
Definition categoryMap : list (string * string) :=
  [ ("electronics", "85"); ("headphones", "8518.30"); ("computers", "8471");
    ("laptops", "8471.30"); ("tablets", "8471.30");
    ("cell phones", "8517.12"); ("smartphone", "8517.12");
    ("tvs", "8528.72"); ("television", "8528.72"); ("monitors", "8528.52");
    ("printers", "8443.31"); ("cameras", "8525.80");
    ("clothing", "61"); ("apparel", "61"); ("shirts", "6105");
    ("t-shirts", "6109.10"); ("pants", "6203"); ("socks", "6115");
    ("shoes", "64"); ("footwear", "64"); ("boots", "6403");
    ("sneakers", "6404");
    ("furniture", "94"); ("chairs", "9401"); ("tables", "9403");
    ("lamps", "9405"); ("kitchenware", "7323"); ("cookware", "7323");
    ("cutlery", "8211"); ("bedding", "6302"); ("towels", "6302");
    ("toys", "95"); ("games", "9504"); ("sporting goods", "9506");
    ("books", "4901"); ("jewelry", "7113"); ("watches", "9102");
    ("cosmetics", "3304"); ("beauty", "33"); ("perfume", "3303");
    ("tools", "8205"); ("hardware", "8302"); ("automotive", "8708");
    ("pet supplies", "4201"); ("luggage", "4202"); ("bags", "4202");
    ("food", "21"); ("coffee", "0901"); ("tea", "0902") ].

(** The loop over [Object.entries(categoryMap)]: the value of the first
    key that occurs in [normalized]. *)
Fixpoint first_included (table : list (string * string))
    (normalized : string) : option string :=
  match table with
  | [] => None
  | (key, value) :: rest =>
      if Str.includes key normalized then Some value
      else first_included rest normalized
  end.

(** [getCategoryHTSCode(category)]; a missing category is the empty
    string. *)
Definition getCategoryHTSCode (category : string) : jsval :=
  if Str.is_empty category then VStr "9999"
  else
    let normalized := Str.trim (Str.toLowerCase category) in
    match get_property categoryMap normalized with
    | Some v =>
        if truthy v then v
        else match first_included categoryMap normalized with
             | Some value => VStr value
             | None => VStr "9999"
             end
    | None =>
        match first_included categoryMap normalized with
        | Some value => VStr value
        | None => VStr "9999"
        end
    end.

(** The table [keywordMap] of [getHTSCodeFromKeywords], in source order. *)
Definition keywordMap : list (string * string) :=
  [ ("phone|smartphone|mobile phone", "8517.12");
    ("laptop|notebook computer", "8471.30");
    ("desktop computer|pc tower", "8471.41");
    ("tablet|ipad", "8471.30");
    ("tv|television|smart tv", "8528.72");
    ("monitor|computer screen", "8528.52");
    ("earbuds|headphones|earphones", "8518.30");
    ("speaker|audio speaker", "8518.22");
    ("camera|digital camera", "8525.80");
    ("battery|rechargeable", "8507");
    ("charger|power adapter", "8504.40");
    ("cable|usb cable", "8544.42");
    ("printer|scanner", "8443.31");
    ("shirt|tshirt|top", "6109");
    ("pants|trousers|jeans", "6203");
    ("shorts", "6204");
    ("dress|gown", "6204");
    ("jacket|coat", "6201");
    ("sweater|pullover", "6110");
    ("underwear|briefs", "6107");
    ("socks", "6115");
    ("shoes|footwear", "6404");
    ("boots", "6403");
    ("hat|cap", "6505");
    ("gloves", "6116");
    ("scarf", "6117");
    ("chair|stool", "9401");
    ("table|desk", "9403");
    ("bed|mattress", "9404");
    ("sofa|couch", "9401.61");
    ("lamp|lighting", "9405");
    ("curtain|drapes", "6303");
    ("rug|carpet", "5705");
    ("blanket|throw", "6301");
    ("towel", "6302");
    ("plates|dishes", "6911");
    ("cookware|pots|pans", "7323");
    ("utensils|flatware", "8215");
    ("knife|knives", "8211");
    ("coffee maker|coffee machine|coffee brewer", "8516.71");
    ("coffee grinder", "8509.40");
    ("coffee dripper|pour over|drip coffee", "7323.93");
    ("coffee filter", "4823.20");
    ("coffee server|coffee carafe", "7013.37");
    ("toy|action figure", "9503");
    ("game|board game", "9504");
    ("book|novel", "4901");
    ("backpack|bag", "4202");
    ("watch|wristwatch", "9102");
    ("jewelry|necklace", "7113");
    ("wallet|purse", "4202");
    ("sunglasses", "9004");
    ("umbrella", "6601");
    ("pen|pencil", "9608");
    ("paper|notebook", "4820");
    ("tool|hammer|screwdriver", "8205");
    ("pet|dog|cat", "4201") ].

(** The product record the connector is called with; a missing text
    field is the empty string. *)
Record Product : Type := mkProduct {
  productTitle : string;
  description : string;
  p_countryOfOrigin : string;
  p_category : string;
  p_price : num;
  p_htsCode : string
}.

(** [title + ' ' + description] *)
Definition combinedText (productData : Product) : string :=
  productTitle productData ++ " " ++ description productData.

(** The loop of [getHTSCodeFromKeywords] over [Object.entries(keywordMap)]. *)
Fixpoint first_keyword (table : list (string * string)) (text : string)
  : option string :=
  match table with
  | [] => None
  | (keywordPattern, htsCode) :: rest =>
      if Regex.test_word keywordPattern text then Some htsCode
      else first_keyword rest text
  end.

(** [getHTSCodeFromKeywords(productData)] *)
Definition getHTSCodeFromKeywords (productData : Product) : string :=
  match first_keyword keywordMap (combinedText productData) with
  | Some htsCode => htsCode
  | None => "9999"
  end.

(** [v !== '9999'] *)
Definition is_not_9999 (v : jsval) : bool :=
  match v with
  | VStr s => negb (String.eqb s "9999")
  | _ => true
  end.

(** [determineHTSCode(productData)]; nothing inside its [try] throws. *)
Definition determineHTSCode (productData : Product) : jsval :=
  let basicCode := getCategoryHTSCode (p_category productData) in
  if is_not_9999 basicCode then basicCode
  else VStr (getHTSCodeFromKeywords productData).

Definition materials : list string :=
  ["cotton"; "wool"; "silk"; "leather"; "plastic"; "metal"; "aluminum";
   "steel"; "wood"; "glass"; "ceramic"; "rubber"; "polyester"; "nylon"].

(** [extractProductAttributes(productData)]; an attribute the code leaves
    unset is [[]], [false] or the empty string. *)
Definition extractProductAttributes (productData : Product) : Api.Attributes :=
  let text := combinedText productData in
  let isApparel :=
    Regex.test "shirt|pants|dress|jacket|coat|sweater|clothing|wear|apparel|garment"
      text in
  {| Api.material :=
       List.filter (fun material => Regex.test_word material text) materials;
     Api.isElectronic :=
       Regex.test "electronic|electrical|battery|powered|rechargeable|digital|smart|wifi|bluetooth"
         text;
     Api.isApparel := isApparel;
     Api.gender :=
       if isApparel then
         if Regex.test "men|man|boy|male" text then "male"
         else if Regex.test "women|woman|girl|female" text then "female"
         else "unisex"
       else "";
     Api.isFood :=
       Regex.test "food|edible|organic|snack|beverage|drink|ingredient" text |}.

(** The record [enrichProductData] returns. *)
Record EnrichedData : Type := mkEnrichedData {
  d_countryOfOrigin : jsval;
  d_htsCode : jsval;
  d_price : num;
  d_attributes : Api.Attributes
}.

(** [enrichProductData(productData)] *)
Definition enrichProductData (productData : Product) : outcome EnrichedData :=
  match Api.normalizeCountryName (VStr (p_countryOfOrigin productData)) with
  | ThrowsTypeError => ThrowsTypeError
  | Returns country =>
      Returns
        {| d_countryOfOrigin := country;
           d_htsCode :=
             if Str.is_empty (p_htsCode productData)
             then determineHTSCode productData
             else VStr (p_htsCode productData);
           d_price := p_price productData;
           d_attributes := extractProductAttributes productData |}
  end.

(** The enriched record as [constructCacheKey] and
    [adjustTariffForCountry] read it: an HTS code that is not a string is
    seen through [String(...)]. *)
Definition as_enriched (d : EnrichedData) : Api.Enriched :=
  {| Api.e_countryOfOrigin := d_countryOfOrigin d;
     Api.e_htsCode := to_display (d_htsCode d);
     Api.e_price := d_price d;
     Api.e_attributes := Some (d_attributes d) |}.

(** The table [chapterRates] of [getBaseTariffRate]. *)
Definition chapterRates : list (string * Q) :=
  [ ("61", 0.16); ("62", 0.16); ("64", 0.20); ("42", 0.08); ("85", 0.02);
    ("84", 0.02); ("90", 0.02); ("95", 0.04); ("71", 0.07); ("39", 0.05);
    ("94", 0.03); ("73", 0.02); ("48", 0.00); ("49", 0.00); ("82", 0.04);
    ("87", 0.03); ("33", 0.02); ("69", 0.06); ("70", 0.05); ("83", 0.05);
    ("96", 0.04); ("44", 0.03); ("63", 0.07); ("65", 0.06); ("91", 0.03);
    ("92", 0.04); ("09", 0.00); ("21", 0.02); ("22", 0.03) ].

(** [getBaseTariffRate(htsCode)].  The chapter has at most two
    characters, so it names no inherited property; a code that is not a
    string has no [substring] method. *)
Definition getBaseTariffRate (htsCode : jsval) : outcome num :=
  match htsCode with
  | VStr code =>
      let chapter := String.substring 0 2 code in
      Returns
        match own_entry chapterRates chapter with
        | Some r => if Qeq_bool r 0 then Fin 0.03 else Fin r
        | None => Fin 0.03
        end
  | VBuiltin _ | VObjectPrototype => ThrowsTypeError
  end.

(** [applySpecialTariffs(rate, message, productData)]: the final rate and
    message (the details are always empty). *)
Definition applySpecialTariffs (rate : num) (message : msg)
    (productData : EnrichedData) : num * msg :=
  (rate, message).

(** A promise that resolves, or one that nothing ever settles. *)
Inductive promise (A : Type) : Type :=
| Resolves (a : A)
| NeverSettles.
Arguments Resolves {A} a.
Arguments NeverSettles {A}.

(** [fetchTariffData(productData)]: the simulated response.  An exception
    in the timer callback leaves the promise pending for ever. *)
Definition fetchTariffData (productData : EnrichedData)
  : promise Api.TariffData :=
  match getBaseTariffRate (d_htsCode productData) with
  | ThrowsTypeError => NeverSettles
  | Returns baseTariff =>
      let '(rate, message) :=
        Api.adjustTariffForCountry baseTariff (as_enriched productData) in
      let '(finalRate, finalMessage) :=
        applySpecialTariffs rate message productData in
      Resolves {| Api.rate := finalRate;
                  Api.td_message := finalMessage;
                  Api.td_htsCode := to_display (d_htsCode productData) |}
  end.

(** What [getTariffInfo] answers: the record built from the simulated
    response, with its HTS code and country; the record built from a
    cached response; the record of [fallbackTariffCheck]; a rejection,
    should the fallback throw as well; the record built from an inherited
    property, should the cache key name one; or nothing, when the
    simulated request never settles. *)
Inductive answer : Type :=
| FromRequest (info : Api.CachedResult) (htsCode : string) (country : jsval)
| FromCache (info : Api.CachedResult)
| FromFallback (result : Api.TariffResult)
| Rejects
| FromInherited
| Pending.

(** [getTariffInfo(productData)], one call run to its end with no other
    call in between; [now1] is the clock read by [hasCachedTariffData],
    [now2] the clock read by [cacheTariffData].  The answer and the cache
    afterwards. *)
Definition getTariffInfo (now1 now2 : Z) (productData : Product)
    (c : Api.TariffCache) : answer * Api.TariffCache :=
  let fallback :=
    match Api.fallbackTariffCheck
            {| countryOfOrigin := p_countryOfOrigin productData;
               price := p_price productData;
               category := Some (p_category productData) |} with
    | Returns r => FromFallback r
    | ThrowsTypeError => Rejects
    end in
  match enrichProductData productData with
  | ThrowsTypeError => (fallback, c)
  | Returns enrichedData =>
      let cacheKey := Api.constructCacheKey (as_enriched enrichedData) in
      let '(hit, c1) := Api.hasCachedTariffData now1 cacheKey c in
      if hit then
        match Api.getCachedTariffData cacheKey (d_price enrichedData) c1 with
        | Some info => (FromCache info, c1)
        | None => (FromInherited, c1)
        end
      else
        match fetchTariffData enrichedData with
        | NeverSettles => (Pending, c1)
        | Resolves tariffData =>
            (FromRequest
               {| Api.c_isSubjectToTariff :=
                    Num.gtb (Api.rate tariffData) (Fin 0);
                  Api.c_tariffAmount :=
                    Num.mul (d_price enrichedData) (Api.rate tariffData);
                  Api.c_tariffRate := Api.rate tariffData;
                  Api.c_message := Api.td_message tariffData |}
               (Api.td_htsCode tariffData)
               (d_countryOfOrigin enrichedData),
             Api.cacheTariffData now2 cacheKey tariffData c1)
        end
  end.

End Hts.

(** ** Notions used in the statements about the page scripts *)

(** The fields the results of the two page scripts share. *)
Definition same_answer (r : Content.TariffResult) (r' : Injection.TariffResult)
  : Prop :=
  Injection.isSubjectToTariff r' = Content.isSubjectToTariff r
  /\ Injection.tariffRate r' = Content.tariffRate r
  /\ Injection.preTariffPrice r' = Content.preTariffPrice r
  /\ Injection.tariffAmount r' = Content.tariffAmount r
  /\ Injection.message r' = Content.message r.

(** A rate that is a non-negative number or [Infinity]. *)
Definition nonneg_rate (r : num) : Prop :=
  match r with
  | Fin q => 0 <= q
  | PInf => True
  | NInf | NaN => False
  end.

(** The USMCA food exemption of the page scripts. *)
Definition usmca_food (country category : string) : bool :=
  negb (isChina country)
  && (Str.includes "mexico" country || Str.includes "canada" country)
  && isFoodCategory category.

(** Does the string contain a decimal digit? *)
Fixpoint has_digit (s : string) : bool :=
  match s with
  | EmptyString => false
  | String c r => Page.is_digit c || has_digit r
  end.

(** ** Notions used in the statements about the connector *)

(** The product with its title and description in lower case. *)
Definition lower_cased (productData : Hts.Product) : Hts.Product :=
  {| Hts.productTitle := Str.toLowerCase (Hts.productTitle productData);
     Hts.description := Str.toLowerCase (Hts.description productData);
     Hts.p_countryOfOrigin := Hts.p_countryOfOrigin productData;
     Hts.p_category := Hts.p_category productData;
     Hts.p_price := Hts.p_price productData;
     Hts.p_htsCode := Hts.p_htsCode productData |}.

(** ASCII characters, and strings and patterns made of them. *)
Definition is_ascii (c : ascii) : bool := (Str.code c <? 128)%N.

Fixpoint ascii_only (s : string) : bool :=
  match s with
  | EmptyString => true
  | String c r => is_ascii c && ascii_only r
  end.

Definition ascii_pattern (pattern : string) : bool :=
  forallb ascii_only (Regex.alternatives pattern).

(** ** Auxiliary notions used in the statements *)

(** A country that none of the named rules of the page scripts matches. *)
Definition unmatched (country : string) : bool :=
  negb (isChina country || Str.includes "mexico" country ||
        Str.includes "canada" country || Str.includes "japan" country ||
        isEU country || Str.includes "vietnam" country || isKorea country ||
        Str.includes "taiwan" country || isUK country ||
        Str.includes "india" country || String.eqb country "unknown").

(** A string that does not begin with white space. *)
Definition starts_clean (s : string) : Prop :=
  match s with
  | EmptyString => True
  | String c _ => Str.is_space c = false
  end.

(** Both page scripts split the price [p] of [pd] into a pre-tariff price
    and a tariff amount that are not negative and add up to [p]. *)
Definition partitioned (pd : ProductData) (p : Q) : Prop :=
  (exists pre amt,
      Content.preTariffPrice (Content.fallbackCalculation pd) = Fin pre
      /\ Content.tariffAmount (Content.fallbackCalculation pd) = Fin amt
      /\ 0 <= pre /\ 0 <= amt /\ pre + amt == p)
  /\ (exists pre amt,
         Injection.preTariffPrice (Injection.fallbackCalculation pd) = Fin pre
         /\ Injection.tariffAmount (Injection.fallbackCalculation pd) = Fin amt
         /\ 0 <= pre /\ 0 <= amt /\ pre + amt == p).

(** The digits a price text has before its first dot. *)
Definition leading_digits (text : string) : string :=
  fst (Page.take_digits (Page.keep_digits_and_dots text)).



(** * Properties *)

Ltac split_cascade :=
  repeat match goal with
         | |- context [if ?b then _ else _] => destruct b eqn:?
         end.


(** ** Comparisons and arithmetic on finite numbers *)

Lemma Qltb_true (a b : Q) : Qltb a b = true <-> a < b.
Proof.
  unfold Qltb. rewrite negb_true_iff.
  split; intro H.
  - apply Qnot_le_lt. intro Hle. apply Qle_bool_iff in Hle. congruence.
  - destruct (Qle_bool b a) eqn:E; [|reflexivity].
    apply Qle_bool_iff in E. lra.
Qed.

Lemma Qltb_false (a b : Q) : Qltb a b = false <-> b <= a.
Proof.
  unfold Qltb. rewrite negb_false_iff. apply Qle_bool_iff.
Qed.

Lemma Qeq_bool_false (a b : Q) : ~ a == b -> Qeq_bool a b = false.
Proof.
  intro H. destruct (Qeq_bool a b) eqn:E; [|reflexivity].
  apply Qeq_bool_iff in E. contradiction.
Qed.

Lemma same_refl (a : num) : a =n= a.
Proof. destruct a; simpl; auto. reflexivity. Qed.

Lemma div_finite (x y : Q) : ~ y == 0 -> Num.div (Fin x) (Fin y) = Fin (x / y).
Proof. intro H. simpl. now rewrite Qeq_bool_false. Qed.

Lemma decompose_finite (p r : Q) :
  0 <= r ->
  decompose (Fin p) (Fin r) = (Fin (p / (1 + r)), Fin (p - p / (1 + r))).
Proof.
  intro Hr. unfold decompose. simpl Num.add.
  rewrite div_finite by lra. reflexivity.
Qed.

(** Both page scripts and the connector's fallback end in [decompose]. *)
Lemma content_result_decomposed (pd : ProductData) :
  let r := Content.fallbackCalculation pd in
  (Content.preTariffPrice r, Content.tariffAmount r)
  = decompose (price pd) (Content.tariffRate r).
Proof.
  unfold Content.fallbackCalculation.
  destruct (Content.resolve _ _ _) as [[rate subj] text].
  destruct (decompose (price pd) rate) eqn:E. simpl. now rewrite E.
Qed.




(** ** The postal channel for China-origin products *)

Lemma postal_price_below_100 (p : Q) (category : string) :
  isPostalShipment (Fin p) category = true -> p < 100.
Proof.
  unfold isPostalShipment. intro H.
  apply andb_prop in H as [H _]. apply andb_prop in H as [H _].
  now apply Qltb_true.
Qed.

Lemma postal_intro (p : Q) (category : string) :
  p < 100 ->
  Str.includes "electronics" category = false ->
  Str.includes "appliance" category = false ->
  isPostalShipment (Fin p) category = true.
Proof.
  intros Hp He Ha. unfold isPostalShipment. rewrite He, Ha. simpl.
  rewrite (proj2 (Qltb_true p 100) Hp). reflexivity.
Qed.

(** The percentage-based amount that [content-injection.js] compares with
    the flat fee. *)
Lemma injection_percent_amount (p : Q) :
  Num.sub (Fin p) (Num.div (Fin p) (Num.add (Fin 1) (Fin 1.20)))
  = Fin (p - p / (1 + 1.20)).
Proof.
  simpl Num.add. rewrite div_finite by lra. reflexivity.
Qed.

(** On the postal channel the China branch of [content-injection.js]
    always ends in the approximation. *)
Lemma injection_china_postal (p : Q) :
  p < 100 ->
  Injection.china (Fin p) true =
  {| Injection.l_tariffRate := Fin 0;
     Injection.l_message :=
       [Lit "This product from China would normally be subject to a $100 flat fee tariff, but since the product price is only $";
        ToFixed 2 (Fin p);
        Lit ", the tariff shown is an approximation. The actual $100 flat fee would be applied at customs for direct imports."];
     Injection.l_isSubjectToTariff := true;
     Injection.l_isUsingFlatFee := true;
     Injection.l_flatFeeAmount := Fin (p * 0.7);
     Injection.l_preTariffPrice := Fin (p - p * 0.7);
     Injection.l_tariffAmount := Fin (p * 0.7);
     Injection.l_specialPriceLogic := true |}.
Proof.
  intro Hp. unfold Injection.china.
  rewrite injection_percent_amount.
  unfold Num.gtb, Num.ltb.
  assert (H1 : Qltb 100 (p - p / (1 + 1.20)) = false).
  { apply Qltb_false.
    assert (E : p - p / (1 + 1.20) == p * (6 # 11)) by (field; lra).
    rewrite E. lra. }
  rewrite H1, (proj2 (Qltb_true p 100) Hp). reflexivity.
Qed.

(** C10. In [content-injection.js], for a China-origin product with
    [0 <= price < 100] whose category contains neither "electronics" nor
    "appliance": the decomposed 120% amount [price * (1.2 / 2.2)] is below
    the $100 fee and the fee exceeds the price, so the guard of the
    percentage branch is false and the guard of the approximation is true;
    the result has [specialPriceLogic = true], [tariffAmount = 0.7 * price]
    and [preTariffPrice = 0.3 * price]. *)
Theorem injection_postal_china_always_approximates
    (pd : ProductData) (p : Q)
    (Hchina : isChina (Str.toLowerCase (countryOfOrigin pd)) = true)
    (Hprice : price pd = Fin p)
    (Hlo : 0 <= p) (Hhi : p < 100)
    (Helec : Str.includes "electronics" (category_lower pd) = false)
    (Happl : Str.includes "appliance" (category_lower pd) = false) :
  let r := Injection.fallbackCalculation pd in
  let percentTariffAmount :=
    Num.sub (Fin p) (Num.div (Fin p) (Num.add (Fin 1) (Fin 1.20))) in
  percentTariffAmount =n= Fin (p * (1.2 / 2.2))
  /\ p * (1.2 / 2.2) < 100
  /\ Num.gtb percentTariffAmount (Fin 100) = false
  /\ Num.gtb (Fin 100) (Fin p) = true
  /\ Injection.specialPriceLogic r = true
  /\ Injection.isUsingFlatFee r = true
  /\ Injection.tariffAmount r =n= Fin (0.7 * p)
  /\ Injection.preTariffPrice r =n= Fin (0.3 * p)
  /\ Injection.tariffRate r = Fin 0.
Proof.
  intros r amount. subst amount.
  rewrite injection_percent_amount.
  assert (E : p - p / (1 + 1.20) == p * (1.2 / 2.2)) by (field; lra).
  assert (K : p * (1.2 / 2.2) == p * (6 # 11)) by field.
  split; [exact E|].
  split; [rewrite K; lra|].
  split; [apply Qltb_false; rewrite E, K; lra|].
  split; [now apply Qltb_true|].
  assert (Hr : r = Injection.fallbackCalculation pd) by reflexivity.
  unfold Injection.fallbackCalculation, Injection.resolve in Hr.
  rewrite Hchina, Hprice, (postal_intro p _ Hhi Helec Happl) in Hr.
  rewrite (injection_china_postal p Hhi) in Hr.
  cbn [Injection.l_isUsingFlatFee negb andb Injection.l_tariffAmount
       Injection.l_preTariffPrice Injection.l_isSubjectToTariff
       Injection.l_tariffRate Injection.l_message
       Injection.l_flatFeeAmount Injection.l_specialPriceLogic] in Hr.
  rewrite Hr.
  cbn [Injection.specialPriceLogic Injection.isUsingFlatFee
       Injection.tariffAmount Injection.preTariffPrice
       Injection.tariffRate Num.same].
  repeat split; ring.
Qed.

Lemma injection_postal_china_always_approximates_witness :
  let r := Injection.fallbackCalculation (mkProduct "China" (Fin 80) (Some "Toys")) in
  Injection.specialPriceLogic r = true
  /\ Injection.tariffAmount r =n= Fin (0.7 * 80)
  /\ Injection.preTariffPrice r =n= Fin (0.3 * 80).
Proof.
  assert (Hlo : 0 <= 80) by (unfold Qle; simpl; lia).
  assert (Hhi : 80 < 100) by (unfold Qlt; simpl; lia).
  destruct (injection_postal_china_always_approximates
              (mkProduct "China" (Fin 80) (Some "Toys")) 80
              eq_refl eq_refl Hlo Hhi eq_refl eq_refl)
    as (_ & _ & _ & _ & Hs & _ & Ha & Hp & _).
  exact (conj Hs (conj Ha Hp)).
Defined.

(** The China branch of [content.js] on the postal channel. *)
Lemma content_china_postal (country category : string) (p : Q) :
  isChina country = true ->
  isPostalShipment (Fin p) category = true ->
  fst (fst (Content.resolve country (Fin p) category))
  = if Qltb 100 (p * 1.20) then Fin 1.20 else Num.div (Fin 100) (Fin p).
Proof.
  intros Hc Hp. unfold Content.resolve. rewrite Hc, Hp.
  unfold Num.gtb, Num.mul, Num.ltb.
  now destruct (Qltb 100 (p * 1.20)).
Qed.

Lemma content_rate_resolved (pd : ProductData) :
  Content.tariffRate (Content.fallbackCalculation pd)
  = fst (fst (Content.resolve (Str.toLowerCase (countryOfOrigin pd))
                              (price pd) (category_lower pd))).
Proof.
  unfold Content.fallbackCalculation.
  destruct (Content.resolve _ _ _) as [[rate subj] text].
  now destruct (decompose (price pd) rate).
Qed.

Lemma content_amount_resolved (pd : ProductData) :
  Content.tariffAmount (Content.fallbackCalculation pd)
  = snd (decompose (price pd)
           (Content.tariffRate (Content.fallbackCalculation pd))).
Proof.
  pose proof (content_result_decomposed pd) as H. simpl in H.
  now rewrite <- H.
Qed.

(** The amounts the two postal policies decompose to at price [p > 0]. *)
Lemma percent_policy_amount (p : Q) :
  snd (decompose (Fin p) (Fin 1.20)) = Fin (p - p / (1 + 1.20)).
Proof. rewrite decompose_finite by lra. reflexivity. Qed.

Lemma flat_policy_amount (p : Q) :
  0 < p ->
  snd (decompose (Fin p) (Num.div (Fin 100) (Fin p)))
  = Fin (p - p / (1 + 100 / p)).
Proof.
  intro Hp. rewrite div_finite by lra.
  assert (H : 0 <= 100 / p).
  { apply Qle_shift_div_l; [assumption | lra]. }
  rewrite decompose_finite by assumption. reflexivity.
Qed.

Lemma flat_policy_amount_zero (p : Q) :
  p == 0 ->
  snd (decompose (Fin p) (Num.div (Fin 100) (Fin p))) = Fin (p - 0).
Proof.
  intro Hp. unfold Num.div at 1.
  rewrite (proj2 (Qeq_bool_iff p 0) Hp). reflexivity.
Qed.

Lemma amounts_ordered (p : Q) :
  0 < p ->
  (p * 1.20 <= 100 -> p - p / (1 + 1.20) <= p - p / (1 + 100 / p))
  /\ (100 < p * 1.20 -> p - p / (1 + 100 / p) <= p - p / (1 + 1.20)).
Proof.
  intro Hp.
  assert (E1 : p - p / (1 + 1.20) == p * (6 # 11)) by (field; lra).
  assert (E2 : p - p / (1 + 100 / p) == (100 * p) / (p + 100)).
  { field. split; lra. }
  rewrite E1, E2. split; intro H.
  - apply Qle_shift_div_l; [lra | nra].
  - apply Qle_shift_div_r; [lra | nra].
Qed.

(** The whole outcome of the China branch of [content.js] on the postal
    channel. *)
Lemma content_china_postal_outcome (country category : string) (p : Q) :
  isChina country = true ->
  isPostalShipment (Fin p) category = true ->
  Content.resolve country (Fin p) category
  = if Qltb 100 (p * 1.20) then
      (Fin 1.20, true,
       [Lit "This product from China is subject to a 120% tariff rate as a postal shipment under the May 2025 trade policy"])
    else
      (Num.div (Fin 100) (Fin p), true,
       [Lit "This product from China is subject to a $100 flat fee as a postal shipment under the May 2025 trade policy (equivalent to a ";
        ToFixed 1 (Num.mul (Num.div (Fin 100) (Fin p)) (Fin 100));
        Lit "% rate)"]).
Proof.
  intros Hc Hp. unfold Content.resolve. rewrite Hc, Hp.
  unfold Num.gtb, Num.mul at 1, Num.ltb.
  now destruct (Qltb 100 (p * 1.20)).
Qed.

(** The two page scripts at China, $90, toys.  120% of the price (108)
    exceeds the $100 fee and [content.js] selects the percentage rate;
    [content-injection.js] selects the fee, and the tariff it reports is
    70% of the price (63): neither the fee nor the amount [content.js]
    reports. *)
Lemma postal_china_scripts_select_opposite_policies :
  let pd := mkProduct "China" (Fin 90) (Some "Toys") in
  let r := Content.fallbackCalculation pd in
  let r' := Injection.fallbackCalculation pd in
  isChina (Str.toLowerCase (countryOfOrigin pd)) = true
  /\ isPostalShipment (price pd) (category_lower pd) = true
  /\ 100 < 90 * 1.20
  /\ Content.tariffRate r = Fin 1.20
  /\ Injection.isUsingFlatFee r' = true
  /\ Injection.tariffRate r' = Fin 0
  /\ Injection.tariffAmount r' =n= Fin 63
  /\ ~ Injection.tariffAmount r' =n= Fin 100
  /\ ~ Injection.tariffAmount r' =n= Content.tariffAmount r.
Proof.
  vm_compute. repeat split; intro H; discriminate H.
Qed.

(** C2, as the code has it.  For a China-origin product on the inferred
    postal channel the two page scripts compare different quantities.
    [content.js] compares [price * 1.20] with the $100 fee: when it is
    larger the result carries the 120% rate, otherwise the fee as the rate
    [100 / price]; either way the price is decomposed by that rate, and for
    [price >= 0] the tariff amount is the larger of the amounts the two
    policies decompose to.  [content-injection.js] compares the decomposed
    120% amount [price - price / 2.2] with the $100 fee; below $100 the fee
    is always the larger of these two and exceeds the price, so the result
    is always the approximation: flat fee flagged, rate 0, tariff and
    [flatFeeAmount] 70% of the price, pre-tariff price the remainder. *)
Theorem postal_china_selects_larger_tariff
    (pd : ProductData) (p : Q)
    (Hchina : isChina (Str.toLowerCase (countryOfOrigin pd)) = true)
    (Hprice : price pd = Fin p)
    (Hpostal : isPostalShipment (Fin p) (category_lower pd) = true) :
  let r := Content.fallbackCalculation pd in
  let r' := Injection.fallbackCalculation pd in
  let percentTariffAmount :=
    Num.sub (Fin p) (Num.div (Fin p) (Num.add (Fin 1) (Fin 1.20))) in
  ((100 < p * 1.20 /\ Content.tariffRate r = Fin 1.20 /\
    Content.message r =
      [Lit "This product from China is subject to a 120% tariff rate as a postal shipment under the May 2025 trade policy"]) \/
   (p * 1.20 <= 100 /\ Content.tariffRate r = Num.div (Fin 100) (Fin p) /\
    Content.message r =
      [Lit "This product from China is subject to a $100 flat fee as a postal shipment under the May 2025 trade policy (equivalent to a ";
       ToFixed 1 (Num.mul (Num.div (Fin 100) (Fin p)) (Fin 100));
       Lit "% rate)"]))
  /\ Content.isSubjectToTariff r = true
  /\ (Content.preTariffPrice r, Content.tariffAmount r)
     = decompose (Fin p) (Content.tariffRate r)
  /\ (0 <= p ->
      exists a1 a2 : Q,
        snd (decompose (Fin p) (Fin 1.20)) = Fin a1 /\
        snd (decompose (Fin p) (Num.div (Fin 100) (Fin p))) = Fin a2 /\
        Content.tariffAmount r =n= Fin (Qmax a1 a2))
  /\ percentTariffAmount = Fin (p - p / (1 + 1.20))
  /\ p - p / (1 + 1.20) <= 100
  /\ Num.gtb percentTariffAmount (Fin 100) = false
  /\ Num.gtb (Fin 100) (Fin p) = true
  /\ r' = {| Injection.isSubjectToTariff := true;
             Injection.tariffRate := Fin 0;
             Injection.preTariffPrice := Fin (p - p * 0.7);
             Injection.tariffAmount := Fin (p * 0.7);
             Injection.message :=
               [Lit "This product from China would normally be subject to a $100 flat fee tariff, but since the product price is only $";
                ToFixed 2 (Fin p);
                Lit ", the tariff shown is an approximation. The actual $100 flat fee would be applied at customs for direct imports."];
             Injection.isFallback := true;
             Injection.isUsingFlatFee := true;
             Injection.flatFeeAmount := Fin (p * 0.7);
             Injection.specialPriceLogic := true |}.
Proof.
  intros r r' amount. subst amount.
  pose proof (postal_price_below_100 p _ Hpostal) as Hlt.
  assert (Hrate : Content.tariffRate r
                  = if Qltb 100 (p * 1.20) then Fin 1.20
                    else Num.div (Fin 100) (Fin p)).
  { subst r. rewrite content_rate_resolved, Hprice.
    now apply content_china_postal. }
  assert (Hamt : Content.tariffAmount r
                 = snd (decompose (Fin p) (Content.tariffRate r))).
  { subst r. now rewrite content_amount_resolved, Hprice. }
  assert (Hdec : (Content.preTariffPrice r, Content.tariffAmount r)
                 = decompose (Fin p) (Content.tariffRate r)).
  { pose proof (content_result_decomposed pd) as H. simpl in H.
    now rewrite Hprice in H. }
  assert (Hres : Content.message r
                 = snd (Content.resolve (Str.toLowerCase (countryOfOrigin pd))
                          (Fin p) (category_lower pd))
                 /\ Content.isSubjectToTariff r
                 = snd (fst (Content.resolve
                          (Str.toLowerCase (countryOfOrigin pd))
                          (Fin p) (category_lower pd)))).
  { subst r. unfold Content.fallbackCalculation. rewrite Hprice.
    destruct (Content.resolve _ _ _) as [[rate subj] text].
    now destruct (decompose (Fin p) rate). }
  destruct Hres as [Hmsg Hsubj].
  rewrite (content_china_postal_outcome _ _ p Hchina Hpostal) in Hmsg, Hsubj.
  assert (E1 : p - p / (1 + 1.20) == p * (6 # 11)) by (field; lra).
  split; [|split; [|split; [|split; [|split; [|split; [|split; [|split]]]]]]].
  - destruct (Qltb 100 (p * 1.20)) eqn:E.
    + left. split; [now apply Qltb_true | split; [exact Hrate | exact Hmsg]].
    + right. split; [now apply Qltb_false | split; [exact Hrate | exact Hmsg]].
  - rewrite Hsubj. now destruct (Qltb 100 (p * 1.20)).
  - exact Hdec.
  - intro Hp.
    destruct (Qeq_dec p 0) as [Hz | Hnz].
    + exists (p - p / (1 + 1.20)), (p - 0).
      split; [apply percent_policy_amount|].
      split; [now apply flat_policy_amount_zero|].
      assert (E : Qltb 100 (p * 1.20) = false)
        by (apply Qltb_false; rewrite Hz; lra).
      rewrite Hamt, Hrate, E, flat_policy_amount_zero by assumption.
      simpl. symmetry. apply Q.max_r.
      rewrite E1, Hz. lra.
    + assert (Hpos : 0 < p) by lra.
      exists (p - p / (1 + 1.20)), (p - p / (1 + 100 / p)).
      split; [apply percent_policy_amount|].
      split; [now apply flat_policy_amount|].
      destruct (amounts_ordered p Hpos) as [Hflat Hpct].
      rewrite Hamt, Hrate.
      destruct (Qltb 100 (p * 1.20)) eqn:E.
      * rewrite percent_policy_amount. simpl. symmetry.
        apply Q.max_l, Hpct. now apply Qltb_true.
      * rewrite flat_policy_amount by assumption. simpl. symmetry.
        apply Q.max_r, Hflat. now apply Qltb_false.
  - apply injection_percent_amount.
  - rewrite E1; lra.
  - rewrite injection_percent_amount. apply Qltb_false. rewrite E1. lra.
  - now apply Qltb_true.
  - subst r'. unfold Injection.fallbackCalculation, Injection.resolve.
    rewrite Hchina, Hprice, Hpostal, (injection_china_postal p Hlt).
    reflexivity.
Qed.

Lemma postal_china_selects_larger_tariff_witness :
  let pd := mkProduct "China" (Fin 90) (Some "Toys") in
  100 < 90 * 1.20
  /\ Content.tariffRate (Content.fallbackCalculation pd) = Fin 1.20
  /\ Injection.isUsingFlatFee (Injection.fallbackCalculation pd) = true
  /\ Injection.tariffAmount (Injection.fallbackCalculation pd)
     = Fin (90 * 0.7).
Proof.
  destruct (postal_china_selects_larger_tariff
              (mkProduct "China" (Fin 90) (Some "Toys")) 90
              eq_refl eq_refl eq_refl)
    as ([(Hgt & Hrate & _) | (Hle & _)] & _ & _ & _ & _ & _ & _ & _ & Hres).
  - split; [exact Hgt|]. split; [exact Hrate|].
    rewrite Hres. split; reflexivity.
  - exfalso. unfold Qle in Hle. simpl in Hle. lia.
Defined.

(** ** The flat fee that is not below the price *)






(** ** Exempt and unknown origins *)

(** C9. Country "Mexico", category "produce", price 50: both page scripts
    return rate 0, [isSubjectToTariff = false], a tariff amount of 0 and a
    pre-tariff price equal to the observed price. *)
Theorem mexico_produce_exempt :
  let pd := mkProduct "Mexico" (Fin 50) (Some "produce") in
  let r := Content.fallbackCalculation pd in
  let r' := Injection.fallbackCalculation pd in
  (Content.tariffRate r = Fin 0
   /\ Content.isSubjectToTariff r = false
   /\ Content.tariffAmount r =n= Fin 0
   /\ Content.preTariffPrice r =n= Fin 50
   /\ Content.message r
      = [Lit "This product appears to qualify for USMCA exemption (0% tariff)"])
  /\ (Injection.tariffRate r' = Fin 0
      /\ Injection.isSubjectToTariff r' = false
      /\ Injection.tariffAmount r' =n= Fin 0
      /\ Injection.preTariffPrice r' =n= Fin 50
      /\ Injection.isUsingFlatFee r' = false
      /\ Injection.message r'
         = [Lit "This product appears to qualify for USMCA exemption (0% tariff)"]).
Proof.
  vm_compute. repeat split.
Qed.

Lemma content_unknown (pr : num) (category : string) :
  Content.resolve "unknown" pr category
  = if Num.ltb pr (Fin 50) && isLikelyChinaCategory category
    then (Fin 1.25, true,
          [Lit "Based on the product type and price, this is likely from China and subject to a 125% tariff rate"])
    else (Fin 0.10, true,
          [Lit "Country of origin unknown, applying the minimum baseline 10% tariff"]).
Proof. reflexivity. Qed.

Lemma injection_unknown (pr : num) (category : string) :
  Injection.resolve "unknown" pr category
  = Injection.rate_only (Fin 0.10) true
      [Lit "Country of origin unknown, applying the minimum baseline 10% tariff"].
Proof. reflexivity. Qed.

Lemma unmatched_baseline (country category : string) (pr : num) :
  unmatched country = true ->
  fst (fst (Content.resolve country pr category)) = Fin 0.10
  /\ Injection.l_tariffRate (Injection.resolve country pr category) = Fin 0.10.
Proof.
  unfold unmatched. rewrite negb_true_iff. intro H.
  unfold Content.resolve, Injection.resolve.
  unfold isChina, isEU, isKorea, isUK in *.
  repeat (apply orb_false_elim in H as [H ?]).
  repeat match goal with E : _ = false |- _ => rewrite E; clear E end.
  split; reflexivity.
Qed.

(** [content.js] at "Unknown", $30, electronics: the 125% rate, not the
    10% baseline. *)
Lemma content_unknown_not_baseline :
  let r := Content.fallbackCalculation
             (mkProduct "Unknown" (Fin 30) (Some "Electronics")) in
  Content.tariffRate r = Fin 1.25 /\ ~ Content.tariffRate r =n= Fin 0.10.
Proof.
  vm_compute. split; [reflexivity | intro H; discriminate H].
Qed.

(** C4, as the code has it.  For a product whose lower-cased country is
    "unknown": [content-injection.js] always applies the 10% baseline with
    the message "Country of origin unknown, ..."; [content.js] does so
    unless the price is below 50 and the category contains "electronics",
    "home", "light" or "tool", where it applies 125%.  The 10% baseline is
    the rate of every country that no named rule matches. *)
Theorem unknown_origin_policy
    (pd : ProductData)
    (Hunknown : Str.toLowerCase (countryOfOrigin pd) = "unknown") :
  let r := Content.fallbackCalculation pd in
  let r' := Injection.fallbackCalculation pd in
  let note :=
    "Country of origin unknown, applying the minimum baseline 10% tariff" in
  (Injection.tariffRate r' = Fin 0.10
   /\ Injection.isSubjectToTariff r' = true
   /\ Injection.isUsingFlatFee r' = false
   /\ Injection.message r' = [Lit note])
  /\ (if Num.ltb (price pd) (Fin 50) && isLikelyChinaCategory (category_lower pd)
      then Content.tariffRate r = Fin 1.25
      else Content.tariffRate r = Fin 0.10 /\ Content.message r = [Lit note])
  /\ Content.isSubjectToTariff r = true
  /\ Str.includes "unknown" note = true
  /\ (forall country category pr,
        unmatched country = true ->
        fst (fst (Content.resolve country pr category)) = Fin 0.10
        /\ Injection.l_tariffRate (Injection.resolve country pr category)
           = Fin 0.10).
Proof.
  intros r r' note.
  split; [|split; [|split; [|split]]].
  - subst r'. unfold Injection.fallbackCalculation.
    rewrite Hunknown, injection_unknown. repeat split.
  - subst r. unfold Content.fallbackCalculation.
    rewrite Hunknown, content_unknown.
    destruct (Num.ltb (price pd) (Fin 50)
              && isLikelyChinaCategory (category_lower pd));
      destruct (decompose (price pd) _); simpl; auto.
  - subst r. unfold Content.fallbackCalculation.
    rewrite Hunknown, content_unknown.
    destruct (Num.ltb (price pd) (Fin 50)
              && isLikelyChinaCategory (category_lower pd));
      destruct (decompose (price pd) _); reflexivity.
  - reflexivity.
  - intros. now apply unmatched_baseline.
Qed.

Lemma unknown_origin_policy_witness :
  let pd := mkProduct "Unknown" (Fin 30) (Some "Books") in
  Injection.tariffRate (Injection.fallbackCalculation pd) = Fin 0.10
  /\ Content.tariffRate (Content.fallbackCalculation pd) = Fin 0.10.
Proof.
  destruct (unknown_origin_policy
              (mkProduct "Unknown" (Fin 30) (Some "Books")) eq_refl)
    as ((Hinj & _) & Hcontent & _).
  simpl in Hcontent. destruct Hcontent as [Hc _].
  exact (conj Hinj Hc).
Defined.

(** ** The two rate tables *)

(** C5. The connector's rate table and the content script's disagree: for
    "China" (price 200, category "Electronics") the connector assigns 54%
    and the content script 125%; and the connector's China rate does not
    depend on the price, whereas the content script's postal schedule
    gives the $100 fee (rate [100 / 50]) at price 50 and 120% at price 90. *)
Theorem rate_tables_disagree :
  exists (country category : string) (pr : num),
    (exists c,
        Api.normalizeCountryName (VStr country) = Returns c
        /\ forall baseRate htsCode attrs,
            fst (Api.adjustTariffForCountry baseRate
                   (Api.mkEnriched c htsCode pr attrs)) = Fin 0.54)
    /\ Content.tariffRate
         (Content.fallbackCalculation (mkProduct country pr (Some category)))
       = Fin 1.25
    /\ ~ Fin 0.54 =n= Fin 1.25
    /\ (forall baseRate htsCode attrs pr',
          fst (Api.adjustTariffForCountry baseRate
                 (Api.mkEnriched (VStr "china") htsCode pr' attrs)) = Fin 0.54)
    /\ Content.tariffRate
         (Content.fallbackCalculation (mkProduct country (Fin 50) (Some "Toys")))
       =n= Fin 2
    /\ Content.tariffRate
         (Content.fallbackCalculation (mkProduct country (Fin 90) (Some "Toys")))
       = Fin 1.20.
Proof.
  exists "China", "Electronics", (Fin 200).
  split; [exists (VStr "china"); split; reflexivity|].
  split; [reflexivity|].
  split; [intro H; vm_compute in H; discriminate H|].
  split; [reflexivity|].
  split; [vm_compute; reflexivity | reflexivity].
Qed.

(** ** Country normalisation *)

Lemma lower_char_idem (c : ascii) :
  Str.lower_char (Str.lower_char c) = Str.lower_char c.
Proof. destruct c as [[] [] [] [] [] [] [] []]; reflexivity. Qed.

Lemma is_space_lower (c : ascii) :
  Str.is_space (Str.lower_char c) = Str.is_space c.
Proof. destruct c as [[] [] [] [] [] [] [] []]; reflexivity. Qed.

Lemma toLowerCase_idem (s : string) :
  Str.toLowerCase (Str.toLowerCase s) = Str.toLowerCase s.
Proof.
  induction s as [|c s IH]; simpl; [reflexivity|].
  now rewrite lower_char_idem, IH.
Qed.

Lemma trimStart_lower (s : string) :
  Str.trimStart (Str.toLowerCase s) = Str.toLowerCase (Str.trimStart s).
Proof.
  induction s as [|c s IH]; simpl; [reflexivity|].
  rewrite is_space_lower. now destruct (Str.is_space c).
Qed.

Lemma trimEnd_lower (s : string) :
  Str.trimEnd (Str.toLowerCase s) = Str.toLowerCase (Str.trimEnd s).
Proof.
  induction s as [|c s IH]; simpl; [reflexivity|].
  rewrite IH, is_space_lower.
  destruct (Str.trimEnd s); simpl; [|reflexivity].
  now destruct (Str.is_space c).
Qed.

Lemma trim_lower (s : string) :
  Str.trim (Str.toLowerCase s) = Str.toLowerCase (Str.trim s).
Proof. unfold Str.trim. now rewrite trimStart_lower, trimEnd_lower. Qed.

Lemma trimStart_clean (s : string) : starts_clean (Str.trimStart s).
Proof.
  induction s as [|c s IH]; simpl; [exact I|].
  destruct (Str.is_space c) eqn:E; [exact IH | exact E].
Qed.

Lemma trimStart_of_clean (s : string) :
  starts_clean s -> Str.trimStart s = s.
Proof. destruct s as [|c s]; simpl; [reflexivity|]. now intros ->. Qed.

Lemma trimEnd_clean (s : string) :
  starts_clean s -> starts_clean (Str.trimEnd s).
Proof.
  destruct s as [|c s]; simpl; [auto|]. intro Hc.
  destruct (Str.trimEnd s); [rewrite Hc|]; exact Hc.
Qed.

Lemma trimEnd_idem (s : string) :
  Str.trimEnd (Str.trimEnd s) = Str.trimEnd s.
Proof.
  induction s as [|c s IH]; [reflexivity|].
  cbn [Str.trimEnd]. destruct (Str.trimEnd s) as [|d t] eqn:E.
  - destruct (Str.is_space c) eqn:Ec; [reflexivity|].
    cbn [Str.trimEnd]. now rewrite Ec.
  - change (Str.trimEnd (String c (String d t)))
      with (match Str.trimEnd (String d t) with
            | EmptyString =>
                if Str.is_space c then EmptyString else String c EmptyString
            | r' => String c r'
            end).
    now rewrite IH.
Qed.

Lemma trim_idem (s : string) : Str.trim (Str.trim s) = Str.trim s.
Proof.
  unfold Str.trim.
  rewrite (trimStart_of_clean (Str.trimEnd (Str.trimStart s))).
  - apply trimEnd_idem.
  - apply trimEnd_clean, trimStart_clean.
Qed.

(** The normal form [toLowerCase().trim()] is stable. *)
Lemma normal_form_stable (s : string) :
  Str.trim (Str.toLowerCase (Str.trim (Str.toLowerCase s)))
  = Str.trim (Str.toLowerCase s).
Proof. now rewrite <- trim_lower, toLowerCase_idem, trim_idem. Qed.

Lemma own_property_In (table : list (string * string)) (k v : string) :
  own_property table k = Some v -> In v (List.map snd table).
Proof.
  induction table as [|[k' v'] rest IH]; simpl; [discriminate|].
  destruct (String.eqb k k'); [intros [= ->]; now left | auto].
Qed.

(** Every alias stands for a non-empty name that normalises to itself. *)
Lemma countryMap_values_fixed (k v : string) :
  own_property Api.countryMap k = Some v ->
  Str.is_empty v = false
  /\ Api.normalizeCountryName (VStr v) = Returns (VStr v).
Proof.
  intro H. apply own_property_In in H.
  assert (All : Forall (fun v => Str.is_empty v = false
                 /\ Api.normalizeCountryName (VStr v) = Returns (VStr v))
                (List.map snd Api.countryMap)).
  { repeat constructor. }
  rewrite Forall_forall in All. now apply All.
Qed.

Lemma inherited_not_string (k : string) (v : jsval) :
  object_prototype_property k = Some v ->
  truthy v = true /\ forall s, v <> VStr s.
Proof.
  unfold object_prototype_property.
  destruct (String.eqb k "constructor"); [intros [= <-]; now split|].
  destruct (String.eqb k "__proto__"); [intros [= <-]; now split|].
  destruct (existsb _ _); [intros [= <-]; now split | discriminate].
Qed.

(** On a non-empty string, [normalizeCountryName] returns the looked-up
    property of the alias table, or the normal form. *)
Lemma normalize_nonempty (s : string) :
  s <> "" ->
  Api.normalizeCountryName (VStr s)
  = Returns (or_else (get_property Api.countryMap
                        (Str.trim (Str.toLowerCase s)))
                     (VStr (Str.trim (Str.toLowerCase s)))).
Proof. destruct s; [congruence | reflexivity]. Qed.

(** [normalizeCountryName] repeats itself on every string it returns. *)
Lemma normalize_idempotent_on_strings (s v : string) :
  Api.normalizeCountryName (VStr s) = Returns (VStr v) ->
  Api.normalizeCountryName (VStr v) = Returns (VStr v).
Proof.
  destruct (string_dec s "") as [-> | Hs]; [now intros [= <-]|].
  rewrite (normalize_nonempty s Hs).
  set (n := Str.trim (Str.toLowerCase s)).
  unfold get_property.
  destruct (own_property Api.countryMap n) as [a|] eqn:Hown.
  - destruct (countryMap_values_fixed n a Hown) as [Ha Hfix].
    simpl. rewrite Ha. simpl. now intros [= <-].
  - destruct (object_prototype_property n) as [b|] eqn:Hproto.
    + destruct (inherited_not_string n b Hproto) as [Hb Hns].
      simpl. rewrite Hb. intros [= ->]. now elim (Hns v).
    + simpl. intros [= <-].
      destruct (string_dec n "") as [-> | Hn]; [reflexivity|].
      rewrite (normalize_nonempty n Hn).
      unfold n at 1 2. rewrite normal_form_stable. fold n.
      unfold get_property. now rewrite Hown, Hproto.
Qed.

(** The empty input is returned as it is, not as "unknown". *)
Lemma normalize_empty_not_unknown :
  Api.normalizeCountryName (VStr "") = Returns (VStr "")
  /\ Api.normalizeCountryName (VStr "") <> Returns (VStr "unknown").
Proof. split; [reflexivity | discriminate]. Qed.

(** C6, as the code has it.  On every string [normalizeCountryName]
    returns and does not throw.  The empty string is returned unchanged.
    For a non-empty input with normal form [n = toLowerCase().trim()]: an
    alias [n] yields the name the table gives it; an [n] that is neither
    an alias nor the name of a property inherited from [Object.prototype]
    yields [n] itself. *)
Theorem normalizeCountryName_total (s : string) :
  let n := Str.trim (Str.toLowerCase s) in
  (exists v, Api.normalizeCountryName (VStr s) = Returns v)
  /\ (s = "" -> Api.normalizeCountryName (VStr s) = Returns (VStr ""))
  /\ (s <> "" ->
      forall v, own_property Api.countryMap n = Some v ->
                Api.normalizeCountryName (VStr s) = Returns (VStr v))
  /\ (s <> "" ->
      own_property Api.countryMap n = None ->
      object_prototype_property n = None ->
      Api.normalizeCountryName (VStr s) = Returns (VStr n)).
Proof.
  intro n. split; [|split; [|split]].
  - unfold Api.normalizeCountryName.
    destruct (negb (truthy (VStr s))); eauto.
  - now intros ->.
  - intros Hs v Hown. rewrite (normalize_nonempty s Hs). fold n.
    unfold get_property. rewrite Hown.
    destruct (countryMap_values_fixed n v Hown) as [Hv _].
    simpl. now rewrite Hv.
  - intros Hs Hown Hproto. rewrite (normalize_nonempty s Hs). fold n.
    unfold get_property. now rewrite Hown, Hproto.
Qed.

Lemma normalizeCountryName_total_witness :
  Api.normalizeCountryName (VStr "  U.S. ") = Returns (VStr "united states")
  /\ Api.normalizeCountryName (VStr " Peru") = Returns (VStr "peru").
Proof.
  destruct (normalizeCountryName_total "  U.S. ") as (_ & _ & Halias & _).
  destruct (normalizeCountryName_total " Peru") as (_ & _ & _ & Hself).
  split.
  - apply Halias; [discriminate | reflexivity].
  - apply Hself; [discriminate | reflexivity | reflexivity].
Defined.

(** C7 at the input "constructor": the alias table inherits a property of
    that name, so the call returns the function [Object] instead of a
    string, and normalising that result throws. *)
Theorem normalize_constructor_not_idempotent :
  Api.normalizeCountryName (VStr "constructor") = Returns (VBuiltin "Object")
  /\ Api.normalizeCountryName (VBuiltin "Object") = ThrowsTypeError
  /\ own_property Api.countryMap "constructor" = None.
Proof. repeat split. Qed.

(** ** The tariff cache *)




Lemma run_app (c : Api.TariffCache) (h1 h2 : list Api.access) :
  Api.run c (h1 ++ h2)%list = Api.run (Api.run c h1) h2.
Proof. apply fold_left_app. Qed.







(** A write restarts the clock of the whole store: a record can be read
    more than 24 hours after it was written, when a later write came
    within 24 hours of the read. *)
Remark write_restarts_the_clock :
  let td := Api.mkTariffData (Fin 0.54) [] "85" in
  let td' := Api.mkTariffData (Fin 0.10) [] "95" in
  let h := [Api.Get 1700000000000 "china-85";
            Api.Put 1700000000300 "china-85" td;
            Api.Put 1700080000000 "japan-95" td'] in
  fst (Api.get 1700160000000 "china-85" (Api.run Api.tariffCache0 h))
  = Some td
  /\ (1700160000000 - 1700000000300 > Api.CACHE_DURATION)%Z.
Proof. split; vm_compute; reflexivity. Qed.

(** *** Cache keys *)

Lemma includes_dash (a b : string) :
  Str.includes "-" (a ++ "-" ++ b) = true.
Proof.
  induction a as [|c a IH].
  - destruct b; reflexivity.
  - change (String c a ++ "-" ++ b) with (String c (a ++ "-" ++ b)).
    cbn [Str.includes].
    destruct (String.prefix "-" (String c (a ++ "-" ++ b))); [reflexivity|].
    exact IH.
Qed.

Lemma inherited_name_has_no_dash (k : string) (v : jsval) :
  object_prototype_property k = Some v -> Str.includes "-" k = false.
Proof.
  unfold object_prototype_property.
  destruct (String.eqb_spec k "constructor") as [-> | _]; [reflexivity|].
  destruct (String.eqb_spec k "__proto__") as [-> | _]; [reflexivity|].
  destruct (existsb _ _) eqn:E; [|discriminate].
  intros _. apply existsb_exists in E as (x & Hin & Hx).
  apply String.eqb_eq in Hx as ->.
  simpl in Hin.
  repeat (destruct Hin as [<- | Hin]; [reflexivity|]). contradiction.
Qed.

(** Every key that [constructCacheKey] builds contains a dash, so it names
    no property inherited from [Object.prototype]: a cache read hits own
    entries only, and a cache write always creates or replaces one. *)
Lemma constructCacheKey_own_only (productData : Api.Enriched) :
  Str.includes "-" (Api.constructCacheKey productData) = true
  /\ object_prototype_property (Api.constructCacheKey productData) = None.
Proof.
  assert (H : Str.includes "-" (Api.constructCacheKey productData) = true).
  { unfold Api.constructCacheKey, Api.push.
    destruct (Api.e_attributes productData) as [a|];
      [|apply includes_dash].
    destruct (0 <? length (Api.material a))%nat, (Api.isElectronic a),
      (Api.isApparel a && negb (Str.is_empty (Api.gender a))),
      (Api.isFood a); apply includes_dash. }
  split; [exact H|].
  destruct (object_prototype_property _) eqn:E; [|reflexivity].
  apply inherited_name_has_no_dash in E. congruence.
Qed.

(** * Further properties of the page scripts *)

(** ** The two page scripts compared *)

Lemma china_non_postal_inline (pr : num) :
  (Injection.l_preTariffPrice (Injection.china pr false),
   Injection.l_tariffAmount (Injection.china pr false))
  = decompose pr (Fin 1.25).
Proof. reflexivity. Qed.

(** The result of [content-injection.js] when the branch taken only set
    the rate, the flag and the message. *)
Lemma injection_rate_only (pd : ProductData) (rate : num) (subject : bool)
    (text : msg) :
  Injection.resolve (Str.toLowerCase (countryOfOrigin pd)) (price pd)
    (category_lower pd) = Injection.rate_only rate subject text ->
  Injection.fallbackCalculation pd
  = {| Injection.isSubjectToTariff := subject;
       Injection.tariffRate := rate;
       Injection.preTariffPrice := fst (decompose (price pd) rate);
       Injection.tariffAmount := snd (decompose (price pd) rate);
       Injection.message := text;
       Injection.isFallback := true;
       Injection.isUsingFlatFee := false;
       Injection.flatFeeAmount := Fin 0;
       Injection.specialPriceLogic := false |}.
Proof.
  intro H. unfold Injection.fallbackCalculation. rewrite H.
  cbn -[decompose]. now destruct (decompose (price pd) rate).
Qed.

Lemma content_result (pd : ProductData) (rate : num) (subject : bool)
    (text : msg) :
  Content.resolve (Str.toLowerCase (countryOfOrigin pd)) (price pd)
    (category_lower pd) = (rate, subject, text) ->
  Content.fallbackCalculation pd
  = {| Content.isSubjectToTariff := subject;
       Content.tariffRate := rate;
       Content.preTariffPrice := fst (decompose (price pd) rate);
       Content.tariffAmount := snd (decompose (price pd) rate);
       Content.message := text;
       Content.isFallback := true |}.
Proof.
  intro H. unfold Content.fallbackCalculation. rewrite H.
  now destruct (decompose (price pd) rate).
Qed.

Lemma injection_china_non_postal (pd : ProductData) :
  isChina (Str.toLowerCase (countryOfOrigin pd)) = true ->
  isPostalShipment (price pd) (category_lower pd) = false ->
  Injection.fallbackCalculation pd
  = {| Injection.isSubjectToTariff := true;
       Injection.tariffRate := Fin 1.25;
       Injection.preTariffPrice := fst (decompose (price pd) (Fin 1.25));
       Injection.tariffAmount := snd (decompose (price pd) (Fin 1.25));
       Injection.message :=
         [Lit "This product from China is subject to a total 125% tariff rate under the May 2025 trade policy (de minimis exemption removed)"];
       Injection.isFallback := true;
       Injection.isUsingFlatFee := false;
       Injection.flatFeeAmount := Fin 0;
       Injection.specialPriceLogic := false |}.
Proof.
  intros Hc Hp. unfold Injection.fallbackCalculation, Injection.resolve.
  rewrite Hc, Hp.
  set (l := Injection.china (price pd) false).
  pose proof (china_non_postal_inline (price pd)) as Hl. fold l in Hl.
  change (Injection.l_isUsingFlatFee l) with false.
  change (Injection.l_tariffRate l) with (Fin 1.25).
  cbn [negb andb].
  destruct (Num.eqb (Injection.l_tariffAmount l) (Fin 0)).
  - now destruct (decompose (price pd) (Fin 1.25)).
  - rewrite <- Hl. reflexivity.
Qed.

Lemma content_china_non_postal (country category : string) (pr : num) :
  isChina country = true ->
  isPostalShipment pr category = false ->
  Content.resolve country pr category
  = (Fin 1.25, true,
     [Lit "This product from China is subject to a total 125% tariff rate under the May 2025 trade policy (de minimis exemption removed)"]).
Proof. intros Hc Hp. unfold Content.resolve. now rewrite Hc, Hp. Qed.

(** Outside China the two cascades take the same branch, except for the
    low-price guess of [content.js] on an unknown origin. *)
Lemma resolves_agree (country category : string) (pr : num) :
  isChina country = false ->
  String.eqb country "unknown" && Num.ltb pr (Fin 50)
    && isLikelyChinaCategory category = false ->
  Injection.resolve country pr category
  = let '(rate, subject, text) := Content.resolve country pr category in
    Injection.rate_only rate subject text.
Proof.
  intros Hc Hu. unfold Injection.resolve, Content.resolve. rewrite Hc.
  split_cascade; try reflexivity.
  simpl in Hu. congruence.
Qed.

Lemma scripts_agree (pd : ProductData)
    (Hpostal :
       isChina (Str.toLowerCase (countryOfOrigin pd))
       && isPostalShipment (price pd) (category_lower pd) = false)
    (Hguess :
       String.eqb (Str.toLowerCase (countryOfOrigin pd)) "unknown"
       && Num.ltb (price pd) (Fin 50)
       && isLikelyChinaCategory (category_lower pd) = false) :
  same_answer (Content.fallbackCalculation pd) (Injection.fallbackCalculation pd)
  /\ Injection.isUsingFlatFee (Injection.fallbackCalculation pd) = false
  /\ Injection.specialPriceLogic (Injection.fallbackCalculation pd) = false.
Proof.
  destruct (isChina (Str.toLowerCase (countryOfOrigin pd))) eqn:Hc.
  - simpl in Hpostal.
    rewrite (injection_china_non_postal pd Hc Hpostal).
    rewrite (content_result pd _ _ _
               (content_china_non_postal _ _ _ Hc Hpostal)).
    repeat split.
  - pose proof (resolves_agree _ _ _ Hc Hguess) as H.
    destruct (Content.resolve _ _ _) as [[rate subject] text] eqn:E.
    rewrite (injection_rate_only pd _ _ _ H), (content_result pd _ _ _ E).
    repeat split.
Qed.

(** X1. Whenever the product is not a China-origin postal shipment and
    not an unknown origin priced below 50 in a category containing
    "electronics", "home", "light" or "tool", the two page scripts return
    the same flag, rate, pre-tariff price, tariff amount and message, and
    [content-injection.js] uses neither the flat fee nor the
    approximation. *)
Theorem page_scripts_agree (pd : ProductData)
    (Hpostal :
       isChina (Str.toLowerCase (countryOfOrigin pd))
       && isPostalShipment (price pd) (category_lower pd) = false)
    (Hguess :
       String.eqb (Str.toLowerCase (countryOfOrigin pd)) "unknown"
       && Num.ltb (price pd) (Fin 50)
       && isLikelyChinaCategory (category_lower pd) = false) :
  same_answer (Content.fallbackCalculation pd) (Injection.fallbackCalculation pd)
  /\ Injection.isUsingFlatFee (Injection.fallbackCalculation pd) = false
  /\ Injection.specialPriceLogic (Injection.fallbackCalculation pd) = false.
Proof. exact (scripts_agree pd Hpostal Hguess). Qed.

Lemma page_scripts_agree_witness :
  same_answer
    (Content.fallbackCalculation (mkProduct "Vietnam" (Fin 40) (Some "Shoes")))
    (Injection.fallbackCalculation (mkProduct "Vietnam" (Fin 40) (Some "Shoes")))
  /\ same_answer
    (Content.fallbackCalculation (mkProduct "China" (Fin 250) (Some "Toys")))
    (Injection.fallbackCalculation (mkProduct "China" (Fin 250) (Some "Toys"))).
Proof.
  split.
  - exact (proj1 (page_scripts_agree
                    (mkProduct "Vietnam" (Fin 40) (Some "Shoes"))
                    eq_refl eq_refl)).
  - exact (proj1 (page_scripts_agree
                    (mkProduct "China" (Fin 250) (Some "Toys"))
                    eq_refl eq_refl)).
Defined.

(** ** The parts of the price *)

Lemma decompose_partition (p : Q) (rate : num) :
  0 <= p -> nonneg_rate rate ->
  exists pre amt,
    decompose (Fin p) rate = (Fin pre, Fin amt)
    /\ 0 <= pre /\ 0 <= amt /\ pre + amt == p.
Proof.
  intros Hp Hr. destruct rate as [q| | |]; simpl in Hr; try contradiction.
  - exists (p / (1 + q)), (p - p / (1 + q)).
    rewrite decompose_finite by assumption.
    assert (Hpre : 0 <= p / (1 + q))
      by (apply Qle_shift_div_l; lra).
    assert (Hle : p / (1 + q) <= p)
      by (apply Qle_shift_div_r; [lra | nra]).
    repeat split; [assumption | lra | ring].
  - exists 0, (p - 0). repeat split; [lra | lra | ring].
Qed.

Lemma flat_fee_rate_nonneg (p : Q) :
  0 <= p -> nonneg_rate (Num.div (Fin 100) (Fin p)).
Proof.
  intro Hp. unfold Num.div.
  destruct (Qeq_bool p 0) eqn:E; [exact I|].
  simpl. apply Qle_shift_div_l; [|lra].
  assert (~ p == 0) by (intro H; apply Qeq_bool_iff in H; congruence).
  lra.
Qed.

Lemma content_rate_nonneg (country category : string) (p : Q) :
  0 <= p ->
  nonneg_rate (fst (fst (Content.resolve country (Fin p) category))).
Proof.
  intro Hp. unfold Content.resolve.
  split_cascade; cbn [fst nonneg_rate]; try lra.
  now apply flat_fee_rate_nonneg.
Qed.

Lemma injection_non_china (country category : string) (pr : num) :
  isChina country = false ->
  exists rate subject text,
    Injection.resolve country pr category
    = Injection.rate_only rate subject text
    /\ nonneg_rate rate.
Proof.
  intro Hc. unfold Injection.resolve. rewrite Hc.
  split_cascade;
    (eexists; eexists; eexists; split; [reflexivity | simpl; lra]).
Qed.

Lemma partition_of_price (pd : ProductData) (p : Q)
    (Hprice : price pd = Fin p) (Hp : 0 <= p) :
  (exists pre amt,
      Content.preTariffPrice (Content.fallbackCalculation pd) = Fin pre
      /\ Content.tariffAmount (Content.fallbackCalculation pd) = Fin amt
      /\ 0 <= pre /\ 0 <= amt /\ pre + amt == p)
  /\ (exists pre amt,
         Injection.preTariffPrice (Injection.fallbackCalculation pd) = Fin pre
         /\ Injection.tariffAmount (Injection.fallbackCalculation pd) = Fin amt
         /\ 0 <= pre /\ 0 <= amt /\ pre + amt == p).
Proof.
  split.
  - destruct (Content.resolve (Str.toLowerCase (countryOfOrigin pd))
                (price pd) (category_lower pd)) as [[rate sub] text] eqn:E.
    rewrite (content_result pd _ _ _ E).
    pose proof (content_rate_nonneg (Str.toLowerCase (countryOfOrigin pd))
                  (category_lower pd) p Hp) as Hr.
    rewrite <- Hprice, E in Hr. simpl in Hr.
    rewrite Hprice.
    destruct (decompose_partition p rate Hp Hr)
      as (pre & amt & Hd & H1 & H2 & H3).
    exists pre, amt. cbn [Content.preTariffPrice Content.tariffAmount].
    rewrite Hd. repeat split; assumption.
  - destruct (isChina (Str.toLowerCase (countryOfOrigin pd))) eqn:Hc.
    + destruct (isPostalShipment (price pd) (category_lower pd)) eqn:Hpost.
      * rewrite Hprice in Hpost.
        pose proof (postal_price_below_100 p _ Hpost) as Hlt.
        exists (p - p * 0.7), (p * 0.7).
        unfold Injection.fallbackCalculation, Injection.resolve.
        rewrite Hc, Hprice, Hpost, (injection_china_postal p Hlt).
        repeat split; [lra | lra | ring].
      * rewrite (injection_china_non_postal pd Hc Hpost), Hprice.
        assert (Hr : nonneg_rate (Fin 1.25)) by (simpl; lra).
        destruct (decompose_partition p _ Hp Hr)
          as (pre & amt & Hd & H1 & H2 & H3).
        exists pre, amt.
        cbn [Injection.preTariffPrice Injection.tariffAmount].
        rewrite Hd. repeat split; assumption.
    + destruct (injection_non_china _ (category_lower pd) (price pd) Hc)
        as (rate & sub & text & E & Hr).
      rewrite (injection_rate_only pd _ _ _ E), Hprice.
      destruct (decompose_partition p rate Hp Hr)
        as (pre & amt & Hd & H1 & H2 & H3).
      exists pre, amt.
      cbn [Injection.preTariffPrice Injection.tariffAmount].
      rewrite Hd. repeat split; assumption.
Qed.

(** X2. For a finite observed price [p >= 0] both page scripts return a
    finite, non-negative pre-tariff price and a finite, non-negative
    tariff amount whose sum is [p], whatever the country and category. *)
Theorem price_is_partitioned (pd : ProductData) (p : Q)
    (Hprice : price pd = Fin p) (Hp : 0 <= p) :
  (exists pre amt,
      Content.preTariffPrice (Content.fallbackCalculation pd) = Fin pre
      /\ Content.tariffAmount (Content.fallbackCalculation pd) = Fin amt
      /\ 0 <= pre /\ 0 <= amt /\ pre + amt == p)
  /\ (exists pre amt,
         Injection.preTariffPrice (Injection.fallbackCalculation pd) = Fin pre
         /\ Injection.tariffAmount (Injection.fallbackCalculation pd) = Fin amt
         /\ 0 <= pre /\ 0 <= amt /\ pre + amt == p).
Proof. exact (partition_of_price pd p Hprice Hp). Qed.

Lemma price_is_partitioned_witness :
  exists pre amt,
    Content.preTariffPrice
      (Content.fallbackCalculation (mkProduct "China" (Fin 0) (Some "Toys")))
    = Fin pre
    /\ Content.tariffAmount
         (Content.fallbackCalculation (mkProduct "China" (Fin 0) (Some "Toys")))
       = Fin amt
    /\ pre + amt == 0.
Proof.
  assert (H0 : 0 <= 0) by (unfold Qle; simpl; lia).
  destruct (price_is_partitioned (mkProduct "China" (Fin 0) (Some "Toys")) 0
              eq_refl H0) as [(pre & amt & H1 & H2 & _ & _ & H3) _].
  exists pre, amt. exact (conj H1 (conj H2 H3)).
Defined.

(** ** The exemption *)

Lemma content_subject_flag (country category : string) (pr : num) :
  snd (fst (Content.resolve country pr category))
  = negb (usmca_food country category).
Proof.
  unfold Content.resolve, usmca_food.
  destruct (isChina country); [now split_cascade|].
  destruct (Str.includes "mexico" country);
    [now destruct (isFoodCategory category)|].
  destruct (Str.includes "canada" country);
    [destruct (isFoodCategory category); now split_cascade|].
  cbn [orb andb negb]. now split_cascade.
Qed.

Lemma content_exempt (country category : string) (pr : num) :
  usmca_food country category = true ->
  Content.resolve country pr category
  = (Fin 0, false,
     [Lit "This product appears to qualify for USMCA exemption (0% tariff)"]).
Proof.
  unfold usmca_food, Content.resolve. intro H.
  apply andb_prop in H as [H Hf]. apply andb_prop in H as [Hc Hm].
  apply negb_true_iff in Hc. rewrite Hc, Hf.
  destruct (Str.includes "mexico" country); [reflexivity|].
  simpl in Hm. now rewrite Hm.
Qed.

Lemma usmca_food_guards (country category : string) (pr : num) :
  usmca_food country category = true ->
  isChina country && isPostalShipment pr category = false
  /\ String.eqb country "unknown" && Num.ltb pr (Fin 50)
     && isLikelyChinaCategory category = false.
Proof.
  unfold usmca_food. intro H.
  apply andb_prop in H as [H _]. apply andb_prop in H as [Hc Hm].
  apply negb_true_iff in Hc. rewrite Hc. split; [reflexivity|].
  destruct (String.eqb_spec country "unknown") as [-> | _]; [|reflexivity].
  discriminate Hm.
Qed.

(** X3. A product is reported as not subject to a tariff exactly when its
    country contains "mexico" or "canada" (and neither "china" nor
    "hong kong") and its category contains "food", "produce", "vegetable"
    or "fruit"; the two page scripts always agree on the flag; and an
    exempt product has rate 0, tariff amount 0 and a pre-tariff price
    equal to a finite observed price. *)
Theorem exempt_iff_usmca_food (pd : ProductData) :
  let country := Str.toLowerCase (countryOfOrigin pd) in
  let r := Content.fallbackCalculation pd in
  let r' := Injection.fallbackCalculation pd in
  (Content.isSubjectToTariff r = false
   <-> usmca_food country (category_lower pd) = true)
  /\ Injection.isSubjectToTariff r' = Content.isSubjectToTariff r
  /\ (Content.isSubjectToTariff r = false ->
      Content.tariffRate r = Fin 0
      /\ Injection.tariffRate r' = Fin 0
      /\ forall p, price pd = Fin p ->
           Content.tariffAmount r =n= Fin 0
           /\ Content.preTariffPrice r =n= Fin p
           /\ Injection.tariffAmount r' =n= Fin 0
           /\ Injection.preTariffPrice r' =n= Fin p).
Proof.
  intros country r r'.
  assert (Hflag : Content.isSubjectToTariff r
                  = negb (usmca_food country (category_lower pd))).
  { subst r. destruct (Content.resolve country (price pd) (category_lower pd))
      as [[rate sub] text] eqn:E.
    rewrite (content_result pd _ _ _ E).
    pose proof (content_subject_flag country (category_lower pd) (price pd))
      as H. now rewrite E in H. }
  assert (Hflag' : Injection.isSubjectToTariff r'
                   = negb (usmca_food country (category_lower pd))).
  { subst r'. unfold Injection.fallbackCalculation. fold country.
    match goal with
    | |- context [let '(_, _) := ?c in _] => destruct c
    end.
    cbn [Injection.isSubjectToTariff].
    pose proof (content_subject_flag country (category_lower pd) (price pd))
      as H.
    unfold Injection.resolve, usmca_food.
    unfold Content.resolve, usmca_food in H.
    destruct (isChina country).
    - destruct (isPostalShipment (price pd) (category_lower pd));
        [unfold Injection.china; now split_cascade | reflexivity].
    - revert H. split_cascade; cbn; congruence. }
  split; [|split].
  - rewrite Hflag, negb_false_iff. reflexivity.
  - congruence.
  - intro Hex. rewrite Hflag, negb_false_iff in Hex.
    destruct (usmca_food_guards country (category_lower pd) (price pd) Hex)
      as [Hg1 Hg2].
    destruct (scripts_agree pd Hg1 Hg2)
      as ((_ & Hrate & Hpre & Hamt & _) & _ & _).
    fold r r' in Hrate, Hpre, Hamt.
    assert (Hr : r = {| Content.isSubjectToTariff := false;
                        Content.tariffRate := Fin 0;
                        Content.preTariffPrice :=
                          fst (decompose (price pd) (Fin 0));
                        Content.tariffAmount :=
                          snd (decompose (price pd) (Fin 0));
                        Content.message :=
                          [Lit "This product appears to qualify for USMCA exemption (0% tariff)"];
                        Content.isFallback := true |}).
    { subst r. apply content_result. now apply content_exempt. }
    split; [now rewrite Hr|]. split; [now rewrite Hrate, Hr|].
    intros p Hp. rewrite Hamt, Hpre, Hr, Hp.
    assert (H0 : 0 <= 0) by lra.
    rewrite (decompose_finite p 0 H0).
    cbn [Content.tariffAmount Content.preTariffPrice fst snd Num.same].
    repeat split; field.
Qed.

Lemma exempt_iff_usmca_food_witness :
  Content.isSubjectToTariff
    (Content.fallbackCalculation (mkProduct "Canada" (Fin 12) (Some "Fresh Fruit")))
  = false
  /\ Injection.tariffAmount
       (Injection.fallbackCalculation (mkProduct "Canada" (Fin 12) (Some "Fresh Fruit")))
     =n= Fin 0.
Proof.
  destruct (exempt_iff_usmca_food
              (mkProduct "Canada" (Fin 12) (Some "Fresh Fruit")))
    as ([_ Hif] & _ & Hzero).
  pose proof (Hif eq_refl) as Hflag.
  destruct (Hzero Hflag) as (_ & _ & Hamounts).
  destruct (Hamounts 12 eq_refl) as (_ & _ & Ha & _).
  exact (conj Hflag Ha).
Defined.

(** ** The price read off the page *)

Lemma digit_value_bounds (c : ascii) :
  Page.is_digit c = true -> (0 <= Z.of_N (Str.code c) - 48 <= 9)%Z.
Proof.
  unfold Page.is_digit. cbv zeta. intro H.
  apply andb_prop in H as [H1 H2].
  apply N.leb_le in H1, H2. lia.
Qed.

Lemma leading_digits_value_nonneg (s : string) :
  forall acc : Z,
    (0 <= acc)%Z ->
    (0 <= Page.digits_value acc (fst (Page.take_digits s)))%Z.
Proof.
  induction s as [|c s IH]; intros acc Hacc; simpl; [assumption|].
  destruct (Page.is_digit c) eqn:Ec; [|assumption].
  specialize (IH (10 * acc + (Z.of_N (Str.code c) - 48))%Z).
  destruct (Page.take_digits s) as [d rest]. simpl in *.
  apply IH. pose proof (digit_value_bounds c Ec). lia.
Qed.

Lemma leading_digits_value_bound (s : string) :
  forall acc : Z,
    (0 <= acc)%Z ->
    (Page.digits_value acc (fst (Page.take_digits s))
     < (acc + 1) * 10 ^ Z.of_nat (String.length (fst (Page.take_digits s))))%Z.
Proof.
  induction s as [|c s IH]; intros acc Hacc; [simpl; lia|].
  cbn [Page.take_digits].
  destruct (Page.is_digit c) eqn:Ec; [|simpl; lia].
  specialize (IH (10 * acc + (Z.of_N (Str.code c) - 48))%Z).
  destruct (Page.take_digits s) as [d rest].
  cbn [fst String.length Page.digits_value] in *.
  pose proof (digit_value_bounds c Ec) as Hc.
  assert (IH' := IH ltac:(lia)).
  rewrite Nat2Z.inj_succ, Z.pow_succ_r by lia.
  assert (0 < 10 ^ Z.of_nat (String.length d))%Z
    by (apply Z.pow_pos_nonneg; lia).
  nia.
Qed.

Lemma round_half_even_bounds (q : Q) :
  inject_Z (Page.round_half_even q) - (1 # 2) <= q
  /\ q <= inject_Z (Page.round_half_even q) + (1 # 2)
  /\ (Qfloor q <= Page.round_half_even q)%Z.
Proof.
  unfold Page.round_half_even.
  pose proof (Qfloor_le q) as Hlo. pose proof (Qlt_floor q) as Hhi.
  rewrite inject_Z_plus in Hhi. change (inject_Z 1) with 1 in Hhi.
  destruct (Qcompare_spec (q - inject_Z (Qfloor q)) (1 # 2)) as [E | E | E].
  - destruct (Z.even (Qfloor q)).
    + repeat split; [lra | lra | lia].
    + rewrite inject_Z_plus. change (inject_Z 1) with 1.
      repeat split; [lra | lra | lia].
  - repeat split; [lra | lra | lia].
  - rewrite inject_Z_plus. change (inject_Z 1) with 1.
    repeat split; [lra | lra | lia].
Qed.

Lemma round_half_even_nonneg (q : Q) :
  0 <= q -> (0 <= Page.round_half_even q)%Z.
Proof.
  intro Hq. destruct (round_half_even_bounds q) as (_ & _ & H).
  assert (0 <= Qfloor q)%Z.
  { change 0%Z with (Qfloor 0). now apply Qfloor_resp_le. }
  lia.
Qed.

(** [binade q] is not above the binary logarithm of [q]. *)
Lemma binade_le (q : Q) : 0 < q -> 2 ^ Page.binade q <= q.
Proof.
  intro Hq. unfold Page.binade.
  destruct q as [n d]. cbn [Qnum Qden].
  assert (Hn : (0 < n)%Z) by (unfold Qlt in Hq; simpl in Hq; lia).
  set (a := Z.log2 n). set (b := Z.log2 (Z.pos d)).
  destruct (Qle_bool (2 ^ (a - b)) (n # d)) eqn:E.
  - now apply Qle_bool_iff.
  - destruct (Z.log2_spec n Hn) as [Hna _].
    destruct (Z.log2_spec (Z.pos d) (Pos2Z.is_pos d)) as [_ Hdb].
    fold a in Hna. fold b in Hdb.
    assert (Ha : (0 <= a)%Z) by apply Z.log2_nonneg.
    assert (Hb : (0 <= b)%Z) by apply Z.log2_nonneg.
    assert (P : 2 ^ (a - b - 1) * 2 ^ (b + 1) == 2 ^ a).
    { rewrite <- Qpower_plus by discriminate. f_equiv. lia. }
    assert (Hpa : 2 ^ a == inject_Z (2 ^ a)).
    { now rewrite Zpower_Qpower. }
    assert (Hpb : 2 ^ (b + 1) == inject_Z (2 ^ (b + 1))).
    { rewrite Zpower_Qpower by lia. reflexivity. }
    assert (Hpos : 0 < 2 ^ (a - b - 1)) by (apply Qpower_0_lt; lra).
    assert (Hd : inject_Z (Z.pos d) <= 2 ^ (b + 1)).
    { rewrite Hpb, <- Zle_Qle. lia. }
    assert (Hnq : 2 ^ a <= inject_Z n).
    { rewrite Hpa, <- Zle_Qle. lia. }
    assert (Hq' : n # d == inject_Z n / inject_Z (Z.pos d)).
    { rewrite Qmake_Qdiv. reflexivity. }
    rewrite Hq'. apply Qle_shift_div_l.
    + change 0 with (inject_Z 0). rewrite <- Zlt_Qlt. lia.
    + nra.
Qed.

Lemma ulp_positive (e : Z) : 0 < 2 ^ e.
Proof. apply Qpower_0_lt. lra. Qed.

(** A Number value is [Infinity] or a finite value in [0, 2 ^ 1024). *)
Lemma number_value_range (q : Q) :
  Page.number_value q = PInf
  \/ exists v, Page.number_value q = Fin v /\ 0 <= v /\ v < 2 ^ 1024.
Proof.
  unfold Page.number_value.
  destruct (Qle_bool q 0) eqn:E0.
  - right. exists 0. split; [reflexivity|]. split; [lra | apply ulp_positive].
  - assert (Hq : 0 < q).
    { destruct (Qlt_le_dec 0 q) as [H | H]; [assumption|].
      apply Qle_bool_iff in H. congruence. }
    set (ulp := 2 ^ Z.max (Page.binade q - 52) (-1074)).
    assert (Hulp : 0 < ulp) by apply ulp_positive.
    cbv zeta.
    destruct (Qle_bool (2 ^ 1024)
                (inject_Z (Page.round_half_even (q / ulp)) * ulp))
      eqn:E; [now left|].
    right. eexists. split; [reflexivity|]. split.
    + assert (0 <= q / ulp) by (apply Qle_shift_div_l; lra).
      pose proof (round_half_even_nonneg _ H) as Hm.
      rewrite Zle_Qle in Hm. change (inject_Z 0) with 0 in Hm.
      apply Qmult_le_0_compat; lra.
    + destruct (Qlt_le_dec
                  (inject_Z (Page.round_half_even (q / ulp)) * ulp)
                  (2 ^ 1024)) as [H | H]; [assumption|].
      apply Qle_bool_iff in H. congruence.
Qed.

Lemma double_range_covers_308_digits :
  inject_Z (10 ^ 308) + 2 ^ 970 < 2 ^ 1024.
Proof. unfold Qlt. vm_compute. reflexivity. Qed.

(** Below [10 ^ 308] the Number value is finite. *)
Lemma number_value_finite (q : Q) :
  q < inject_Z (10 ^ 308) ->
  exists v, Page.number_value q = Fin v /\ 0 <= v /\ v < 2 ^ 1024.
Proof.
  intro Hlt.
  destruct (number_value_range q) as [Hinf | H]; [|exact H].
  exfalso. unfold Page.number_value in Hinf.
  destruct (Qle_bool q 0) eqn:E0; [discriminate|].
  assert (Hq : 0 < q).
  { destruct (Qlt_le_dec 0 q) as [H | H]; [assumption|].
    apply Qle_bool_iff in H. congruence. }
  cbv zeta in Hinf.
  set (ex := Z.max (Page.binade q - 52) (-1074)) in *.
  set (m := Page.round_half_even (q / 2 ^ ex)) in *.
  destruct (Qle_bool (2 ^ 1024) (inject_Z m * 2 ^ ex)) eqn:E; [|discriminate].
  apply Qle_bool_iff in E.
  pose proof double_range_covers_308_digits as Hbig.
  assert (Hbin : (Page.binade q < 1024)%Z).
  { apply (Qpower_lt_compat_l_inv 2); [|lra].
    apply Qle_lt_trans with q; [now apply binade_le|].
    pose proof (ulp_positive 970). lra. }
  assert (Hex : (ex <= 971)%Z) by (subst ex; lia).
  assert (Hulp : 2 ^ ex <= 2 ^ 971) by (apply Qpower_le_compat_l; [lia | lra]).
  assert (Hpos : 0 < 2 ^ ex) by apply ulp_positive.
  assert (H971 : 2 ^ 971 == 2 * 2 ^ 970).
  { change 971%Z with (1 + 970)%Z. rewrite Qpower_plus by discriminate.
    reflexivity. }
  destruct (round_half_even_bounds (q / 2 ^ ex)) as (Hlo & _ & _).
  fold m in Hlo.
  assert (Hmul : (inject_Z m - (1 # 2)) * 2 ^ ex <= q).
  { assert (Hq' : q / 2 ^ ex * 2 ^ ex == q) by (field; lra).
    rewrite <- Hq'. apply Qmult_le_compat_r; lra. }
  set (u := 2 ^ ex) in *. set (big := 2 ^ 1024) in *.
  set (t := 2 ^ 970) in *. set (t' := 2 ^ 971) in *.
  set (d := inject_Z (10 ^ 308)) in *.
  nra.
Qed.

(** With at most 308 digits before the dot the decimal is below
    [10 ^ 308]. *)
Lemma decimal_value_bound (s r : string) :
  (String.length (fst (Page.take_digits s)) <= 308)%nat ->
  Page.decimal_value (fst (Page.take_digits s)) (fst (Page.take_digits r))
  < inject_Z (10 ^ 308).
Proof.
  intro Hlen. unfold Page.decimal_value.
  pose proof (leading_digits_value_bound s 0 (Z.le_refl 0)) as Hw.
  pose proof (leading_digits_value_bound r 0 (Z.le_refl 0)) as Hf.
  pose proof (leading_digits_value_nonneg r 0 (Z.le_refl 0)) as Hf0.
  set (whole := fst (Page.take_digits s)) in *.
  set (frac := fst (Page.take_digits r)) in *.
  assert (Hpow : (10 ^ Z.of_nat (String.length whole) <= 10 ^ 308)%Z).
  { apply Z.pow_le_mono_r; lia. }
  assert (Hwq : inject_Z (Page.digits_value 0 whole) + 1
                <= inject_Z (10 ^ 308)).
  { change 1 with (inject_Z 1). rewrite <- inject_Z_plus, <- Zle_Qle. lia. }
  assert (Hden : 0 < inject_Z (10 ^ Z.of_nat (String.length frac))).
  { change 0 with (inject_Z 0). rewrite <- Zlt_Qlt.
    apply Z.pow_pos_nonneg; lia. }
  assert (Hfq : inject_Z (Page.digits_value 0 frac)
                / inject_Z (10 ^ Z.of_nat (String.length frac)) < 1).
  { apply Qlt_shift_div_r; [assumption|].
    rewrite Qmult_1_l, <- Zlt_Qlt. lia. }
  set (a := inject_Z (Page.digits_value 0 whole)) in *.
  set (b := inject_Z (Page.digits_value 0 frac)
            / inject_Z (10 ^ Z.of_nat (String.length frac))) in *.
  set (d := inject_Z (10 ^ 308)) in *.
  lra.
Qed.

Lemma parseFloat_range (s : string) :
  Page.parseFloat s = NaN
  \/ Page.parseFloat s = PInf
  \/ exists q, Page.parseFloat s = Fin q /\ 0 <= q /\ q < 2 ^ 1024.
Proof.
  unfold Page.parseFloat.
  destruct (Page.take_digits s) as [whole rest].
  assert (Hplain :
            (if Str.is_empty whole then NaN
             else Page.number_value (Page.decimal_value whole EmptyString))
            = NaN
            \/ (if Str.is_empty whole then NaN
                else Page.number_value (Page.decimal_value whole EmptyString))
               = PInf
            \/ exists q,
                (if Str.is_empty whole then NaN
                 else Page.number_value
                        (Page.decimal_value whole EmptyString)) = Fin q
                /\ 0 <= q /\ q < 2 ^ 1024).
  { destruct (Str.is_empty whole); [now left | right].
    apply number_value_range. }
  destruct rest as [|c r]; [exact Hplain|].
  destruct c as [[] [] [] [] [] [] [] []]; try exact Hplain.
  destruct (Page.take_digits r) as [frac rest'].
  destruct (Str.is_empty whole && Str.is_empty frac); [now left | right].
  apply number_value_range.
Qed.

Lemma parseFloat_finite (s : string) :
  (String.length (fst (Page.take_digits s)) <= 308)%nat ->
  Page.parseFloat s = NaN
  \/ exists q, Page.parseFloat s = Fin q /\ 0 <= q /\ q < 2 ^ 1024.
Proof.
  intro Hlen. unfold Page.parseFloat.
  pose proof (decimal_value_bound s EmptyString Hlen) as Hplain.
  assert (Hdot : forall r,
            Page.decimal_value (fst (Page.take_digits s))
              (fst (Page.take_digits r)) < inject_Z (10 ^ 308))
    by (intro r; now apply decimal_value_bound).
  destruct (Page.take_digits s) as [whole rest]. cbn [fst] in *.
  assert (Hp :
            (if Str.is_empty whole then NaN
             else Page.number_value (Page.decimal_value whole EmptyString))
            = NaN
            \/ exists q,
                (if Str.is_empty whole then NaN
                 else Page.number_value
                        (Page.decimal_value whole EmptyString)) = Fin q
                /\ 0 <= q /\ q < 2 ^ 1024).
  { destruct (Str.is_empty whole); [now left | right].
    now apply number_value_finite. }
  destruct rest as [|c r]; [exact Hp|].
  destruct c as [[] [] [] [] [] [] [] []]; try exact Hp.
  specialize (Hdot r).
  destruct (Page.take_digits r) as [frac rest']. cbn [fst] in Hdot.
  destruct (Str.is_empty whole && Str.is_empty frac); [now left | right].
  now apply number_value_finite.
Qed.

(** White space is neither a digit nor a dot, so trimming does not change
    what the replacement keeps. *)
Lemma space_is_dropped (c : ascii) :
  Str.is_space c = true -> Page.is_digit c || Ascii.eqb c "." = false.
Proof.
  destruct c as [[] [] [] [] [] [] [] []]; vm_compute; intro H;
    (discriminate H || reflexivity).
Qed.

Lemma keep_cons (c : ascii) (s : string) :
  Page.keep_digits_and_dots (String c s)
  = if Page.is_digit c || Ascii.eqb c "."
    then String c (Page.keep_digits_and_dots s)
    else Page.keep_digits_and_dots s.
Proof. reflexivity. Qed.

Lemma keep_trimStart (s : string) :
  Page.keep_digits_and_dots (Str.trimStart s) = Page.keep_digits_and_dots s.
Proof.
  induction s as [|c s IH]; [reflexivity|].
  cbn [Str.trimStart]. destruct (Str.is_space c) eqn:E; [|reflexivity].
  now rewrite keep_cons, (space_is_dropped c E).
Qed.

Lemma keep_trimEnd (s : string) :
  Page.keep_digits_and_dots (Str.trimEnd s) = Page.keep_digits_and_dots s.
Proof.
  induction s as [|c s IH]; [reflexivity|].
  cbn [Str.trimEnd]. destruct (Str.trimEnd s) as [|a r].
  - destruct (Str.is_space c) eqn:E.
    + now rewrite keep_cons, (space_is_dropped c E), <- IH.
    + now rewrite !keep_cons, <- IH.
  - now rewrite !(keep_cons c), IH.
Qed.

Lemma keep_trim (s : string) :
  Page.keep_digits_and_dots (Str.trim s) = Page.keep_digits_and_dots s.
Proof. unfold Str.trim. now rewrite keep_trimEnd, keep_trimStart. Qed.

Lemma extractedPrice_range (text : string) :
  Page.extractedPrice (Some text) = PInf
  \/ exists q, Page.extractedPrice (Some text) = Fin q
               /\ 0 <= q /\ q < 2 ^ 1024.
Proof.
  unfold Page.extractedPrice.
  destruct (parseFloat_range (Page.keep_digits_and_dots (Str.trim text)))
    as [-> | [-> | (q & -> & Hq)]].
  - right. exists 0. split; [reflexivity|].
    split; [lra | apply ulp_positive].
  - now left.
  - right. now exists q.
Qed.

Lemma extractedPrice_finite (text : string) :
  (String.length (leading_digits text) <= 308)%nat ->
  exists q, Page.extractedPrice (Some text) = Fin q
            /\ 0 <= q /\ q < 2 ^ 1024.
Proof.
  unfold leading_digits, Page.extractedPrice. rewrite <- (keep_trim text).
  intro Hlen.
  destruct (parseFloat_finite _ Hlen) as [-> | (q & -> & Hq)].
  - exists 0. split; [reflexivity|].
    split; [lra | apply ulp_positive].
  - now exists q.
Qed.

(** X4. The price that [extractProductData] reports is never [NaN] and
    never negative: it is 0 when the page has no price element, and
    otherwise a finite number in [0, 2 ^ 1024) or [Infinity].  It is finite
    whenever the price text has at most 308 digits before its first dot,
    and it depends on the text only through the digits and dots of the
    text, in their order. *)
Theorem extracted_price_nonneg (text : string) :
  Page.extractedPrice None = Fin 0
  /\ (Page.extractedPrice (Some text) = PInf
      \/ exists q, Page.extractedPrice (Some text) = Fin q
                   /\ 0 <= q /\ q < 2 ^ 1024)
  /\ ((String.length (leading_digits text) <= 308)%nat ->
      exists q, Page.extractedPrice (Some text) = Fin q
                /\ 0 <= q /\ q < 2 ^ 1024)
  /\ (forall text',
        Page.keep_digits_and_dots text' = Page.keep_digits_and_dots text ->
        Page.extractedPrice (Some text') = Page.extractedPrice (Some text)).
Proof.
  split; [reflexivity|].
  split; [apply extractedPrice_range|].
  split; [apply extractedPrice_finite|].
  intros text' H. unfold Page.extractedPrice.
  now rewrite (keep_trim text), (keep_trim text'), H.
Qed.

Lemma extracted_price_nonneg_witness :
  (exists q, Page.extractedPrice (Some "  $1,299.50 ") = Fin q
             /\ 0 <= q /\ q < 2 ^ 1024)
  /\ Page.extractedPrice (Some "USD 1299.50")
     = Page.extractedPrice (Some "  $1,299.50 ").
Proof.
  destruct (extracted_price_nonneg "  $1,299.50 ") as (_ & _ & Hfin & Hsame).
  split.
  - apply Hfin. vm_compute. lia.
  - exact (Hsame "USD 1299.50" eq_refl).
Defined.

(** A price text of a one and 309 zeros reads as [Infinity]. *)
Remark price_text_overflows :
  Page.extractedPrice
    (Some ("1" ++ String.concat "" (List.repeat "000" 103)))
  = PInf.
Proof. vm_compute. reflexivity. Qed.

Lemma trimStart_no_digit (s : string) :
  has_digit s = false -> has_digit (Str.trimStart s) = false.
Proof.
  induction s as [|c s IH]; simpl; [reflexivity|]. intro H.
  apply orb_false_elim in H as [Hc Hs].
  destruct (Str.is_space c); [auto | simpl; now rewrite Hc, Hs].
Qed.

Lemma trimEnd_no_digit (s : string) :
  has_digit s = false -> has_digit (Str.trimEnd s) = false.
Proof.
  induction s as [|c s IH]; simpl; [reflexivity|]. intro H.
  apply orb_false_elim in H as [Hc Hs]. specialize (IH Hs).
  destruct (Str.trimEnd s).
  - destruct (Str.is_space c); simpl; [reflexivity | now rewrite Hc].
  - cbn [has_digit] in *. now rewrite Hc, IH.
Qed.

Lemma only_dots_is_nan (s : string) :
  has_digit s = false -> Page.parseFloat (Page.keep_digits_and_dots s) = NaN.
Proof.
  intro H.
  assert (Hk : forall t, has_digit t = false ->
                 Page.take_digits (Page.keep_digits_and_dots t)
                 = (EmptyString, Page.keep_digits_and_dots t)).
  { induction t as [|c t IH]; simpl; [reflexivity|]. intro Ht.
    apply orb_false_elim in Ht as [Hc Ht]. rewrite Hc. simpl.
    destruct (Ascii.eqb c "."); [simpl; now rewrite Hc | now apply IH]. }
  unfold Page.parseFloat. rewrite (Hk s H).
  assert (Hshape : forall t, has_digit t = false ->
            Page.keep_digits_and_dots t = EmptyString
            \/ exists t', has_digit t' = false
                 /\ Page.keep_digits_and_dots t
                    = String "."%char (Page.keep_digits_and_dots t')).
  { induction t as [|c t IH]; simpl; [now left|]. intro Ht.
    apply orb_false_elim in Ht as [Hc Ht]. rewrite Hc. simpl.
    destruct (Ascii.eqb_spec c "."%char) as [-> | _]; [|now apply IH].
    right. now exists t. }
  destruct (Hshape s H) as [-> | (t' & Ht' & ->)]; [reflexivity|].
  now rewrite (Hk t' Ht').
Qed.

(** X5. A price text without any decimal digit yields the price 0. *)
Theorem price_without_digits_is_zero (text : string)
    (Hnone : has_digit text = false) :
  Page.extractedPrice (Some text) = Fin 0.
Proof.
  unfold Page.extractedPrice, Str.trim.
  rewrite only_dots_is_nan; [reflexivity|].
  now apply trimEnd_no_digit, trimStart_no_digit.
Qed.

Lemma price_without_digits_is_zero_witness :
  Page.extractedPrice (Some "Currently unavailable.") = Fin 0.
Proof.
  exact (price_without_digits_is_zero "Currently unavailable." eq_refl).
Defined.

(** At the price [Infinity] both page scripts report the pre-tariff price
    [Infinity] and the tariff amount [NaN]. *)
Lemma infinite_price_outcome (pd : ProductData) :
  price pd = PInf ->
  Content.preTariffPrice (Content.fallbackCalculation pd) = PInf
  /\ Content.tariffAmount (Content.fallbackCalculation pd) = NaN
  /\ Injection.preTariffPrice (Injection.fallbackCalculation pd) = PInf
  /\ Injection.tariffAmount (Injection.fallbackCalculation pd) = NaN.
Proof.
  intro Hp.
  unfold Content.fallbackCalculation, Content.resolve,
    Injection.fallbackCalculation, Injection.resolve, Injection.china.
  rewrite Hp.
  change (isPostalShipment PInf (category_lower pd)) with false.
  cbv iota.
  split_cascade; repeat split;
    first [ reflexivity
          | exfalso;
            match goal with
            | H : _ = _ |- _ => vm_compute in H; discriminate H
            end ].
Qed.

(** X6. Whatever the page shows as price, country and category, the
    extracted price is a finite number that is not negative, and then both
    page scripts split it into a non-negative pre-tariff price and a
    non-negative tariff amount that add up to it (the arithmetic after the
    parse is exact), or it is [Infinity], and then both scripts report the
    pre-tariff price [Infinity] and the tariff amount [NaN].  The first
    case is the one that holds when the page has no price element or its
    text has at most 308 digits before the first dot. *)
Theorem extracted_product_is_partitioned
    (priceText : option string) (countryOfOrigin category : string) :
  let pd := Page.extracted priceText countryOfOrigin category in
  ((exists p, price pd = Fin p /\ 0 <= p /\ partitioned pd p)
   \/ (price pd = PInf
       /\ Content.preTariffPrice (Content.fallbackCalculation pd) = PInf
       /\ Content.tariffAmount (Content.fallbackCalculation pd) = NaN
       /\ Injection.preTariffPrice (Injection.fallbackCalculation pd) = PInf
       /\ Injection.tariffAmount (Injection.fallbackCalculation pd) = NaN))
  /\ ((forall text, priceText = Some text ->
         (String.length (leading_digits text) <= 308)%nat) ->
      exists p, price pd = Fin p /\ 0 <= p /\ partitioned pd p).
Proof.
  intro pd.
  assert (Hfin : forall p, price pd = Fin p -> 0 <= p ->
                   exists p, price pd = Fin p /\ 0 <= p /\ partitioned pd p).
  { intros p Hp Hle. exists p. split; [exact Hp|]. split; [exact Hle|].
    exact (partition_of_price pd p Hp Hle). }
  assert (Hnone : Page.extractedPrice None = Fin 0) by reflexivity.
  split.
  - destruct priceText as [text|].
    + destruct (extractedPrice_range text) as [Hinf | (q & Hq & Hle & _)].
      * right. split; [exact Hinf|]. now apply infinite_price_outcome.
      * left. now apply (Hfin q).
    + left. apply (Hfin 0); [exact Hnone | lra].
  - intro Hshort. destruct priceText as [text|].
    + destruct (extractedPrice_finite text (Hshort text eq_refl))
        as (q & Hq & Hle & _).
      now apply (Hfin q).
    + apply (Hfin 0); [exact Hnone | lra].
Qed.

Lemma extracted_product_is_partitioned_witness :
  let pd := Page.extracted (Some "$24.99") "Vietnam" "Shoes" in
  exists p, price pd = Fin p /\ 0 <= p /\ partitioned pd p.
Proof.
  apply (proj2 (extracted_product_is_partitioned
                  (Some "$24.99") "Vietnam" "Shoes")).
  intros text H. injection H as <-. vm_compute. lia.
Defined.

(** A price text of a one and 309 zeros: the tariff amount is [NaN]. *)
Remark overflowing_price_has_no_tariff_amount :
  let pd := Page.extracted
              (Some ("1" ++ String.concat "" (List.repeat "000" 103)))
              "China" "Toys" in
  price pd = PInf
  /\ Content.tariffAmount (Content.fallbackCalculation pd) = NaN
  /\ Injection.tariffAmount (Injection.fallbackCalculation pd) = NaN.
Proof. vm_compute. repeat split. Qed.

(** ** Where the page scripts part ways *)

Lemma injection_postal_amount (pd : ProductData) (p : Q) :
  isChina (Str.toLowerCase (countryOfOrigin pd)) = true ->
  price pd = Fin p ->
  isPostalShipment (Fin p) (category_lower pd) = true ->
  Injection.tariffAmount (Injection.fallbackCalculation pd) = Fin (p * 0.7).
Proof.
  intros Hc Hp Hpost.
  pose proof (postal_price_below_100 p _ Hpost) as Hlt.
  unfold Injection.fallbackCalculation, Injection.resolve.
  now rewrite Hc, Hp, Hpost, (injection_china_postal p Hlt).
Qed.

Lemma content_postal_amount (pd : ProductData) (p : Q) :
  isChina (Str.toLowerCase (countryOfOrigin pd)) = true ->
  price pd = Fin p ->
  isPostalShipment (Fin p) (category_lower pd) = true ->
  0 < p ->
  Content.tariffAmount (Content.fallbackCalculation pd)
  = if Qltb 100 (p * 1.20) then Fin (p - p / (1 + 1.20))
    else Fin (p - p / (1 + 100 / p)).
Proof.
  intros Hc Hp Hpost Hpos.
  rewrite content_amount_resolved, content_rate_resolved, Hp.
  rewrite (content_china_postal _ _ p Hc Hpost).
  destruct (Qltb 100 (p * 1.20)).
  - apply percent_policy_amount.
  - now apply flat_policy_amount.
Qed.

(** X7. For a China-origin postal shipment with a price [p] of at least
    one cent the tariff amounts of the two page scripts are more than
    0.4% of the price apart outside of 42 < p < 44: up to 42
    [content.js] reports the larger amount, from 44 on
    [content-injection.js] does (finite arithmetic is exact in this
    model; the margin [p / 250] is far above the rounding of doubles). *)
Theorem scripts_disagree_on_china_postal (pd : ProductData) (p : Q)
    (Hchina : isChina (Str.toLowerCase (countryOfOrigin pd)) = true)
    (Hprice : price pd = Fin p)
    (Hpostal : isPostalShipment (Fin p) (category_lower pd) = true)
    (Hcent : 0.01 <= p) :
  exists a a',
    Content.tariffAmount (Content.fallbackCalculation pd) = Fin a
    /\ Injection.tariffAmount (Injection.fallbackCalculation pd) = Fin a'
    /\ (p <= 42 -> a' + p / 250 <= a)
    /\ (44 <= p -> a + p / 250 <= a').
Proof.
  assert (Hpos : 0 < p) by lra.
  rewrite (injection_postal_amount pd p Hchina Hprice Hpostal).
  rewrite (content_postal_amount pd p Hchina Hprice Hpostal Hpos).
  assert (E1 : p - p / (1 + 1.20) == p * (6 # 11)) by (field; lra).
  assert (E2 : p - p / (1 + 100 / p) == (100 * p) / (p + 100))
    by (field; split; lra).
  assert (E3 : (100 * p) / (p + 100) * (p + 100) == 100 * p)
    by (field; lra).
  assert (E4 : p / 250 == p * (1 # 250)) by (field; lra).
  destruct (Qltb 100 (p * 1.20)) eqn:E.
  - apply Qltb_true in E.
    exists (p - p / (1 + 1.20)), (p * 0.7).
    split; [reflexivity|]. split; [reflexivity|].
    rewrite E1, E4. split; intro H; lra.
  - exists (p - p / (1 + 100 / p)), (p * 0.7).
    split; [reflexivity|]. split; [reflexivity|].
    rewrite E2, E4. split; intro H.
    + apply Qle_shift_div_l; [lra | nra].
    + assert (K : 100 * p / (p + 100) <= p * 0.7 - p * (1 # 250)).
      { apply Qle_shift_div_r; [lra | nra]. }
      lra.
Qed.

Lemma scripts_disagree_on_china_postal_witness :
  let r := Content.fallbackCalculation (mkProduct "China" (Fin 80) (Some "Toys")) in
  let r' := Injection.fallbackCalculation (mkProduct "China" (Fin 80) (Some "Toys")) in
  exists a a',
    Content.tariffAmount r = Fin a /\ Injection.tariffAmount r' = Fin a'
    /\ a + 80 / 250 <= a'.
Proof.
  assert (Hcent : 0.01 <= 80) by (unfold Qle; simpl; lia).
  assert (H44 : 44 <= 80) by (unfold Qle; simpl; lia).
  destruct (scripts_disagree_on_china_postal
              (mkProduct "China" (Fin 80) (Some "Toys")) 80
              eq_refl eq_refl eq_refl Hcent)
    as (a & a' & Ha & Ha' & _ & Hhi).
  exists a, a'. split; [exact Ha|]. split; [exact Ha'|]. exact (Hhi H44).
Defined.



(** * Further properties of the connector *)

(** ** Normalised country names *)

Lemma normalize_returns (s : string) :
  exists v, Api.normalizeCountryName (VStr s) = Returns v.
Proof.
  unfold Api.normalizeCountryName.
  destruct (negb (truthy (VStr s))); eauto.
Qed.

Lemma countryMap_values_canonical (k v : string) :
  own_property Api.countryMap k = Some v ->
  Str.toLowerCase v = v /\ Str.trim v = v
  /\ own_property Api.countryMap v = None.
Proof.
  intro H. apply own_property_In in H.
  assert (All : Forall (fun v => Str.toLowerCase v = v /\ Str.trim v = v
                          /\ own_property Api.countryMap v = None)
                  (List.map snd Api.countryMap)).
  { repeat constructor. }
  rewrite Forall_forall in All. now apply All.
Qed.

Lemma normal_form_canonical (s : string) :
  let n := Str.trim (Str.toLowerCase s) in
  Str.toLowerCase n = n /\ Str.trim n = n.
Proof.
  intro n. subst n. split.
  - now rewrite <- trim_lower, toLowerCase_idem.
  - apply trim_idem.
Qed.

(** X9. Every string that [normalizeCountryName] returns is in lower
    case, carries no white space at either end and is not itself a key of
    the alias table; so it is never "uk", and the test [country === 'uk']
    of [fallbackTariffCheck] cannot succeed. *)
Theorem normalized_name_is_canonical (s v : string)
    (Hv : Api.normalizeCountryName (VStr s) = Returns (VStr v)) :
  Str.toLowerCase v = v
  /\ Str.trim v = v
  /\ own_property Api.countryMap v = None
  /\ Api.is_str (VStr v) "uk" = false.
Proof.
  assert (H : Str.toLowerCase v = v /\ Str.trim v = v
              /\ own_property Api.countryMap v = None).
  { destruct (string_dec s "") as [-> | Hs].
    - injection Hv as <-. repeat split.
    - rewrite (normalize_nonempty s Hs) in Hv.
      set (n := Str.trim (Str.toLowerCase s)) in *.
      unfold get_property in Hv.
      destruct (own_property Api.countryMap n) as [a|] eqn:Hown.
      + destruct (countryMap_values_fixed n a Hown) as [Ha _].
        simpl in Hv. rewrite Ha in Hv. simpl in Hv. injection Hv as <-.
        now apply (countryMap_values_canonical n).
      + destruct (object_prototype_property n) as [b|] eqn:Hproto.
        * destruct (inherited_not_string n b Hproto) as [Hb Hns].
          simpl in Hv. rewrite Hb in Hv. injection Hv as ->.
          now elim (Hns v).
        * simpl in Hv. injection Hv as <-.
          destruct (normal_form_canonical s) as [H1 H2].
          repeat split; assumption. }
  destruct H as (H1 & H2 & H3). repeat split; try assumption.
  simpl. destruct (String.eqb_spec v "uk") as [-> | _]; [|reflexivity].
  discriminate H3.
Qed.

Lemma normalized_name_is_canonical_witness :
  own_property Api.countryMap "united kingdom" = None
  /\ Str.trim "united kingdom" = "united kingdom".
Proof.
  destruct (normalized_name_is_canonical " UK " "united kingdom" eq_refl)
    as (_ & Htrim & Hown & _).
  exact (conj Hown Htrim).
Defined.

(** ** The connector's two rate tables *)

Lemma tables_agree (baseRate : num) (productData : Api.Enriched) :
  fst (Api.adjustTariffForCountry baseRate productData)
  = fst (Api.fallbackRate (Api.e_countryOfOrigin productData)).
Proof.
  unfold Api.adjustTariffForCountry, Api.fallbackRate.
  destruct (Api.e_countryOfOrigin productData) as [s| |];
    [|reflexivity|reflexivity].
  unfold Api.isEUCountry, Api.ftaCountries.
  cbn [Api.is_str existsb].
  repeat match goal with
         | |- context [String.eqb s ?k] =>
             destruct (String.eqb_spec s k) as [-> | ?]; [reflexivity|]
         end.
  reflexivity.
Qed.

(** X11. The simulated request and the fallback of the connector assign
    the same rate to every country value; only their messages differ.
    Neither the base rate nor the HTS code changes it. *)
Theorem connector_tables_agree (baseRate : num) (productData : Api.Enriched) :
  fst (Api.adjustTariffForCountry baseRate productData)
  = fst (Api.fallbackRate (Api.e_countryOfOrigin productData)).
Proof. apply tables_agree. Qed.

Lemma fallbackRate_range (country : jsval) :
  exists q, fst (Api.fallbackRate country) = Fin q
            /\ 0.10 <= q /\ q <= 0.54.
Proof.
  unfold Api.fallbackRate.
  split_cascade; (eexists; split; [reflexivity | split; lra]).
Qed.

(** X12. [fallbackTariffCheck] returns on every product record: it never
    throws, always reports the product as subject to a tariff, at a rate
    between 10% and 54%, and for a finite price [p >= 0] its pre-tariff
    price and tariff amount are non-negative and add up to [p]. *)
Theorem fallbackTariffCheck_always_answers (pd : ProductData) :
  exists r q,
    Api.fallbackTariffCheck pd = Returns r
    /\ Api.isSubjectToTariff r = true
    /\ Api.isFallback r = true
    /\ Api.tariffRate r = Fin q /\ 0.10 <= q /\ q <= 0.54
    /\ forall p, price pd = Fin p -> 0 <= p ->
         exists pre amt,
           Api.preTariffPrice r = Fin pre /\ Api.tariffAmount r = Fin amt
           /\ 0 <= pre /\ 0 <= amt /\ pre + amt == p.
Proof.
  destruct (normalize_returns (countryOfOrigin pd)) as [country Hn].
  unfold Api.fallbackTariffCheck. rewrite Hn.
  destruct (fallbackRate_range country) as (q & Hq & Hlo & Hhi).
  destruct (Api.fallbackRate country) as [rate text]. simpl in Hq. subst rate.
  destruct (decompose (price pd) (Fin q)) as [pre amt] eqn:Hd.
  eexists. exists q. split; [reflexivity|].
  cbn [Api.isSubjectToTariff Api.isFallback Api.tariffRate
       Api.preTariffPrice Api.tariffAmount].
  repeat split; try assumption.
  intros p Hp Hp0. rewrite Hp in Hd.
  assert (Hr : nonneg_rate (Fin q)) by (simpl; lra).
  destruct (decompose_partition p _ Hp0 Hr) as (pre' & amt' & Hd' & H).
  rewrite Hd in Hd'. injection Hd' as -> ->.
  exists pre', amt'. repeat split; apply H.
Qed.

(** ** Writing to and reading from the cache *)

Lemma get_after_write (c : Api.TariffCache) (t now : Z) (k k' : string)
    (td : Api.TariffData) :
  (now - t <= Api.CACHE_DURATION)%Z ->
  Api.get now k' (Api.cacheTariffData t k td c)
  = ((<[k := td]> (Api.data c)) !! k', Api.cacheTariffData t k td c).
Proof.
  intro H. unfold Api.get, Api.hasCachedTariffData.
  assert (E : Api.expired now (Api.cacheTariffData t k td c) = false).
  { unfold Api.expired. simpl. apply Z.ltb_ge. lia. }
  rewrite E. unfold Api.has_entry. simpl.
  destruct (<[k:=td]> (Api.data c) !! k'); [reflexivity|].
  now destruct (object_prototype_property k') as [v|]; [destruct (truthy v)|].
Qed.

(** X13. A record written under a key is read back under that key by any
    read made no more than 24 hours after the write, and the read leaves
    the cache as the write left it; [getCachedTariffData] then reports the
    stored rate and message and the amount [price * rate]. *)
Theorem cache_round_trip (c : Api.TariffCache) (t now : Z) (k : string)
    (td : Api.TariffData) (pr : num)
    (Hfresh : (now - t <= Api.CACHE_DURATION)%Z) :
  let c' := Api.cacheTariffData t k td c in
  Api.hasCachedTariffData now k c' = (true, c')
  /\ Api.get now k c' = (Some td, c')
  /\ Api.getCachedTariffData k pr c'
     = Some {| Api.c_isSubjectToTariff := Num.gtb (Api.rate td) (Fin 0);
               Api.c_tariffAmount := Num.mul pr (Api.rate td);
               Api.c_tariffRate := Api.rate td;
               Api.c_message := Api.td_message td |}.
Proof.
  intro c'. subst c'. split; [|split].
  - unfold Api.hasCachedTariffData.
    assert (E : Api.expired now (Api.cacheTariffData t k td c) = false).
    { unfold Api.expired. simpl. apply Z.ltb_ge. lia. }
    rewrite E. unfold Api.has_entry. simpl.
    now rewrite lookup_insert_eq.
  - rewrite (get_after_write c t now k k td Hfresh).
    now rewrite lookup_insert_eq.
  - unfold Api.getCachedTariffData. simpl. now rewrite lookup_insert_eq.
Qed.

Lemma cache_round_trip_witness :
  let td := Api.mkTariffData (Fin 0.46) [] "64" in
  Api.get 1700000000900 "vietnam-64"
    (Api.cacheTariffData 1700000000300 "vietnam-64" td Api.tariffCache0)
  = (Some td, Api.cacheTariffData 1700000000300 "vietnam-64" td Api.tariffCache0).
Proof.
  intro td.
  assert (H : (1700000000900 - 1700000000300 <= Api.CACHE_DURATION)%Z)
    by (unfold Api.CACHE_DURATION; lia).
  exact (proj1 (proj2 (cache_round_trip Api.tariffCache0 1700000000300
                         1700000000900 "vietnam-64" td (Fin 1) H))).
Defined.

(** X14. A write restarts the clock for the whole store: every record
    that was in the store when the write happened, however long ago it was
    written itself, is still read back by any read made no more than 24
    hours after the write. *)
Theorem write_keeps_older_records_alive (c : Api.TariffCache) (t now : Z)
    (k k' : string) (td td' : Api.TariffData)
    (Hfresh : (now - t <= Api.CACHE_DURATION)%Z)
    (Hother : k' <> k)
    (Hstored : Api.data c !! k' = Some td') :
  Api.get now k' (Api.cacheTariffData t k td c)
  = (Some td', Api.cacheTariffData t k td c).
Proof.
  rewrite (get_after_write c t now k k' td Hfresh).
  now rewrite lookup_insert_ne, Hstored by congruence.
Qed.

Lemma write_keeps_older_records_alive_witness :
  let old := Api.mkTariffData (Fin 0.54) [] "85" in
  let new := Api.mkTariffData (Fin 0.10) [] "95" in
  let c := Api.cacheTariffData 1700000000300 "china-85" old Api.tariffCache0 in
  fst (Api.get 1700160000000 "china-85"
         (Api.cacheTariffData 1700080000000 "japan-95" new c))
  = Some old
  /\ (1700160000000 - 1700000000300 > Api.CACHE_DURATION)%Z.
Proof.
  intros old new c. split.
  - assert (H : (1700160000000 - 1700080000000 <= Api.CACHE_DURATION)%Z)
      by (unfold Api.CACHE_DURATION; lia).
    assert (Hne : "china-85" <> "japan-95") by discriminate.
    assert (Hs : Api.data c !! "china-85" = Some old)
      by (vm_compute; reflexivity).
    now rewrite (write_keeps_older_records_alive c 1700080000000
                   1700160000000 "japan-95" "china-85" new old H Hne Hs).
  - unfold Api.CACHE_DURATION. lia.
Defined.

(** * Properties of classification and of the request pipeline *)

(** ** Base rates *)

Lemma own_entry_In {A : Type} (table : list (string * A)) (k : string) (v : A) :
  Hts.own_entry table k = Some v -> In (k, v) table.
Proof.
  induction table as [|[k' v'] rest IH]; simpl; [discriminate|].
  destruct (String.eqb_spec k k') as [-> | _];
    [intros [= ->]; now left | auto].
Qed.

Lemma getBaseTariffRate_returns (code : string) :
  exists q, Hts.getBaseTariffRate (VStr code) = Returns (Fin q).
Proof.
  unfold Hts.getBaseTariffRate.
  destruct (Hts.own_entry Hts.chapterRates _) as [r|]; [|eauto].
  destruct (Qeq_bool r 0); eauto.
Qed.

(** X16. [getBaseTariffRate] returns a rate between 2% and 20% for every
    code and never 0: a chapter that the table lists at 0.00 (48, 49 and
    09) gets the default 0.03, like a chapter that is not listed. *)
Theorem base_rate_is_never_zero (code : string) :
  exists q,
    Hts.getBaseTariffRate (VStr code) = Returns (Fin q)
    /\ 0.02 <= q /\ q <= 0.20
    /\ (forall r,
          Hts.own_entry Hts.chapterRates (String.substring 0 2 code) = Some r ->
          r == 0 -> q = 0.03)
    /\ (Hts.own_entry Hts.chapterRates (String.substring 0 2 code) = None ->
        q = 0.03).
Proof.
  unfold Hts.getBaseTariffRate.
  destruct (Hts.own_entry Hts.chapterRates (String.substring 0 2 code))
    as [r|] eqn:E.
  - apply own_entry_In in E.
    assert (All : Forall (fun kv : string * Q =>
                    0.02 <= (if Qeq_bool (snd kv) 0 then 0.03 else snd kv)
                    /\ (if Qeq_bool (snd kv) 0 then 0.03 else snd kv) <= 0.20)
                    Hts.chapterRates).
    { repeat constructor; simpl; lra. }
    rewrite Forall_forall in All. specialize (All _ E). simpl in All.
    exists (if Qeq_bool r 0 then 0.03 else r).
    split; [now destruct (Qeq_bool r 0)|].
    split; [apply All|]. split; [apply All|].
    split; [|discriminate].
    intros r' [= <-] Hz. now rewrite (proj2 (Qeq_bool_iff r 0) Hz).
  - exists 0.03. repeat split; try lra; discriminate.
Qed.

(** ** Categories *)

Lemma prefix_refl (k : string) : String.prefix k k = true.
Proof.
  induction k as [|c k IH]; simpl; [reflexivity|].
  destruct (ascii_dec c c); [exact IH | congruence].
Qed.

Lemma includes_refl (k : string) : Str.includes k k = true.
Proof.
  destruct k as [|c k]; [reflexivity|].
  cbn [Str.includes]. now rewrite prefix_refl.
Qed.

Lemma includes_empty_hay (k : string) :
  Str.is_empty k = false -> Str.includes k "" = false.
Proof. destruct k; [discriminate | reflexivity]. Qed.

Lemma prefix_includes (a n : string) :
  String.prefix a n = true -> Str.includes a n = true.
Proof. intro H. destruct n; cbn [Str.includes]; now rewrite H. Qed.

(** A string that occurs also has its tail occurring. *)
Lemma includes_tail (c : ascii) (a n : string) :
  Str.includes (String c a) n = true -> Str.includes a n = true.
Proof.
  induction n as [|d n IH]; [discriminate|].
  cbn [Str.includes].
  destruct (String.prefix (String c a) (String d n)) eqn:P.
  - intros _. simpl in P. destruct (ascii_dec c d) as [_ | _]; [|discriminate].
    destruct (String.prefix a (String d n)); [reflexivity|].
    now apply prefix_includes.
  - intro H. destruct (String.prefix a (String d n)); [reflexivity | auto].
Qed.

Lemma own_property_key_In (table : list (string * string)) (k v : string) :
  own_property table k = Some v -> In (k, v) table.
Proof.
  induction table as [|[k' v'] rest IH]; simpl; [discriminate|].
  destruct (String.eqb_spec k k') as [-> | _];
    [intros [= ->]; now left | auto].
Qed.

Lemma first_included_In (table : list (string * string)) (n v : string) :
  Hts.first_included table n = Some v ->
  exists k, In (k, v) table /\ Str.includes k n = true.
Proof.
  induction table as [|[k' v'] rest IH]; simpl; [discriminate|].
  destruct (Str.includes k' n) eqn:E.
  - intros [= <-]. exists k'. split; [now left | exact E].
  - intro H. destruct (IH H) as (k & Hin & Hk). exists k. auto.
Qed.

Lemma first_included_None (table : list (string * string)) (n : string) :
  Hts.first_included table n = None
  <-> forall k v, In (k, v) table -> Str.includes k n = false.
Proof.
  induction table as [|[k' v'] rest IH]; simpl.
  - split; [intros _ k v [] | reflexivity].
  - destruct (Str.includes k' n) eqn:E.
    + split; [discriminate|]. intro H.
      specialize (H k' v' (or_introl eq_refl)). congruence.
    + rewrite IH. split.
      * intros H k v [[= <- <-] | Hin]; [exact E | eauto].
      * intros H k v Hin. eauto.
Qed.

(** What the computation shows of every entry of [categoryMap]. *)
Lemma categoryMap_entries (k v : string) :
  In (k, v) Hts.categoryMap ->
  own_property Hts.categoryMap k = Some v
  /\ Str.is_empty k = false
  /\ Str.is_empty v = false
  /\ v <> "9999"
  /\ (v = "6109.10" -> k = "t-shirts").
Proof.
  intro H.
  assert (All : Forall (fun kv : string * string =>
                  own_property Hts.categoryMap (fst kv) = Some (snd kv)
                  /\ Str.is_empty (fst kv) = false
                  /\ Str.is_empty (snd kv) = false
                  /\ snd kv <> "9999"
                  /\ (snd kv = "6109.10" -> fst kv = "t-shirts"))
                  Hts.categoryMap).
  { repeat constructor; simpl; discriminate. }
  rewrite Forall_forall in All. exact (All _ H).
Qed.

Arguments Hts.first_included : simpl never.

Lemma category_nonempty_unfold (category : string) :
  category <> "" ->
  Hts.getCategoryHTSCode category
  = let n := Str.trim (Str.toLowerCase category) in
    match get_property Hts.categoryMap n with
    | Some v =>
        if truthy v then v
        else match Hts.first_included Hts.categoryMap n with
             | Some value => VStr value
             | None => VStr "9999"
             end
    | None =>
        match Hts.first_included Hts.categoryMap n with
        | Some value => VStr value
        | None => VStr "9999"
        end
    end.
Proof. destruct category; [congruence | reflexivity]. Qed.

(** X17. A category that, lower-cased and trimmed, is a key of the
    category table gets that key's code, whatever other keys it
    contains. *)
Theorem category_key_gets_its_code (category k v : string)
    (Hin : In (k, v) Hts.categoryMap)
    (Hnorm : Str.trim (Str.toLowerCase category) = k) :
  Hts.getCategoryHTSCode category = VStr v.
Proof.
  destruct (categoryMap_entries k v Hin) as (Hown & Hk & Hv & _).
  assert (Hne : category <> "").
  { intros ->. simpl in Hnorm. subst k. discriminate. }
  rewrite (category_nonempty_unfold category Hne). cbv zeta.
  rewrite Hnorm. unfold get_property. rewrite Hown. simpl. now rewrite Hv.
Qed.

Lemma category_key_gets_its_code_witness :
  Hts.getCategoryHTSCode "  T-Shirts " = VStr "6109.10".
Proof.
  apply (category_key_gets_its_code "  T-Shirts " "t-shirts" "6109.10");
    [|reflexivity].
  unfold Hts.categoryMap. simpl. tauto.
Defined.

(** X18. [getCategoryHTSCode] answers "9999" exactly when no key of the
    category table occurs in the lower-cased, trimmed category and that
    text is not the name of a property inherited from
    [Object.prototype]. *)
Theorem category_unclassified_iff (category : string) :
  let n := Str.trim (Str.toLowerCase category) in
  Hts.getCategoryHTSCode category = VStr "9999"
  <-> (forall k v, In (k, v) Hts.categoryMap -> Str.includes k n = false)
      /\ object_prototype_property n = None.
Proof.
  intro n. rewrite <- first_included_None.
  destruct (string_dec category "") as [-> | Hne].
  - split; [intros _; split; reflexivity | reflexivity].
  - rewrite (category_nonempty_unfold category Hne). cbv zeta. fold n.
    unfold get_property.
    destruct (own_property Hts.categoryMap n) as [v|] eqn:Hown.
    + apply own_property_key_In in Hown.
      destruct (categoryMap_entries n v Hown) as (_ & _ & Hv & H9 & _).
      simpl. rewrite Hv. simpl. split.
      * intros [= ->]. congruence.
      * intros [Hnone _]. rewrite first_included_None in Hnone.
        specialize (Hnone n v Hown). rewrite includes_refl in Hnone.
        discriminate.
    + destruct (object_prototype_property n) as [b|] eqn:Hproto.
      * destruct (inherited_not_string n b Hproto) as [Hb Hns].
        rewrite Hb. split; [intros ->; now elim (Hns "9999")|].
        intros [_ H]. discriminate.
      * destruct (Hts.first_included Hts.categoryMap n) as [value|] eqn:Hf.
        -- destruct (first_included_In _ _ _ Hf) as (k & Hin & _).
           destruct (categoryMap_entries k value Hin) as (_ & _ & _ & H9 & _).
           split; [intros [= ->]; congruence | intros [H _]; discriminate].
        -- split; [now split | reflexivity].
Qed.

Lemma shirts_come_first (n : string) :
  Hts.first_included Hts.categoryMap n <> Some "6109.10".
Proof.
  cbv [Hts.first_included Hts.categoryMap].
  repeat match goal with
         | |- context [if Str.includes ?k n then _ else _] =>
             destruct (Str.includes k n) eqn:?
         end;
    try discriminate.
  match goal with
  | H : Str.includes "t-shirts" n = true |- _ =>
      apply includes_tail, includes_tail in H
  end.
  congruence.
Qed.

(** X19. The code "6109.10" of the key "t-shirts" is returned only for a
    category that is exactly "t-shirts" once lower-cased and trimmed: in
    any longer category the key "shirts", which comes first in the table,
    is found before it. *)
Theorem tshirts_only_by_exact_match (category : string)
    (Hcode : Hts.getCategoryHTSCode category = VStr "6109.10") :
  Str.trim (Str.toLowerCase category) = "t-shirts".
Proof.
  destruct (string_dec category "") as [-> | Hne]; [discriminate Hcode|].
  rewrite (category_nonempty_unfold category Hne) in Hcode. cbv zeta in Hcode.
  set (n := Str.trim (Str.toLowerCase category)) in *.
  unfold get_property in Hcode.
  destruct (own_property Hts.categoryMap n) as [v|] eqn:Hown.
  - apply own_property_key_In in Hown.
    destruct (categoryMap_entries n v Hown) as (_ & _ & Hv & _ & Ht).
    simpl in Hcode. rewrite Hv in Hcode. simpl in Hcode.
    injection Hcode as ->. now apply Ht.
  - destruct (object_prototype_property n) as [b|] eqn:Hproto.
    + destruct (inherited_not_string n b Hproto) as [Hb Hns].
      rewrite Hb in Hcode. now elim (Hns "6109.10").
    + destruct (Hts.first_included Hts.categoryMap n) as [value|] eqn:Hf;
        [|discriminate Hcode].
      injection Hcode as ->. now elim (shirts_come_first n).
Qed.

Lemma tshirts_only_by_exact_match_witness :
  Str.trim (Str.toLowerCase "T-SHIRTS") = "t-shirts".
Proof.
  exact (tshirts_only_by_exact_match "T-SHIRTS" eq_refl).
Defined.

(** ** Enrichment *)

Lemma category_code_shape (category : string) :
  (exists s, Hts.getCategoryHTSCode category = VStr s
             /\ Str.is_empty s = false)
  \/ (category <> ""
      /\ object_prototype_property (Str.trim (Str.toLowerCase category))
         = Some (Hts.getCategoryHTSCode category)
      /\ forall s, Hts.getCategoryHTSCode category <> VStr s).
Proof.
  destruct (string_dec category "") as [-> | Hne];
    [left; now exists "9999"|].
  rewrite (category_nonempty_unfold category Hne). cbv zeta.
  set (n := Str.trim (Str.toLowerCase category)).
  assert (Hpartial :
            exists s, match Hts.first_included Hts.categoryMap n with
                      | Some value => VStr value
                      | None => VStr "9999"
                      end = VStr s /\ Str.is_empty s = false).
  { destruct (Hts.first_included Hts.categoryMap n) as [value|] eqn:Hf;
      [|now exists "9999"].
    destruct (first_included_In _ _ _ Hf) as (k & Hin & _).
    destruct (categoryMap_entries k value Hin) as (_ & _ & Hv & _).
    now exists value. }
  unfold get_property.
  destruct (own_property Hts.categoryMap n) as [v|] eqn:Hown.
  - apply own_property_key_In in Hown.
    destruct (categoryMap_entries n v Hown) as (_ & _ & Hv & _).
    left. exists v. simpl. now rewrite Hv.
  - destruct (object_prototype_property n) as [b|] eqn:Hproto;
      [|now left].
    destruct (inherited_not_string n b Hproto) as [Hb Hns].
    rewrite Hb. right. now repeat split.
Qed.

Lemma first_keyword_In (table : list (string * string)) (text v : string) :
  Hts.first_keyword table text = Some v -> exists k, In (k, v) table.
Proof.
  induction table as [|[k' v'] rest IH]; simpl; [discriminate|].
  destruct (Regex.test_word k' text).
  - intros [= <-]. exists k'. now left.
  - intro H. destruct (IH H) as [k Hin]. exists k. now right.
Qed.

Lemma keyword_code_nonempty (productData : Hts.Product) :
  Str.is_empty (Hts.getHTSCodeFromKeywords productData) = false.
Proof.
  unfold Hts.getHTSCodeFromKeywords.
  destruct (Hts.first_keyword Hts.keywordMap _) as [v|] eqn:E;
    [|reflexivity].
  destruct (first_keyword_In _ _ _ E) as [k Hin].
  assert (All : Forall (fun kv : string * string =>
                          Str.is_empty (snd kv) = false) Hts.keywordMap).
  { repeat constructor. }
  rewrite Forall_forall in All. exact (All _ Hin).
Qed.

(** The code [determineHTSCode] settles on: a non-empty string, or the
    inherited property that the category names. *)
Lemma determined_code_shape (productData : Hts.Product) :
  (exists s, Hts.determineHTSCode productData = VStr s
             /\ Str.is_empty s = false)
  \/ (Hts.p_category productData <> ""
      /\ object_prototype_property
           (Str.trim (Str.toLowerCase (Hts.p_category productData)))
         = Some (Hts.determineHTSCode productData)
      /\ forall s, Hts.determineHTSCode productData <> VStr s).
Proof.
  unfold Hts.determineHTSCode.
  destruct (category_code_shape (Hts.p_category productData))
    as [(s & Hs & Hne) | (Hc & Hproto & Hns)].
  - rewrite Hs. simpl.
    destruct (String.eqb s "9999"); simpl; left.
    + eexists. split; [reflexivity | apply keyword_code_nonempty].
    + now exists s.
  - destruct (Hts.getCategoryHTSCode (Hts.p_category productData)) as [s| |];
      [now elim (Hns s) | right; now repeat split ..].
Qed.

(** X21. [enrichProductData] never throws; it keeps the price, keeps an
    HTS code that came with the product, and otherwise settles on a code
    that is never empty, so that [constructCacheKey] never has to write
    "unknown" for the code. *)
Theorem enrichment_always_succeeds (productData : Hts.Product) :
  exists d,
    Hts.enrichProductData productData = Returns d
    /\ Hts.d_price d = Hts.p_price productData
    /\ truthy (Hts.d_htsCode d) = true
    /\ Str.is_empty (Api.e_htsCode (Hts.as_enriched d)) = false
    /\ (Hts.p_htsCode productData <> "" ->
        Hts.d_htsCode d = VStr (Hts.p_htsCode productData)).
Proof.
  destruct (normalize_returns (Hts.p_countryOfOrigin productData))
    as [country Hn].
  unfold Hts.enrichProductData. rewrite Hn.
  eexists. split; [reflexivity|]. split; [reflexivity|].
  cbn [Hts.d_htsCode Hts.as_enriched Api.e_htsCode].
  destruct (Hts.p_htsCode productData) as [|c code] eqn:Hgiven.
  - cbn [Str.is_empty]. split; [|split; [|congruence]].
    + destruct (determined_code_shape productData)
        as [(s & -> & Hs) | (_ & Hproto & _)].
      * simpl. now rewrite Hs.
      * now destruct (inherited_not_string _ _ Hproto).
    + destruct (determined_code_shape productData)
        as [(s & -> & Hs) | (_ & _ & Hns)]; [exact Hs|].
      destruct (Hts.determineHTSCode productData) as [s| |];
        [now elim (Hns s) | reflexivity ..].
  - repeat split.
Qed.

(** ** The simulated request *)

Lemma fetch_resolves (d : Hts.EnrichedData) (code : string) :
  Hts.d_htsCode d = VStr code ->
  exists baseTariff,
    Hts.getBaseTariffRate (VStr code) = Returns baseTariff
    /\ Hts.fetchTariffData d
       = Hts.Resolves
           {| Api.rate :=
                fst (Api.adjustTariffForCountry baseTariff (Hts.as_enriched d));
              Api.td_message :=
                snd (Api.adjustTariffForCountry baseTariff (Hts.as_enriched d));
              Api.td_htsCode := code |}.
Proof.
  intro Hc. unfold Hts.fetchTariffData. rewrite Hc.
  destruct (getBaseTariffRate_returns code) as (q & Hq).
  rewrite Hq. exists (Fin q). split; [reflexivity|].
  now destruct (Api.adjustTariffForCountry (Fin q) (Hts.as_enriched d)).
Qed.

Lemma fetch_spec (d : Hts.EnrichedData) :
  (forall td,
      Hts.fetchTariffData d = Hts.Resolves td ->
      Api.rate td = fst (Api.fallbackRate (Hts.d_countryOfOrigin d))
      /\ Num.gtb (Api.rate td) (Fin 0) = true
      /\ exists q, Api.rate td = Fin q /\ 0.10 <= q /\ q <= 0.54)
  /\ (Hts.fetchTariffData d = Hts.NeverSettles
      <-> forall code, Hts.d_htsCode d <> VStr code).
Proof.
  split.
  - intros td Hres.
    destruct (Hts.d_htsCode d) as [code| |] eqn:Hc;
      [|unfold Hts.fetchTariffData in Hres; rewrite Hc in Hres;
        discriminate Hres ..].
    destruct (fetch_resolves d code Hc) as (base & _ & Hf).
    rewrite Hf in Hres. injection Hres as <-.
    cbn [Api.rate]. rewrite tables_agree.
    change (Api.e_countryOfOrigin (Hts.as_enriched d))
      with (Hts.d_countryOfOrigin d).
    destruct (fallbackRate_range (Hts.d_countryOfOrigin d))
      as (q & Hq & Hlo & Hhi).
    rewrite Hq. split; [reflexivity|]. split; [|now exists q].
    apply Qltb_true. lra.
  - destruct (Hts.d_htsCode d) as [code| |] eqn:Hc.
    + destruct (fetch_resolves d code Hc) as (base & _ & Hf). rewrite Hf.
      split; [discriminate | intro H; now elim (H code)].
    + unfold Hts.fetchTariffData. rewrite Hc. split; [discriminate | reflexivity].
    + unfold Hts.fetchTariffData. rewrite Hc. split; [discriminate | reflexivity].
Qed.

(** X22. Whenever the simulated request resolves, its rate is the rate
    the connector's fallback table gives the normalised country: between
    10% and 54%, hence always "subject to tariff", and independent of the
    HTS code, the base rate, the attributes and the price.  It fails to
    resolve exactly when the HTS code is not a string. *)
Theorem simulated_rate_depends_on_country_only (d : Hts.EnrichedData) :
  (forall td,
      Hts.fetchTariffData d = Hts.Resolves td ->
      Api.rate td = fst (Api.fallbackRate (Hts.d_countryOfOrigin d))
      /\ Num.gtb (Api.rate td) (Fin 0) = true
      /\ exists q, Api.rate td = Fin q /\ 0.10 <= q /\ q <= 0.54)
  /\ (Hts.fetchTariffData d = Hts.NeverSettles
      <-> forall code, Hts.d_htsCode d <> VStr code).
Proof. apply fetch_spec. Qed.

Lemma simulated_rate_depends_on_country_only_witness :
  let d := {| Hts.d_countryOfOrigin := VStr "vietnam";
              Hts.d_htsCode := VStr "6404";
              Hts.d_price := Fin 59;
              Hts.d_attributes := Api.mkAttributes [] false false "" false |} in
  exists td, Hts.fetchTariffData d = Hts.Resolves td /\ Api.rate td = Fin 0.46.
Proof.
  intro d.
  destruct (Hts.fetchTariffData d) as [td|] eqn:E; [|discriminate E].
  exists td. split; [reflexivity|].
  exact (proj1 (proj1 (simulated_rate_depends_on_country_only d) td E)).
Defined.

(** ** [getTariffInfo] *)

(** A hit of [hasCachedTariffData] on a key of [constructCacheKey] is a
    record of the store. *)
Lemma hit_is_own (c : Api.TariffCache) (e : Api.Enriched) :
  Api.has_entry c (Api.constructCacheKey e) = true ->
  exists td, Api.data c !! Api.constructCacheKey e = Some td.
Proof.
  unfold Api.has_entry.
  destruct (Api.data c !! Api.constructCacheKey e) as [td|]; [eauto|].
  destruct (constructCacheKey_own_only e) as [_ ->]. discriminate.
Qed.

(** [getTariffInfo] once enrichment has returned. *)
Lemma getTariffInfo_enriched (now1 now2 : Z) (productData : Hts.Product)
    (c : Api.TariffCache) (d : Hts.EnrichedData) :
  Hts.enrichProductData productData = Returns d ->
  Hts.getTariffInfo now1 now2 productData c
  = let cacheKey := Api.constructCacheKey (Hts.as_enriched d) in
    let '(hit, c1) := Api.hasCachedTariffData now1 cacheKey c in
    if hit then
      match Api.getCachedTariffData cacheKey (Hts.d_price d) c1 with
      | Some info => (Hts.FromCache info, c1)
      | None => (Hts.FromInherited, c1)
      end
    else
      match Hts.fetchTariffData d with
      | Hts.NeverSettles => (Hts.Pending, c1)
      | Hts.Resolves tariffData =>
          (Hts.FromRequest
             {| Api.c_isSubjectToTariff :=
                  Num.gtb (Api.rate tariffData) (Fin 0);
                Api.c_tariffAmount :=
                  Num.mul (Hts.d_price d) (Api.rate tariffData);
                Api.c_tariffRate := Api.rate tariffData;
                Api.c_message := Api.td_message tariffData |}
             (Api.td_htsCode tariffData)
             (Hts.d_countryOfOrigin d),
           Api.cacheTariffData now2 cacheKey tariffData c1)
      end.
Proof. intro H. unfold Hts.getTariffInfo. now rewrite H. Qed.

Lemma enrich_returns (productData : Hts.Product) :
  exists d, Hts.enrichProductData productData = Returns d.
Proof.
  destruct (normalize_returns (Hts.p_countryOfOrigin productData))
    as [country Hn].
  unfold Hts.enrichProductData. rewrite Hn. eauto.
Qed.

(** X23. On a product record with string fields [getTariffInfo] answers
    from the simulated request or from the cache, or stays pending: it
    never reaches its [catch] branch, so [fallbackTariffCheck] is never
    used, and it never builds an answer from an inherited property.  It
    stays pending only when no HTS code came with the product and the
    lower-cased, trimmed category is the name of a property inherited
    from [Object.prototype]. *)
Theorem getTariffInfo_never_falls_back (now1 now2 : Z)
    (productData : Hts.Product) (c : Api.TariffCache) :
  let a := fst (Hts.getTariffInfo now1 now2 productData c) in
  (exists info htsCode country, a = Hts.FromRequest info htsCode country)
  \/ (exists info, a = Hts.FromCache info)
  \/ (a = Hts.Pending
      /\ Hts.p_htsCode productData = ""
      /\ exists v,
           object_prototype_property
             (Str.trim (Str.toLowerCase (Hts.p_category productData)))
           = Some v).
Proof.
  intro a. subst a.
  destruct (enrich_returns productData) as [d Hd].
  rewrite (getTariffInfo_enriched now1 now2 productData c d Hd). cbv zeta.
  set (key := Api.constructCacheKey (Hts.as_enriched d)).
  unfold Api.hasCachedTariffData.
  assert (Hmiss :
            forall c1 : Api.TariffCache,
              let a := fst (match Hts.fetchTariffData d with
                            | Hts.Resolves tariffData =>
                                (Hts.FromRequest
                                   {| Api.c_isSubjectToTariff :=
                                        Num.gtb (Api.rate tariffData) (Fin 0);
                                      Api.c_tariffAmount :=
                                        Num.mul (Hts.d_price d)
                                          (Api.rate tariffData);
                                      Api.c_tariffRate := Api.rate tariffData;
                                      Api.c_message :=
                                        Api.td_message tariffData |}
                                   (Api.td_htsCode tariffData)
                                   (Hts.d_countryOfOrigin d),
                                 Api.cacheTariffData now2 key tariffData c1)
                            | Hts.NeverSettles => (Hts.Pending, c1)
                            end) in
              (exists info htsCode country,
                  a = Hts.FromRequest info htsCode country)
              \/ (exists info, a = Hts.FromCache info)
              \/ (a = Hts.Pending
                  /\ Hts.p_htsCode productData = ""
                  /\ exists v,
                       object_prototype_property
                         (Str.trim (Str.toLowerCase
                                      (Hts.p_category productData)))
                       = Some v)).
  { intros c1. cbv zeta.
    destruct (Hts.fetchTariffData d) as [td|] eqn:Hf.
    - left. simpl. eauto.
    - right. right. split; [reflexivity|].
      pose proof (proj1 (proj2 (fetch_spec d)) Hf) as Hns. clear Hf. rename Hns into Hf.
      unfold Hts.enrichProductData in Hd.
      destruct (Api.normalizeCountryName _); [|discriminate Hd].
      injection Hd as <-. cbn [Hts.d_htsCode] in Hf.
      destruct (Hts.p_htsCode productData) as [|ch code];
        [|now elim (Hf (String ch code))].
      split; [reflexivity|]. cbn [Str.is_empty] in Hf.
      destruct (determined_code_shape productData)
        as [(s & Hs & _) | (_ & Hproto & _)]; [now elim (Hf s)|].
      eauto. }
  destruct (Api.expired now1 c); [apply Hmiss|].
  destruct (Api.has_entry c key) eqn:Hhit; [|apply Hmiss].
  destruct (hit_is_own c (Hts.as_enriched d) Hhit) as [td Htd].
  fold key in Htd. unfold Api.getCachedTariffData. rewrite Htd.
  right. left. simpl. eauto.
Qed.

Lemma has_after_write (c : Api.TariffCache) (t now : Z) (k : string)
    (td : Api.TariffData) :
  (now - t <= Api.CACHE_DURATION)%Z ->
  Api.hasCachedTariffData now k (Api.cacheTariffData t k td c)
  = (true, Api.cacheTariffData t k td c).
Proof.
  intro H. unfold Api.hasCachedTariffData.
  assert (E : Api.expired now (Api.cacheTariffData t k td c) = false).
  { unfold Api.expired. simpl. apply Z.ltb_ge. lia. }
  rewrite E. unfold Api.has_entry. simpl. now rewrite lookup_insert_eq.
Qed.

(** The answer of [getTariffInfo] came from the simulated request. *)
Lemma from_request_inv (now1 now2 : Z) (productData : Hts.Product)
    (c c' : Api.TariffCache) (d : Hts.EnrichedData)
    (info : Api.CachedResult) (htsCode : string) (country : jsval) :
  Hts.enrichProductData productData = Returns d ->
  Hts.getTariffInfo now1 now2 productData c
  = (Hts.FromRequest info htsCode country, c') ->
  exists td c1,
    Hts.fetchTariffData d = Hts.Resolves td
    /\ info = {| Api.c_isSubjectToTariff := Num.gtb (Api.rate td) (Fin 0);
                 Api.c_tariffAmount := Num.mul (Hts.d_price d) (Api.rate td);
                 Api.c_tariffRate := Api.rate td;
                 Api.c_message := Api.td_message td |}
    /\ c' = Api.cacheTariffData now2
              (Api.constructCacheKey (Hts.as_enriched d)) td c1.
Proof.
  intros Hd. rewrite (getTariffInfo_enriched now1 now2 productData c d Hd).
  cbv zeta.
  destruct (Api.hasCachedTariffData now1 _ c) as [hit c1].
  destruct hit.
  - destruct (Api.getCachedTariffData _ _ c1); discriminate.
  - destruct (Hts.fetchTariffData d) as [td|]; [|discriminate].
    intros [= <- _ _ <-]. now exists td, c1.
Qed.

(** X24. After [getTariffInfo] has answered a product from the simulated
    request, a second call for the same product whose cache check happens
    no more than 24 hours after the first call stored its response is
    answered from the cache, with the same flag, amount, rate and message,
    and leaves the cache unchanged. *)
Theorem second_call_is_served_from_cache
    (now1 now2 now3 now4 : Z) (productData : Hts.Product)
    (c c' : Api.TariffCache) (info : Api.CachedResult) (htsCode : string)
    (country : jsval)
    (Hfirst : Hts.getTariffInfo now1 now2 productData c
              = (Hts.FromRequest info htsCode country, c'))
    (Hsoon : (now3 - now2 <= Api.CACHE_DURATION)%Z) :
  Hts.getTariffInfo now3 now4 productData c' = (Hts.FromCache info, c').
Proof.
  destruct (enrich_returns productData) as [d Hd].
  destruct (from_request_inv _ _ _ _ _ _ _ _ _ Hd Hfirst)
    as (td & c1 & _ & -> & ->).
  rewrite (getTariffInfo_enriched now3 now4 productData _ d Hd). cbv zeta.
  rewrite (has_after_write c1 now2 now3 _ td Hsoon).
  unfold Api.getCachedTariffData. simpl. now rewrite lookup_insert_eq.
Qed.

Lemma second_call_is_served_from_cache_witness :
  let pd := Hts.mkProduct "Galaxy Smartphone" "" "CN" "Garden" (Fin 200) "" in
  exists info c',
    Hts.getTariffInfo 1700000000900 1700000001200 pd c' = (Hts.FromCache info, c')
    /\ Api.c_tariffRate info = Fin 0.54.
Proof.
  intro pd.
  destruct (Hts.getTariffInfo 1700000000000 1700000000300 pd Api.tariffCache0)
    as [a c'] eqn:E.
  destruct a as [info h country | | | | |];
    try (exfalso; vm_compute in E; discriminate E).
  exists info, c'. split.
  - apply (second_call_is_served_from_cache 1700000000000 1700000000300
             1700000000900 1700000001200 pd Api.tariffCache0 c' info h
             country E).
    unfold Api.CACHE_DURATION. lia.
  - vm_compute in E. now injection E as <- _ _ _.
Defined.

(** X25. For a finite price [p], when [getTariffInfo] answers from the
    simulated request and [fallbackTariffCheck] is run on the same
    product, both use the same rate [q], but the request path reports the
    tariff amount [p * q] while the fallback reports [p - p / (1 + q)];
    the first is [1 + q] times the second. *)
Theorem request_and_fallback_amounts (now1 now2 : Z)
    (productData : Hts.Product) (c c' : Api.TariffCache)
    (info : Api.CachedResult) (htsCode : string) (country : jsval)
    (p : Q) (r : Api.TariffResult)
    (Hprice : Hts.p_price productData = Fin p)
    (Hrequest : Hts.getTariffInfo now1 now2 productData c
                = (Hts.FromRequest info htsCode country, c'))
    (Hfallback : Api.fallbackTariffCheck
                   {| countryOfOrigin := Hts.p_countryOfOrigin productData;
                      price := Hts.p_price productData;
                      category := Some (Hts.p_category productData) |}
                 = Returns r) :
  exists q,
    Api.c_tariffRate info = Fin q
    /\ Api.tariffRate r = Fin q
    /\ Api.c_tariffAmount info = Fin (p * q)
    /\ Api.tariffAmount r = Fin (p - p / (1 + q))
    /\ p * q == (1 + q) * (p - p / (1 + q)).
Proof.
  destruct (enrich_returns productData) as [d Hd].
  destruct (from_request_inv _ _ _ _ _ _ _ _ _ Hd Hrequest)
    as (td & c1 & Hf & -> & _).
  destruct (proj1 (fetch_spec d) td Hf) as (Hrate & _ & q & Hq & Hlo & Hhi).
  unfold Hts.enrichProductData in Hd.
  unfold Api.fallbackTariffCheck in Hfallback. cbn [countryOfOrigin price] in Hfallback.
  destruct (Api.normalizeCountryName
              (VStr (Hts.p_countryOfOrigin productData))) as [norm|];
    [|discriminate Hd].
  injection Hd as <-. cbn [Hts.d_countryOfOrigin Hts.d_price] in *.
  rewrite Hq in Hrate.
  destruct (Api.fallbackRate norm) as [rate text]. simpl in Hrate. subst rate.
  assert (Hq0 : 0 <= q) by lra.
  rewrite Hprice, (decompose_finite p q Hq0) in Hfallback.
  injection Hfallback as <-.
  exists q. cbn [Api.c_tariffRate Api.c_tariffAmount Api.tariffRate
                 Api.tariffAmount].
  rewrite Hq, Hprice. repeat split. field. lra.
Qed.

Lemma request_and_fallback_amounts_witness :
  let pd := Hts.mkProduct "Galaxy Smartphone" "" "CN" "Garden" (Fin 200) "" in
  exists q info r,
    fst (Hts.getTariffInfo 1700000000000 1700000000300 pd Api.tariffCache0)
    = Hts.FromRequest info "8517.12" (VStr "china")
    /\ Api.c_tariffAmount info = Fin (200 * q)
    /\ Api.tariffAmount r = Fin (200 - 200 / (1 + q)).
Proof.
  intro pd.
  destruct (Hts.getTariffInfo 1700000000000 1700000000300 pd Api.tariffCache0)
    as [a c'] eqn:E.
  destruct a as [info h country | | | | |];
    try (exfalso; vm_compute in E; discriminate E).
  destruct (Api.fallbackTariffCheck
              {| countryOfOrigin := Hts.p_countryOfOrigin pd;
                 price := Hts.p_price pd;
                 category := Some (Hts.p_category pd) |}) as [r|] eqn:F;
    [|exfalso; vm_compute in F; discriminate F].
  destruct (request_and_fallback_amounts 1700000000000 1700000000300 pd
              Api.tariffCache0 c' info h country 200 r eq_refl E F)
    as (q & _ & _ & Ha & Hf & _).
  exists q, info, r. split; [|exact (conj Ha Hf)].
  vm_compute in E. now injection E as <- <- <- _.
Defined.

(** ** Attributes *)

Lemma search_here (alts : list string) (text : string) :
  Regex.matches_here alts text = true -> Regex.search alts text = true.
Proof. intro H. destruct text; cbn [Regex.search]; now rewrite H. Qed.

Lemma search_skip (alts : list string) (c : ascii) (text : string) :
  Regex.search alts text = true ->
  Regex.search alts (String c text) = true.
Proof. intro H. cbn [Regex.search]. rewrite H. apply orb_true_r. Qed.

(** If every match of [A] at a place yields a match of [B] somewhere from
    that place on, a text that [A] matches is matched by [B]. *)
Lemma search_transfer (A B : list string) :
  (forall t, Regex.matches_here A t = true -> Regex.search B t = true) ->
  forall text, Regex.search A text = true -> Regex.search B text = true.
Proof.
  intros H text. induction text as [|c text IH]; cbn [Regex.search].
  - rewrite orb_false_r. intro Hm. now apply (H EmptyString).
  - intro Hs. apply orb_prop in Hs as [Hm | Hr].
    + now apply (H (String c text)).
    + apply orb_true_iff. right. auto.
Qed.

Lemma search_cases (a : string) (A : list string) (text : string) :
  Regex.search (a :: A) text = true ->
  Regex.search [a] text = true \/ Regex.search A text = true.
Proof.
  induction text as [|c text IH]; cbn [Regex.search];
    unfold Regex.matches_here; cbn [existsb]; rewrite ?orb_false_r.
  - intro H. apply orb_prop in H as [H | H]; [left | right]; now rewrite H.
  - intro H. apply orb_prop in H as [H | H].
    + apply orb_prop in H as [H | H]; [left | right]; now rewrite H.
    + destruct (IH H) as [H' | H']; [left | right];
        rewrite H'; apply orb_true_r.
Qed.

Ltac take_char text H :=
  destruct text as [|? text]; [discriminate H|];
  cbn [Regex.consume] in H;
  match type of H with
  | context [Regex.ci_eqb ?p ?c] =>
      destruct (Regex.ci_eqb p c) eqn:?; [|discriminate H]
  end.

Ltac found_here :=
  apply search_here; unfold Regex.matches_here; cbn [existsb Regex.consume];
  repeat match goal with
         | E : Regex.ci_eqb _ _ = true |- _ => rewrite E; clear E
         end;
  cbn [orb]; rewrite ?orb_true_r; reflexivity.

(** "women", "woman" and "female" contain "men", "man" and "male". *)
Lemma feminine_words_match_masculine (t : string) :
  Regex.matches_here ["women"; "woman"; "female"] t = true ->
  Regex.search ["men"; "man"; "boy"; "male"] t = true.
Proof.
  unfold Regex.matches_here. cbn [existsb]. rewrite orb_false_r.
  intro H. apply orb_prop in H as [H | H]; [|apply orb_prop in H as [H | H]].
  - destruct (Regex.consume "women" t None) eqn:C; [clear H | discriminate H].
    do 5 take_char t C.
    do 2 apply search_skip. found_here.
  - destruct (Regex.consume "woman" t None) eqn:C; [clear H | discriminate H].
    do 5 take_char t C.
    do 2 apply search_skip. found_here.
  - destruct (Regex.consume "female" t None) eqn:C; [clear H | discriminate H].
    do 6 take_char t C.
    do 2 apply search_skip. found_here.
Qed.

Lemma feminine_implies_masculine (text : string) :
  Regex.test "women|woman|female" text = true ->
  Regex.test "men|man|boy|male" text = true.
Proof.
  apply (search_transfer ["women"; "woman"; "female"]
           ["men"; "man"; "boy"; "male"]).
  exact feminine_words_match_masculine.
Qed.

Lemma female_pattern_cases (text : string) :
  Regex.test "women|woman|girl|female" text = true ->
  Regex.test "girl" text = true
  \/ Regex.test "women|woman|female" text = true.
Proof.
  change (Regex.search ["women"; "woman"; "girl"; "female"] text = true ->
          Regex.search ["girl"] text = true
          \/ Regex.search ["women"; "woman"; "female"] text = true).
  intro H.
  assert (Hin : forall A B : list string,
             (forall a, In a A -> In a B) ->
             forall t, Regex.matches_here A t = true ->
                       Regex.search B t = true).
  { intros A B Hsub t Hm. apply search_here.
    unfold Regex.matches_here in *.
    apply existsb_exists in Hm as (a & Ha & Hc).
    apply existsb_exists. exists a. split; [now apply Hsub | exact Hc]. }
  apply search_cases in H as [H | H].
  - right. revert H. apply search_transfer, Hin. simpl. tauto.
  - apply search_cases in H as [H | H].
    + right. revert H. apply search_transfer, Hin. simpl. tauto.
    + apply search_cases in H as [H | H]; [now left|].
      right. revert H. apply search_transfer, Hin. simpl. tauto.
Qed.

(** X26. In [extractProductAttributes] the gender "female" is given only
    to an apparel text that contains "girl" and none of "women", "woman"
    or "female": those three words contain "men", "man" and "male", which
    are tested first, so an apparel text that mentions any of them is
    classified "male". *)
Theorem female_only_through_girl (productData : Hts.Product) :
  let a := Hts.extractProductAttributes productData in
  let text := Hts.combinedText productData in
  (Api.gender a = "female" ->
     Regex.test "girl" text = true
     /\ Regex.test "women|woman|female" text = false)
  /\ (Api.isApparel a = true ->
      Regex.test "women|woman|female" text = true ->
      Api.gender a = "male").
Proof.
  intros a text. subst a. unfold Hts.extractProductAttributes. fold text.
  cbn [Api.gender Api.isApparel].
  destruct (Regex.test "shirt|pants|dress|jacket|coat|sweater|clothing|wear|apparel|garment" text).
  - destruct (Regex.test "men|man|boy|male" text) eqn:Hm.
    + split; [discriminate | reflexivity].
    + assert (Hf : Regex.test "women|woman|female" text = false).
      { destruct (Regex.test "women|woman|female" text) eqn:E;
          [|reflexivity].
        apply feminine_implies_masculine in E. congruence. }
      split; [|intros _ E; congruence].
      destruct (Regex.test "women|woman|girl|female" text) eqn:Hw;
        [|discriminate].
      intros _. split; [|exact Hf].
      destruct (female_pattern_cases text Hw) as [Hg | Hx];
        [exact Hg | congruence].
  - split; [discriminate | discriminate].
Qed.

Lemma female_only_through_girl_witness :
  let pd := Hts.mkProduct "Women's Summer Dress" "" "" "" (Fin 30) "" in
  Api.gender (Hts.extractProductAttributes pd) = "male".
Proof.
  intro pd.
  exact (proj2 (female_only_through_girl pd) eq_refl eq_refl).
Defined.

(** ** Letter case and white space *)

(** X20. [getCategoryHTSCode] only looks at the category in lower case
    and without the white space around it. *)
Theorem category_code_ignores_case_and_padding (category : string) :
  Hts.getCategoryHTSCode category
  = Hts.getCategoryHTSCode (Str.trim (Str.toLowerCase category)).
Proof.
  destruct (string_dec category "") as [-> | Hne]; [reflexivity|].
  rewrite (category_nonempty_unfold category Hne). cbv zeta.
  set (n := Str.trim (Str.toLowerCase category)).
  destruct (string_dec n "") as [Hn | Hn].
  - rewrite Hn. reflexivity.
  - rewrite (category_nonempty_unfold n Hn). cbv zeta.
    unfold n at 3 4 5 6. now rewrite normal_form_stable.
Qed.

Lemma fold_of_lower (c : ascii) :
  Regex.fold_ascii (Str.lower_char c) = Regex.fold_ascii c
  \/ (is_ascii (Regex.fold_ascii (Str.lower_char c)) = false
      /\ is_ascii (Regex.fold_ascii c) = false).
Proof.
  destruct c as [[] [] [] [] [] [] [] []];
    first [left; reflexivity | right; split; reflexivity].
Qed.

Lemma fold_keeps_ascii (p : ascii) :
  is_ascii p = true -> is_ascii (Regex.fold_ascii p) = true.
Proof. destruct p as [[] [] [] [] [] [] [] []]; auto. Qed.

Lemma ci_eqb_lower (p c : ascii) :
  is_ascii p = true ->
  Regex.ci_eqb p (Str.lower_char c) = Regex.ci_eqb p c.
Proof.
  intro Hp. unfold Regex.ci_eqb.
  destruct (fold_of_lower c) as [-> | [H1 H2]]; [reflexivity|].
  apply fold_keeps_ascii in Hp.
  transitivity false; [|symmetry]; apply Ascii.eqb_neq; intro E;
    rewrite E in Hp; congruence.
Qed.

Lemma word_char_lower (c : ascii) :
  Regex.is_word_char (Str.lower_char c) = Regex.is_word_char c.
Proof. destruct c as [[] [] [] [] [] [] [] []]; reflexivity. Qed.

Lemma word_lower (x : option ascii) :
  Regex.word (option_map Str.lower_char x) = Regex.word x.
Proof. destruct x; [apply word_char_lower | reflexivity]. Qed.

Lemma first_char_lower (s : string) :
  Regex.first_char (Str.toLowerCase s)
  = option_map Str.lower_char (Regex.first_char s).
Proof. now destruct s. Qed.

Lemma boundary_lower (x y : option ascii) :
  Regex.boundary (option_map Str.lower_char x) (option_map Str.lower_char y)
  = Regex.boundary x y.
Proof. unfold Regex.boundary. now rewrite !word_lower. Qed.

Lemma consume_lower (lit : string) :
  ascii_only lit = true ->
  forall (text : string) (last : option ascii),
    Regex.consume lit (Str.toLowerCase text) (option_map Str.lower_char last)
    = match Regex.consume lit text last with
      | Some (l, rest) =>
          Some (option_map Str.lower_char l, Str.toLowerCase rest)
      | None => None
      end.
Proof.
  induction lit as [|p lit IH]; intros Hlit text last; [reflexivity|].
  cbn [ascii_only] in Hlit. apply andb_prop in Hlit as [Hp Hlit].
  destruct text as [|c text]; [reflexivity|].
  cbn [Str.toLowerCase Regex.consume]. rewrite (ci_eqb_lower p c Hp).
  destruct (Regex.ci_eqb p c); [|reflexivity].
  exact (IH Hlit text (Some c)).
Qed.

Lemma matches_here_lower (alts : list string) (text : string) :
  forallb ascii_only alts = true ->
  Regex.matches_here alts (Str.toLowerCase text)
  = Regex.matches_here alts text.
Proof.
  intro Halts. unfold Regex.matches_here.
  induction alts as [|a alts IH]; [reflexivity|].
  cbn [forallb] in Halts. apply andb_prop in Halts as [Ha Halts].
  cbn [existsb]. rewrite (IH Halts).
  pose proof (consume_lower a Ha text None) as H. cbn [option_map] in H.
  rewrite H. now destruct (Regex.consume a text None) as [[l r]|].
Qed.

Lemma search_lower (alts : list string) (text : string) :
  forallb ascii_only alts = true ->
  Regex.search alts (Str.toLowerCase text) = Regex.search alts text.
Proof.
  intro Halts. induction text as [|c text IH]; [reflexivity|].
  pose proof (matches_here_lower alts (String c text) Halts) as H.
  cbn [Str.toLowerCase] in H.
  cbn [Str.toLowerCase Regex.search]. now rewrite IH, H.
Qed.

Lemma word_matches_here_lower (alts : list string) (text : string)
    (before : option ascii) :
  forallb ascii_only alts = true ->
  Regex.word_matches_here (option_map Str.lower_char before) alts
    (Str.toLowerCase text)
  = Regex.word_matches_here before alts text.
Proof.
  intro Halts. unfold Regex.word_matches_here.
  rewrite first_char_lower, boundary_lower. f_equal.
  induction alts as [|a alts IH]; [reflexivity|].
  cbn [forallb] in Halts. apply andb_prop in Halts as [Ha Halts].
  cbn [existsb]. rewrite (IH Halts), (consume_lower a Ha text before).
  destruct (Regex.consume a text before) as [[l r]|]; [|reflexivity].
  now rewrite first_char_lower, boundary_lower.
Qed.

Lemma search_word_lower (alts : list string) (text : string) :
  forallb ascii_only alts = true ->
  forall prev,
    Regex.search_word (option_map Str.lower_char prev) alts
      (Str.toLowerCase text)
    = Regex.search_word prev alts text.
Proof.
  intro Halts. induction text as [|c text IH]; intro prev.
  - pose proof (word_matches_here_lower alts EmptyString prev Halts) as H.
    cbn [Str.toLowerCase] in H.
    cbn [Str.toLowerCase Regex.search_word]. now rewrite H.
  - pose proof (word_matches_here_lower alts (String c text) prev Halts)
      as H.
    cbn [Str.toLowerCase] in H.
    cbn [Str.toLowerCase Regex.search_word].
    rewrite H. f_equal. exact (IH (Some c)).
Qed.

Lemma test_lower (pattern text : string) :
  ascii_pattern pattern = true ->
  Regex.test pattern (Str.toLowerCase text) = Regex.test pattern text.
Proof. intro H. now apply search_lower. Qed.

Lemma test_word_lower (pattern text : string) :
  ascii_pattern pattern = true ->
  Regex.test_word pattern (Str.toLowerCase text)
  = Regex.test_word pattern text.
Proof. intro H. exact (search_word_lower _ text H None). Qed.

Lemma toLowerCase_app (a b : string) :
  Str.toLowerCase (a ++ b) = Str.toLowerCase a ++ Str.toLowerCase b.
Proof.
  induction a as [|c a IH]; [reflexivity|].
  change (String c a ++ b) with (String c (a ++ b)).
  cbn [Str.toLowerCase]. rewrite IH. reflexivity.
Qed.

Lemma combinedText_lower (productData : Hts.Product) :
  Hts.combinedText (lower_cased productData)
  = Str.toLowerCase (Hts.combinedText productData).
Proof.
  unfold Hts.combinedText, lower_cased. cbn [Hts.productTitle Hts.description].
  now rewrite !toLowerCase_app.
Qed.

Lemma first_keyword_lower (table : list (string * string)) (text : string) :
  forallb (fun kv => ascii_pattern (fst kv)) table = true ->
  Hts.first_keyword table (Str.toLowerCase text)
  = Hts.first_keyword table text.
Proof.
  induction table as [|[k v] rest IH]; intro H; [reflexivity|].
  cbn [forallb fst] in H. apply andb_prop in H as [Hk Hrest].
  cbn [Hts.first_keyword]. now rewrite (test_word_lower k text Hk), IH.
Qed.

Lemma materials_lower (text : string) :
  List.filter (fun m => Regex.test_word m (Str.toLowerCase text)) Hts.materials
  = List.filter (fun m => Regex.test_word m text) Hts.materials.
Proof.
  assert (H : forallb ascii_pattern Hts.materials = true)
    by (vm_compute; reflexivity).
  revert H. generalize Hts.materials as l.
  induction l as [|m l IH]; intro H; [reflexivity|].
  cbn [forallb] in H. apply andb_prop in H as [Hm Hl].
  cbn [List.filter]. now rewrite (test_word_lower m text Hm), (IH Hl).
Qed.

(** X27. The keyword classification and the attributes do not depend on
    the letter case of the title and the description: a product and the
    same product with both texts in lower case get the same code from
    [getHTSCodeFromKeywords] and the same attributes from
    [extractProductAttributes]. *)
Theorem keywords_ignore_letter_case (productData : Hts.Product) :
  Hts.getHTSCodeFromKeywords (lower_cased productData)
  = Hts.getHTSCodeFromKeywords productData
  /\ Hts.extractProductAttributes (lower_cased productData)
     = Hts.extractProductAttributes productData.
Proof.
  split.
  - unfold Hts.getHTSCodeFromKeywords.
    rewrite combinedText_lower, first_keyword_lower; [reflexivity|].
    vm_compute. reflexivity.
  - unfold Hts.extractProductAttributes.
    rewrite combinedText_lower, materials_lower.
    rewrite !test_lower by (vm_compute; reflexivity).
    reflexivity.
Qed.

(** ** Instances *)

Lemma fallbackTariffCheck_always_answers_witness :
  exists r pre amt,
    Api.fallbackTariffCheck (mkProduct "Korea" (Fin 50) None) = Returns r
    /\ Api.preTariffPrice r = Fin pre
    /\ Api.tariffAmount r = Fin amt
    /\ pre + amt == 50.
Proof.
  assert (H0 : 0 <= 50) by (unfold Qle; simpl; lia).
  destruct (fallbackTariffCheck_always_answers
              (mkProduct "Korea" (Fin 50) None))
    as (r & q & Hr & _ & _ & _ & _ & _ & Hparts).
  destruct (Hparts 50 eq_refl H0) as (pre & amt & Hpre & Hamt & _ & _ & Hsum).
  exists r, pre, amt. exact (conj Hr (conj Hpre (conj Hamt Hsum))).
Defined.

Lemma base_rate_is_never_zero_witness :
  exists q, Hts.getBaseTariffRate (VStr "4901") = Returns (Fin q) /\ q = 0.03.
Proof.
  destruct (base_rate_is_never_zero "4901") as (q & Hq & _ & _ & Hzero & _).
  exists q. split; [exact Hq|].
  apply (Hzero 0.00); reflexivity.
Defined.

Lemma category_unclassified_iff_witness :
  (forall k v, In (k, v) Hts.categoryMap -> Str.includes k "garden" = false)
  /\ object_prototype_property "garden" = None.
Proof.
  exact (proj1 (category_unclassified_iff "Garden") eq_refl).
Defined.

Lemma enrichment_always_succeeds_witness :
  exists d,
    Hts.enrichProductData
      (Hts.mkProduct "USB cable" "" "Taiwan" "Electronics" (Fin 9) "8544.42")
    = Returns d
    /\ Hts.d_htsCode d = VStr "8544.42".
Proof.
  destruct (enrichment_always_succeeds
              (Hts.mkProduct "USB cable" "" "Taiwan" "Electronics" (Fin 9)
                 "8544.42"))
    as (d & Hd & _ & _ & _ & Hkept).
  exists d. split; [exact Hd|]. apply Hkept. discriminate.
Defined.

(** ** Two facts used above, as properties of the connector *)

(** X10. [normalizeCountryName] is idempotent on every input for which
    it returns a string: normalising that string again returns it
    unchanged. *)
Theorem normalization_repeats_on_strings (s v : string)
    (Hv : Api.normalizeCountryName (VStr s) = Returns (VStr v)) :
  Api.normalizeCountryName (VStr v) = Returns (VStr v).
Proof. exact (normalize_idempotent_on_strings s v Hv). Qed.

Lemma normalization_repeats_on_strings_witness :
  Api.normalizeCountryName (VStr "south korea") = Returns (VStr "south korea").
Proof.
  exact (normalization_repeats_on_strings " Republic of Korea" "south korea"
           eq_refl).
Defined.

(** X15. Every key that [constructCacheKey] builds contains a dash and is
    never the name of a property inherited from [Object.prototype], so a
    cache lookup under such a key can only hit a stored record. *)
Theorem cache_keys_hit_stored_records_only (productData : Api.Enriched)
    (c : Api.TariffCache) :
  Str.includes "-" (Api.constructCacheKey productData) = true
  /\ object_prototype_property (Api.constructCacheKey productData) = None
  /\ Api.has_entry c (Api.constructCacheKey productData)
     = match Api.data c !! Api.constructCacheKey productData with
       | Some _ => true
       | None => false
       end.
Proof.
  destruct (constructCacheKey_own_only productData) as [Hdash Hown].
  repeat split; try assumption.
  unfold Api.has_entry. now rewrite Hown.
Qed.
